(** * Natural-language command pipeline of smartfocusBackend

    Shallow embedding of [services/nl_service.py] (reference resolver,
    ownership guards, tool-call normaliser, planner with its idempotency
    checker, executor, plan (de)serialisation), of the parts of
    [services/subject_service.py] and [services/event_service.py] that the
    executor dispatches to and of the rest of those two services, of the
    routers [v1_nl.py], [v1_subjects.py], [v1_events.py], [v1_users.py]
    and [v1_auth.py], and of [services/user_service.py], [auth.py] and
    [utils.py] (registration, profile update, login; the password hash
    and the token are opaque functions).

    Modelling conventions.
    - Python values that reach the pipeline from the language model or from
      a client (tool-call arguments, replayed action dicts) are [pyval];
      a Python [dict] is an association list (insertion ordered, first key
      wins on lookup).
    - Python exceptions are the constructors of [exc]; fallible code lives
      in the error monad [result].
    - The database is two [gmap]s keyed by the autoincrement primary key;
      a row object of SQLAlchemy is the pair (key, row).  The rows of a
      [select] come in key order (SQL leaves the order unspecified).
    - Strings are byte strings; [str.strip] removes ASCII whitespace. *)

From Stdlib Require Import ZArith Ascii String List Bool Permutation.
From stdpp Require Import base gmap strings list pretty.

Import ListNotations.
Local Open Scope string_scope.

Set Warnings "-register-all".

(* ------------------------------------------------------------------ *)
(** ** Python values *)

Inductive pyval : Type :=
| VNone
| VBool (b : bool)
| VInt (z : Z)
| VStr (s : string)
| VList (l : list pyval)
| VDict (d : list (string * pyval)).

Definition dict := list (string * pyval).

(** Truth value of [if v:] / [not v] / [bool(v)]. *)
Definition truthy (v : pyval) : bool :=
  match v with
  | VNone => false
  | VBool b => b
  | VInt z => negb (Z.eqb z 0)
  | VStr s => negb (String.eqb s "")
  | VList l => match l with [] => false | _ => true end
  | VDict d => match d with [] => false | _ => true end
  end.

Definition type_name (v : pyval) : string :=
  match v with
  | VNone => "NoneType" | VBool _ => "bool" | VInt _ => "int"
  | VStr _ => "str" | VList _ => "list" | VDict _ => "dict"
  end.

Fixpoint dict_get (d : dict) (k : string) : option pyval :=
  match d with
  | [] => None
  | (k', v) :: r => if String.eqb k k' then Some v else dict_get r k
  end.

(** [d[k] = v]: overwrite in place, or append a new key. *)
Fixpoint dict_set (d : dict) (k : string) (v : pyval) : dict :=
  match d with
  | [] => [(k, v)]
  | (k', v') :: r => if String.eqb k k' then (k', v) :: r else (k', v') :: dict_set r k v
  end.

Fixpoint dict_remove (d : dict) (k : string) : dict :=
  match d with
  | [] => []
  | (k', v') :: r => if String.eqb k k' then r else (k', v') :: dict_remove r k
  end.

(** [d.get(k, default)] on a dict. *)
Definition dget (d : dict) (k : string) (default : pyval) : pyval :=
  match dict_get d k with Some v => v | None => default end.

Definition dmem (k : string) (d : dict) : bool :=
  match dict_get d k with Some _ => true | None => false end.

(* ------------------------------------------------------------------ *)
(** ** Strings *)

Definition is_ws (c : ascii) : bool :=
  let n := nat_of_ascii c in
  (Nat.eqb n 32 || ((9 <=? n) && (n <=? 13)) || ((28 <=? n) && (n <=? 31)))%nat.

Fixpoint lstrip (s : string) : string :=
  match s with
  | EmptyString => EmptyString
  | String c r => if is_ws c then lstrip r else s
  end.

Fixpoint str_rev_app (s acc : string) : string :=
  match s with
  | EmptyString => acc
  | String c r => str_rev_app r (String c acc)
  end.

Definition str_rev (s : string) : string := str_rev_app s EmptyString.

(** [str.strip()] *)
Definition strip (s : string) : string := str_rev (lstrip (str_rev (lstrip s))).

Definition lower_ascii (c : ascii) : ascii :=
  let n := nat_of_ascii c in
  if ((65 <=? n) && (n <=? 90))%nat then ascii_of_nat (n + 32) else c.

Fixpoint lower (s : string) : string :=
  match s with
  | EmptyString => EmptyString
  | String c r => String (lower_ascii c) (lower r)
  end.

Fixpoint str_prefix (p s : string) : bool :=
  match p, s with
  | EmptyString, _ => true
  | String c p', String d s' => Ascii.eqb c d && str_prefix p' s'
  | String _ _, EmptyString => false
  end.

Fixpoint str_contains (hay needle : string) : bool :=
  str_prefix needle hay ||
  match hay with
  | EmptyString => false
  | String _ r => str_contains r needle
  end.

(** [col.ilike(f"%{needle}%")]: case-insensitive substring test.
    SQL wildcards occurring inside [needle] are not interpreted. *)
Definition ilike_contains (col needle : string) : bool :=
  str_contains (lower col) (lower needle).

(** [text LIKE pattern] with the default escape character [\]: [%]
    matches any run of characters, [_] exactly one, [\c] the character
    [c].  (PostgreSQL rejects a pattern ending in the escape character;
    the patterns built by the services all end in [%].) *)
Fixpoint like_match (p s : string) : bool :=
  match p with
  | EmptyString => match s with EmptyString => true | String _ _ => false end
  | String c p' =>
      if Ascii.eqb c "%" then
        (fix go (t : string) : bool :=
           like_match p' t || match t with EmptyString => false | String _ t' => go t' end) s
      else
        match s with
        | EmptyString => false
        | String d s' =>
            if Ascii.eqb c "_" then like_match p' s'
            else if Ascii.eqb c "\" then
              match p' with
              | String e p'' => Ascii.eqb e d && like_match p'' s'
              | EmptyString => false
              end
            else Ascii.eqb c d && like_match p' s'
        end
  end.

(** [col.ilike(f"%{q}%")]: [LIKE] on the lower-cased operands. *)
Definition ilike_pct (col q : string) : bool :=
  like_match (lower ("%" ++ q ++ "%")) (lower col).

Definition newline : string := String (ascii_of_nat 10) EmptyString.

Fixpoint join (sep : string) (l : list string) : string :=
  match l with
  | [] => ""
  | [x] => x
  | x :: r => x ++ sep ++ join sep r
  end.

(** [repr(v)] and [str(v)] (string escapes are not modelled). *)
Fixpoint py_repr (v : pyval) : string :=
  match v with
  | VNone => "None"
  | VBool true => "True"
  | VBool false => "False"
  | VInt z => pretty z
  | VStr s => "'" ++ s ++ "'"
  | VList l => "[" ++ join ", " (map py_repr l) ++ "]"
  | VDict d => "{" ++ join ", " (map (fun '(k, x) => "'" ++ k ++ "': " ++ py_repr x) d) ++ "}"
  end.

Definition py_str (v : pyval) : string :=
  match v with VStr s => s | _ => py_repr v end.

(* ------------------------------------------------------------------ *)
(** ** Exceptions and the error monad *)

(** The exception classes the pipeline can meet.  [subject_service] and
    [event_service] each declare their own [MateriaNoEncontrada] and
    [AccesoNoAutorizado]; nothing downstream tells the two apart, so one
    constructor stands for both. *)
Inductive exc : Type :=
| ValueError (msg : string)
| AttributeError (msg : string)
| TypeError (msg : string)
| KeyError (key : string)
| ValidationError (msg : string)       (** pydantic *)
| DataError (msg : string)             (** driver rejects a key value *)
| IntegrityError (msg : string)        (** NOT NULL violated at commit *)
| MultipleResultsFound                 (** [scalar_one_or_none] *)
| MateriaNoEncontrada
| AccesoNoAutorizado
| MateriaDuplicada
| EventoNoEncontrado.

(** [str(e)]; the domain exceptions are raised without arguments. *)
Definition str_exc (e : exc) : string :=
  match e with
  | ValueError m | AttributeError m | TypeError m
  | ValidationError m | DataError m | IntegrityError m => m
  | KeyError k => "'" ++ k ++ "'"
  | MultipleResultsFound => "Multiple rows were found when one or none was required"
  | MateriaNoEncontrada | AccesoNoAutorizado | MateriaDuplicada | EventoNoEncontrado => ""
  end.

Inductive result (A : Type) : Type :=
| Ok (a : A)
| Exc (e : exc).
Arguments Ok {A} a.
Arguments Exc {A} e.

Global Instance result_ret : MRet result := fun _ a => Ok a.
Global Instance result_bind : MBind result :=
  fun _ _ f c => match c with Ok a => f a | Exc e => Exc e end.

(** Method calls on a value that must be a [dict] / [str]. *)
Definition py_get (o : pyval) (k : string) (default : pyval) : result pyval :=
  match o with
  | VDict d => Ok (dget d k default)
  | _ => Exc (AttributeError ("'" ++ type_name o ++ "' object has no attribute 'get'"))
  end.

Definition py_strip (v : pyval) : result string :=
  match v with
  | VStr s => Ok (strip s)
  | _ => Exc (AttributeError ("'" ++ type_name v ++ "' object has no attribute 'strip'"))
  end.

Definition digit_val (c : ascii) : option Z :=
  let n := nat_of_ascii c in
  if ((48 <=? n) && (n <=? 57))%nat then Some (Z.of_nat (n - 48)) else None.

Fixpoint digits_acc (s : string) (acc : Z) : option Z :=
  match s with
  | EmptyString => Some acc
  | String c r => match digit_val c with
                  | Some d => digits_acc r (10 * acc + d)
                  | None => None
                  end
  end.

Definition parse_digits (s : string) : option Z :=
  match s with EmptyString => None | _ => digits_acc s 0 end.

(** [int(s)] on a string: optional sign, decimal digits, surrounding
    whitespace (digit separators [_] are not modelled). *)
Definition parse_int (s : string) : option Z :=
  match strip s with
  | String "-" r => option_map Z.opp (parse_digits r)
  | String "+" r => parse_digits r
  | t => parse_digits t
  end.

(** [int(v)] *)
Definition py_int (v : pyval) : result Z :=
  match v with
  | VInt z => Ok z
  | VBool b => Ok (if b then 1 else 0)%Z
  | VStr s => match parse_int s with
              | Some z => Ok z
              | None => Exc (ValueError ("invalid literal for int() with base 10: '" ++ s ++ "'"))
              end
  | _ => Exc (TypeError ("int() argument must be a string, a bytes-like object or a real number, not '"
                         ++ type_name v ++ "'"))
  end.

(* ------------------------------------------------------------------ *)
(** ** Database *)

Record Materia := mkMateria {
  materia_usuario_id : Z;
  materia_nombre : string;
  materia_descripcion : option string
}.

(** [evento_fecha] is kept as its ISO text [YYYY-MM-DD]. *)
Record Evento := mkEvento {
  evento_materia_id : Z;
  evento_nombre : string;
  evento_descripcion : option string;
  evento_fecha : string;
  evento_estado : string
}.

Record DB := mkDB {
  materias : gmap Z Materia;
  eventos : gmap Z Evento;
  next_materia_id : Z;   (** next value of the materia sequence *)
  next_evento_id : Z     (** next value of the evento sequence *)
}.

(** The key of [session.get(Model, key)]: only integers reach a row. *)
Definition db_key (key : pyval) : result Z :=
  match key with
  | VInt z => Ok z
  | _ => Exc (DataError ("invalid input syntax for type integer: " ++ py_repr key))
  end.

(** [db.get(models.Materia, key)] *)
Definition get_materia (db : DB) (key : pyval) : result (option (Z * Materia)) :=
  k ← db_key key;
  Ok (match materias db !! k with Some m => Some (k, m) | None => None end).

(** [db.get(models.Evento, key)] *)
Definition get_evento (db : DB) (key : pyval) : result (option (Z * Evento)) :=
  k ← db_key key;
  Ok (match eventos db !! k with Some e => Some (k, e) | None => None end).

(** [db.execute(stmt).scalar_one_or_none()] *)
Definition scalar_one_or_none {A} (rows : list A) : result (option A) :=
  match rows with
  | [] => Ok None
  | [x] => Ok (Some x)
  | _ => Exc MultipleResultsFound
  end.

Definition materia_rows (db : DB) : list (Z * Materia) := map_to_list (materias db).
Definition evento_rows (db : DB) : list (Z * Evento) := map_to_list (eventos db).

(** [select(Materia).where(materia_usuario_id == uid, materia_nombre == nombre)] *)
Definition materias_named (db : DB) (uid : Z) (nombre : string) : list (Z * Materia) :=
  List.filter (fun '(_, m) => Z.eqb (materia_usuario_id m) uid && String.eqb (materia_nombre m) nombre)
              (materia_rows db).

(** Inner join of an event with its subject, filtered on the owner. *)
Definition evento_owned_by (db : DB) (uid : Z) (e : Evento) : bool :=
  match materias db !! evento_materia_id e with
  | Some m => Z.eqb (materia_usuario_id m) uid
  | None => false
  end.

(* ------------------------------------------------------------------ *)
(** ** Request schemas (pydantic, lax mode) *)

Definition validation_error (model : string) : exc :=
  ValidationError ("1 validation error for " ++ model).

(** [str] field with length bounds. *)
Definition v_str (lo hi : nat) (v : pyval) : option string :=
  match v with
  | VStr s => if ((lo <=? String.length s) && (String.length s <=? hi))%nat then Some s else None
  | _ => None
  end.

(** [Optional[str]] field with a maximal length. *)
Definition v_opt_str (lo hi : nat) (v : pyval) : option (option string) :=
  match v with
  | VNone => Some None
  | _ => option_map Some (v_str lo hi v)
  end.

(** [int] field with [ge=1]; lax mode also takes booleans and digit strings. *)
Definition v_int_ge1 (v : pyval) : option Z :=
  let z := match v with
           | VInt z => Some z
           | VBool b => Some (if b then 1 else 0)%Z
           | VStr s => parse_int s
           | _ => None
           end in
  match z with Some n => if Z.leb 1 n then Some n else None | None => None end.

Definition two_digits (c1 c2 : ascii) : option Z :=
  match digit_val c1, digit_val c2 with
  | Some a, Some b => Some (10 * a + b)%Z
  | _, _ => None
  end.

(** ISO calendar date [YYYY-MM-DD] (month and day ranges checked; the
    length of each month is not modelled). *)
Definition iso_date (s : string) : option string :=
  match s with
  | String y1 (String y2 (String y3 (String y4 (String "-"
      (String m1 (String m2 (String "-" (String d1 (String d2 EmptyString))))))))) =>
      match digits_acc (String y1 (String y2 (String y3 (String y4 EmptyString)))) 0,
            two_digits m1 m2, two_digits d1 d2 with
      | Some _, Some m, Some d =>
          if (Z.leb 1 m && Z.leb m 12 && Z.leb 1 d && Z.leb d 31)%Z then Some s else None
      | _, _, _ => None
      end
  | _ => None
  end.

Definition v_date (v : pyval) : option string :=
  match v with VStr s => iso_date s | _ => None end.

(** [EventoEstado = Literal["pendiente", "aprobado", "desaprobado"]] *)
Definition v_estado (v : pyval) : option string :=
  match v with
  | VStr s => if (String.eqb s "pendiente" || String.eqb s "aprobado" || String.eqb s "desaprobado")
              then Some s else None
  | _ => None
  end.

(** [Model( **kwargs)]: the keyword bag must be a mapping. *)
Definition kwargs (v : pyval) : result dict :=
  match v with
  | VDict d => Ok d
  | _ => Exc (TypeError ("argument after ** must be a mapping, not " ++ type_name v))
  end.

(** A required field. *)
Definition req {A} (model : string) (d : dict) (k : string) (f : pyval -> option A) : result A :=
  match dict_get d k with
  | Some v => match f v with Some a => Ok a | None => Exc (validation_error model) end
  | None => Exc (validation_error model)
  end.

(** A field with a default. *)
Definition dflt {A} (model : string) (d : dict) (k : string) (f : pyval -> option A) (x : A) : result A :=
  match dict_get d k with
  | Some v => match f v with Some a => Ok a | None => Exc (validation_error model) end
  | None => Ok x
  end.

(** An optional field as seen by [model_dump(exclude_unset=True)]:
    [None] when unset, [Some x] when given. *)
Definition opt {A} (model : string) (d : dict) (k : string) (f : pyval -> option A) : result (option A) :=
  match dict_get d k with
  | Some v => match f v with Some a => Ok (Some a) | None => Exc (validation_error model) end
  | None => Ok None
  end.

Record MateriaCreate := { mc_nombre : string; mc_descripcion : option string; mc_usuario_id : Z }.
Record MateriaUpdate := { mu_nombre : option (option string); mu_descripcion : option (option string) }.
Record EventoCreate := {
  ec_nombre : string; ec_descripcion : option string; ec_fecha : string;
  ec_estado : string; ec_materia_id : Z }.
Record EventoUpdate := {
  eu_nombre : option (option string); eu_descripcion : option (option string);
  eu_fecha : option (option string); eu_estado : option (option string) }.

Definition v_any_str (v : pyval) : option string :=
  match v with VStr s => Some s | _ => None end.

Definition v_opt {A} (f : pyval -> option A) (v : pyval) : option (option A) :=
  match v with VNone => Some None | _ => option_map Some (f v) end.

Definition mk_MateriaCreate (a : pyval) : result MateriaCreate :=
  d ← kwargs a;
  n ← req "MateriaCreate" d "materia_nombre" (v_str 1 100);
  ds ← dflt "MateriaCreate" d "materia_descripcion" (v_opt v_any_str) None;
  u ← req "MateriaCreate" d "materia_usuario_id" v_int_ge1;
  Ok {| mc_nombre := n; mc_descripcion := ds; mc_usuario_id := u |}.

Definition mk_MateriaUpdate (a : pyval) : result MateriaUpdate :=
  d ← kwargs a;
  n ← opt "MateriaUpdate" d "materia_nombre" (v_opt_str 1 100);
  ds ← opt "MateriaUpdate" d "materia_descripcion" (v_opt v_any_str);
  Ok {| mu_nombre := n; mu_descripcion := ds |}.

Definition mk_EventoCreate (a : pyval) : result EventoCreate :=
  d ← kwargs a;
  n ← req "EventoCreate" d "evento_nombre" (v_str 1 150);
  ds ← dflt "EventoCreate" d "evento_descripcion" (v_opt_str 0 255) None;
  f ← req "EventoCreate" d "evento_fecha" v_date;
  st ← dflt "EventoCreate" d "evento_estado" v_estado "pendiente";
  mid ← req "EventoCreate" d "evento_materia_id" v_int_ge1;
  Ok {| ec_nombre := n; ec_descripcion := ds; ec_fecha := f; ec_estado := st; ec_materia_id := mid |}.

Definition mk_EventoUpdate (a : pyval) : result EventoUpdate :=
  d ← kwargs a;
  n ← opt "EventoUpdate" d "evento_nombre" (v_opt_str 1 150);
  ds ← opt "EventoUpdate" d "evento_descripcion" (v_opt_str 0 255);
  f ← opt "EventoUpdate" d "evento_fecha" (v_opt v_date);
  st ← opt "EventoUpdate" d "evento_estado" (v_opt v_estado);
  Ok {| eu_nombre := n; eu_descripcion := ds; eu_fecha := f; eu_estado := st |}.

(* ------------------------------------------------------------------ *)
(** ** services/subject_service.py *)

Module SubjectService.

Definition _get_materia_autorizada (db : DB) (materia_id : pyval) (usuario_id : Z)
  : result (Z * Materia) :=
  mat ← get_materia db materia_id;
  match mat with
  | None => Exc MateriaNoEncontrada
  | Some (k, m) =>
      if negb (Z.eqb (materia_usuario_id m) usuario_id) then Exc AccesoNoAutorizado
      else Ok (k, m)
  end.

(** The new row takes the next value of the sequence. *)
Definition create_subject (db : DB) (usuario_id : Z) (payload : MateriaCreate)
  : result ((Z * Materia) * DB) :=
  let nombre := strip (mc_nombre payload) in
  dup ← scalar_one_or_none (materias_named db usuario_id nombre);
  match dup with
  | Some _ => Exc MateriaDuplicada
  | None =>
      let k := next_materia_id db in
      let m := {| materia_usuario_id := usuario_id; materia_nombre := nombre;
                  materia_descripcion := mc_descripcion payload |} in
      Ok ((k, m), {| materias := <[k := m]> (materias db); eventos := eventos db;
                     next_materia_id := k + 1; next_evento_id := next_evento_id db |})
  end.

Definition update_subject (db : DB) (usuario_id : Z) (materia_id : pyval) (payload : MateriaUpdate)
  : result ((Z * Materia) * DB) :=
  '(k, m) ← _get_materia_autorizada db materia_id usuario_id;
  m1 ← match mu_nombre payload with
       | Some (Some n) =>
           if String.eqb n "" then Ok m else
           let nuevo := strip n in
           dup ← scalar_one_or_none
                   (List.filter (fun '(k', _) => negb (Z.eqb k' k))
                                (materias_named db usuario_id nuevo));
           match dup with
           | Some _ => Exc MateriaDuplicada
           | None => Ok {| materia_usuario_id := materia_usuario_id m; materia_nombre := nuevo;
                           materia_descripcion := materia_descripcion m |}
           end
       | _ => Ok m
       end;
  let m2 := match mu_descripcion payload with
            | Some ds => {| materia_usuario_id := materia_usuario_id m1;
                            materia_nombre := materia_nombre m1; materia_descripcion := ds |}
            | None => m1
            end in
  Ok ((k, m2), {| materias := <[k := m2]> (materias db); eventos := eventos db;
                  next_materia_id := next_materia_id db; next_evento_id := next_evento_id db |}).

(** The events of the subject go with it ([ondelete="CASCADE"]). *)
Definition delete_subject (db : DB) (usuario_id : Z) (materia_id : pyval) : result DB :=
  '(k, _) ← _get_materia_autorizada db materia_id usuario_id;
  Ok {| materias := delete k (materias db);
        eventos := filter (fun '(_, e) => evento_materia_id e <> k) (eventos db);
        next_materia_id := next_materia_id db; next_evento_id := next_evento_id db |}.

Definition get_subject (db : DB) (usuario_id : Z) (materia_id : pyval) : result (Z * Materia) :=
  _get_materia_autorizada db materia_id usuario_id.

(** The rows come back in the order [order_by_nombre] puts them in (the
    database's [ORDER BY materia_nombre ASC]); [skip] and [limit] are the
    values the router validated ([skip >= 0], [1 <= limit <= 200]). *)
Definition list_subjects (order_by_nombre : list (Z * Materia) -> list (Z * Materia))
    (db : DB) (usuario_id : Z) (q : option string) (skip limit : nat) : list (Z * Materia) :=
  let rows := List.filter (fun '(_, m) => Z.eqb (materia_usuario_id m) usuario_id) (materia_rows db) in
  let rows := match q with
              | Some s => if String.eqb s "" then rows
                          else List.filter (fun '(_, m) => ilike_pct (materia_nombre m) s) rows
              | None => rows
              end in
  firstn limit (skipn skip (order_by_nombre rows)).

End SubjectService.

(* ------------------------------------------------------------------ *)
(** ** services/event_service.py *)

Module EventService.

Definition _assert_materia_propia (db : DB) (materia_id : pyval) (usuario_id : Z)
  : result (Z * Materia) :=
  materia ← get_materia db materia_id;
  match materia with
  | None => Exc MateriaNoEncontrada
  | Some (k, m) =>
      if negb (Z.eqb (materia_usuario_id m) usuario_id) then Exc AccesoNoAutorizado
      else Ok (k, m)
  end.

Definition _get_evento_autorizado (db : DB) (evento_id : pyval) (usuario_id : Z)
  : result (Z * Evento) :=
  ev ← get_evento db evento_id;
  match ev with
  | None => Exc EventoNoEncontrado
  | Some (k, e) =>
      mat ← get_materia db (VInt (evento_materia_id e));
      match mat with
      | Some (_, m) => if Z.eqb (materia_usuario_id m) usuario_id then Ok (k, e)
                       else Exc AccesoNoAutorizado
      | None => Exc AccesoNoAutorizado
      end
  end.

Definition create_event (db : DB) (usuario_id : Z) (payload : EventoCreate)
  : result ((Z * Evento) * DB) :=
  _ ← _assert_materia_propia db (VInt (ec_materia_id payload)) usuario_id;
  let k := next_evento_id db in
  let e := {| evento_materia_id := ec_materia_id payload; evento_nombre := ec_nombre payload;
              evento_descripcion := ec_descripcion payload; evento_fecha := ec_fecha payload;
              evento_estado := ec_estado payload |} in
  Ok ((k, e), {| materias := materias db; eventos := <[k := e]> (eventos db);
                 next_materia_id := next_materia_id db; next_evento_id := k + 1 |}).

(** [setattr] of every field the payload sets; a [None] written into a
    NOT NULL column makes the commit fail and nothing is stored. *)
Definition update_event (db : DB) (usuario_id : Z) (evento_id : pyval) (payload : EventoUpdate)
  : result ((Z * Evento) * DB) :=
  '(k, e) ← _get_evento_autorizado db evento_id usuario_id;
  let not_null (f : option (option string)) (old : string) : result string :=
    match f with
    | Some (Some v) => Ok v
    | Some None => Exc (IntegrityError "null value violates not-null constraint")
    | None => Ok old
    end in
  n ← not_null (eu_nombre payload) (evento_nombre e);
  f ← not_null (eu_fecha payload) (evento_fecha e);
  st ← not_null (eu_estado payload) (evento_estado e);
  let ds := match eu_descripcion payload with Some d => d | None => evento_descripcion e end in
  let e2 := {| evento_materia_id := evento_materia_id e; evento_nombre := n;
               evento_descripcion := ds; evento_fecha := f; evento_estado := st |} in
  Ok ((k, e2), {| materias := materias db; eventos := <[k := e2]> (eventos db);
                  next_materia_id := next_materia_id db; next_evento_id := next_evento_id db |}).

Definition delete_event (db : DB) (usuario_id : Z) (evento_id : pyval) : result DB :=
  '(k, _) ← _get_evento_autorizado db evento_id usuario_id;
  Ok {| materias := materias db; eventos := delete k (eventos db);
        next_materia_id := next_materia_id db; next_evento_id := next_evento_id db |}.

Definition get_event (db : DB) (usuario_id : Z) (evento_id : pyval) : result (Z * Evento) :=
  _get_evento_autorizado db evento_id usuario_id.

(** [order_by_fecha] is the database's [ORDER BY evento_fecha ASC]. *)
Definition list_events (order_by_fecha : list (Z * Evento) -> list (Z * Evento))
    (db : DB) (usuario_id materia_id : Z) (estado : option string) (skip limit : nat)
    : result (list (Z * Evento)) :=
  _ ← _assert_materia_propia db (VInt materia_id) usuario_id;
  let rows := List.filter (fun '(_, e) => Z.eqb (evento_materia_id e) materia_id) (evento_rows db) in
  let rows := match estado with
              | Some st => if String.eqb st "" then rows
                           else List.filter (fun '(_, e) => String.eqb (evento_estado e) st) rows
              | None => rows
              end in
  Ok (firstn limit (skipn skip (order_by_fecha rows))).

(** The join with [Materia] keeps the events whose subject belongs to the
    user. *)
Definition get_user_events (order_by_fecha : list (Z * Evento) -> list (Z * Evento))
    (db : DB) (usuario_id : Z) (q : option string) (skip limit : nat) : list (Z * Evento) :=
  let rows := List.filter (fun '(_, e) => evento_owned_by db usuario_id e) (evento_rows db) in
  let rows := match q with
              | Some s => if String.eqb s "" then rows
                          else List.filter (fun '(_, e) => ilike_pct (evento_nombre e) s) rows
              | None => rows
              end in
  firstn limit (skipn skip (order_by_fecha rows)).

(** The bulk [DELETE]; its [rowcount] is the number of rows it removed. *)
Definition delete_events_by_materia (db : DB) (usuario_id materia_id : Z) : result (nat * DB) :=
  _ ← _assert_materia_propia db (VInt materia_id) usuario_id;
  let gone := List.filter (fun '(_, e) => Z.eqb (evento_materia_id e) materia_id) (evento_rows db) in
  Ok (length gone,
      {| materias := materias db;
         eventos := filter (fun '(_, e) => evento_materia_id e <> materia_id) (eventos db);
         next_materia_id := next_materia_id db; next_evento_id := next_evento_id db |}).

End EventService.

(* ------------------------------------------------------------------ *)
(** ** services/nl_service.py *)

Module NlService.

(** [PlannedAction] with the attributes the checker attaches afterwards
    ([None]: attribute never set, so [getattr] falls back to its default).
    Fields typed [Dict]/[str] in Python carry whatever a replayed client
    dict holds, hence [pyval]. *)
Record PlannedAction := mkPA {
  kind : pyval;
  args : pyval;
  description : pyval;
  allow : option pyval;
  resolved : option pyval;
  conflict : option pyval
}.

Record PlanResult := mkPlan {
  actions : list PlannedAction;
  summary : string
}.

Definition new_action (k : string) (a : dict) (descr : string) : PlannedAction :=
  {| kind := VStr k; args := VDict a; description := VStr descr;
     allow := None; resolved := None; conflict := None |}.

(** [name == "literal"] *)
Definition py_eq_str (v : pyval) (s : string) : bool :=
  match v with VStr t => String.eqb t s | _ => false end.

(** [getattr(a, 'allow', True)] used as a condition. *)
Definition allow_of (a : PlannedAction) : bool :=
  match allow a with Some v => truthy v | None => true end.

(** *** Reference resolver and ownership guards *)

Definition _get_materia_by_name (db : DB) (usuario_id : Z) (nombre : pyval)
  : result (option (Z * Materia)) :=
  n ← py_strip nombre;
  scalar_one_or_none (materias_named db usuario_id n).

(** The event query once the optional subject filter is known. *)
Definition evento_query (db : DB) (usuario_id : Z) (evento_ref materia_ref : pyval)
    (materia : option (Z * Materia)) : result (option (Z * Evento)) :=
  eref ← (if truthy evento_ref then s ← py_strip evento_ref; Ok (Some s) else Ok None);
  let eventos_q :=
    List.filter
      (fun '(_, e) =>
         evento_owned_by db usuario_id e
         && match materia with Some (mid, _) => Z.eqb (evento_materia_id e) mid | None => true end
         && match eref with Some s => ilike_contains (evento_nombre e) s | None => true end)
      (evento_rows db) in
  match eventos_q with
  | [ev] => Ok (Some ev)
  | _ =>
      if (1 <? length eventos_q)%nat && negb (truthy evento_ref) && truthy materia_ref then
        match materia with
        | Some (mid, _) =>
            match List.filter (fun '(_, e) => Z.eqb (evento_materia_id e) mid) eventos_q with
            | [ev] => Ok (Some ev)
            | _ => Ok None
            end
        | None => Exc (AttributeError "'NoneType' object has no attribute 'materia_id'")
        end
      else Ok None
  end.

Definition _find_evento_by_references (db : DB) (usuario_id : Z) (evento_ref materia_ref : pyval)
  : result (option (Z * Evento)) :=
  if truthy materia_ref then
    materia ← _get_materia_by_name db usuario_id materia_ref;
    match materia with
    | None => Ok None
    | Some m => evento_query db usuario_id evento_ref materia_ref (Some m)
    end
  else evento_query db usuario_id evento_ref materia_ref None.

Definition _ensure_ownership_materia (db : DB) (usuario_id : Z) (materia_id : pyval)
  : result (Z * Materia) :=
  mat ← get_materia db materia_id;
  match mat with
  | Some (k, m) =>
      if Z.eqb (materia_usuario_id m) usuario_id then Ok (k, m)
      else Exc (ValueError "Materia no encontrada")
  | None => Exc (ValueError "Materia no encontrada")
  end.

Definition _ensure_ownership_evento (db : DB) (usuario_id : Z) (evento_id : pyval)
  : result (Z * Evento) :=
  ev ← get_evento db evento_id;
  match ev with
  | None => Exc (ValueError "Evento no encontrado")
  | Some (k, e) =>
      _ ← _ensure_ownership_materia db usuario_id (VInt (evento_materia_id e));
      Ok (k, e)
  end.

(** *** The normaliser's monad: the lists [out] and [errors] are mutated
    in place, so what was appended before an exception stays. *)

Definition acc := (list PlannedAction * list string)%type.
Definition NM (A : Type) := acc -> result A * acc.

Definition nm_ret {A} (a : A) : NM A := fun s => (Ok a, s).
Definition nm_bind {A B} (c : NM A) (f : A -> NM B) : NM B :=
  fun s => match c s with
           | (Ok a, s') => f a s'
           | (Exc e, s') => (Exc e, s')
           end.
Definition lift {A} (r : result A) : NM A := fun s => (r, s).
Definition emit_action (a : PlannedAction) : NM unit :=
  fun s => (Ok tt, ((fst s ++ [a])%list, snd s)).
Definition emit_error (m : string) : NM unit :=
  fun s => (Ok tt, (fst s, (snd s ++ [m])%list)).
(** [try: c except <handled>: h(e)] *)
Definition try_except {A} (c : NM A) (handled : exc -> bool) (h : exc -> NM A) : NM A :=
  fun s => match c s with
           | (Exc e, s') => if handled e then h e s' else (Exc e, s')
           | r => r
           end.

Notation "'let!' x ':=' c 'in' k" := (nm_bind c (fun x => k))
  (at level 200, x name, c at level 100, k at level 200).

Definition is_value_error (e : exc) : bool :=
  match e with ValueError _ => true | _ => false end.
Definition any_exc (e : exc) : bool := true.

Definition get (o : pyval) (k : string) : NM pyval := lift (py_get o k VNone).

(** *** [_normalize_tool_call] *)

(** The local helper [materia_ref_to_id]. *)
Definition materia_ref_to_id (db : DB) (usuario_id : Z) (mref : pyval) : result pyval :=
  match mref with
  | VNone => Ok VNone
  | _ => found ← _get_materia_by_name db usuario_id mref;
         Ok (match found with Some (k, _) => VInt k | None => VNone end)
  end.

Definition norm_create_materia (db : DB) (usuario_id : Z) (args : pyval) : NM unit :=
  let! materia_nombre := get args "materia_nombre" in
  let! materia_descripcion := get args "materia_descripcion" in
  if negb (truthy materia_nombre) then
    emit_error "Crear materia: falta el nombre de la materia"
  else
    let! n := lift (py_strip materia_nombre) in
    emit_action (new_action "create_materia"
                   [("materia_usuario_id", VInt usuario_id); ("materia_nombre", VStr n);
                    ("materia_descripcion", materia_descripcion)]
                   ("Crear materia '" ++ py_str materia_nombre ++ "'")).

(** [materia_id], falling back to [materia_ref] when it is [None]. *)
Definition materia_id_or_ref (db : DB) (usuario_id : Z) (args : pyval) (key : string) : NM pyval :=
  let! materia_id := get args key in
  match materia_id with
  | VNone => let! materia_ref := get args "materia_ref" in
             lift (materia_ref_to_id db usuario_id materia_ref)
  | _ => nm_ret materia_id
  end.

Definition norm_update_materia (db : DB) (usuario_id : Z) (args : pyval) : NM unit :=
  let! materia_id0 := get args "materia_id" in
  let! materia_nombre := get args "materia_nombre" in
  let! materia_descripcion := get args "materia_descripcion" in
  let! materia_id := (match materia_id0 with
                      | VNone => let! materia_ref := get args "materia_ref" in
                                 lift (materia_ref_to_id db usuario_id materia_ref)
                      | _ => nm_ret materia_id0
                      end) in
  if negb (truthy materia_id) then
    emit_error "Actualizar materia: no se pudo identificar la materia (falta materia_id o materia_ref válido)"
  else
    try_except
      (let! _ := lift (_ensure_ownership_materia db usuario_id materia_id) in
       let! upd_n := (match materia_nombre with
                      | VNone => nm_ret []
                      | _ => let! n := lift (py_strip materia_nombre) in
                             nm_ret [("materia_nombre", VStr n)]
                      end) in
       let upd_d := match materia_descripcion with
                    | VNone => []
                    | _ => [("materia_descripcion", materia_descripcion)]
                    end in
       emit_action (new_action "update_materia" (("materia_id", materia_id) :: (upd_n ++ upd_d)%list)
                      ("Actualizar materia #" ++ py_str materia_id)))
      is_value_error (fun e => emit_error ("Actualizar materia: " ++ str_exc e)).

Definition norm_delete_materia (db : DB) (usuario_id : Z) (args : pyval) : NM unit :=
  let! materia_id := materia_id_or_ref db usuario_id args "materia_id" in
  if negb (truthy materia_id) then
    emit_error "Eliminar materia: no se pudo identificar la materia (falta materia_id o materia_ref válido)"
  else
    try_except
      (let! _ := lift (_ensure_ownership_materia db usuario_id materia_id) in
       emit_action (new_action "delete_materia" [("materia_id", materia_id)]
                      ("Eliminar materia #" ++ py_str materia_id)))
      is_value_error (fun e => emit_error ("Eliminar materia: " ++ str_exc e)).

Definition norm_create_evento (db : DB) (usuario_id : Z) (args : pyval) : NM unit :=
  let! materia_id := materia_id_or_ref db usuario_id args "evento_materia_id" in
  let! evento_nombre := get args "evento_nombre" in
  let! evento_fecha := get args "evento_fecha" in
  let! evento_estado := lift (py_get args "evento_estado" (VStr "pendiente")) in
  let validation_errors :=
    ((if truthy materia_id then [] else ["falta referencia a la materia"])
     ++ (if truthy evento_nombre then [] else ["falta nombre del evento"])
     ++ (if truthy evento_fecha then [] else ["falta fecha del evento"]))%list in
  match validation_errors with
  | _ :: _ => emit_error ("Crear evento: " ++ join ", " validation_errors)
  | [] =>
      try_except
        (let! _ := lift (_ensure_ownership_materia db usuario_id materia_id) in
         let! n := lift (py_strip evento_nombre) in
         emit_action (new_action "create_evento"
                        [("evento_materia_id", materia_id); ("evento_nombre", VStr n);
                         ("evento_fecha", evento_fecha); ("evento_estado", evento_estado)]
                        ("Crear evento '" ++ py_str evento_nombre ++ "' (" ++ py_str evento_fecha
                         ++ ") en materia #" ++ py_str materia_id)))
        is_value_error (fun e => emit_error ("Crear evento: " ++ str_exc e))
  end.

(** The shared look-up by [evento_ref]/[materia_ref] of [update_evento]
    and [delete_evento] ([label] is the message prefix). *)
Definition resolve_evento_id (label : string) (db : DB) (usuario_id : Z) (args evento_id : pyval)
  : NM pyval :=
  if negb (truthy evento_id) then
    let! evento_ref := get args "evento_ref" in
    let! materia_ref := get args "materia_ref" in
    if truthy evento_ref || truthy materia_ref then
      try_except
        (let! evento := lift (_find_evento_by_references db usuario_id evento_ref materia_ref) in
         match evento with
         | Some (k, _) => nm_ret (VInt k)
         | None =>
             let! _ := emit_error (label ++ ": no se encontró evento con referencias evento_ref='"
                                   ++ py_str evento_ref ++ "', materia_ref='" ++ py_str materia_ref ++ "'") in
             nm_ret evento_id
         end)
        any_exc
        (fun e => let! _ := emit_error (label ++ ": error buscando por referencias - " ++ str_exc e) in
                  nm_ret evento_id)
    else nm_ret evento_id
  else nm_ret evento_id.

(** The error when neither an id nor a reference was given. *)
Definition missing_reference (label : string) (args : pyval) : NM unit :=
  let! r1 := get args "evento_ref" in
  let! r2 := get args "materia_ref" in
  if negb (truthy r1) && negb (truthy r2) then
    emit_error (label ++ ": proporciona evento_id, evento_ref, o materia_ref")
  else nm_ret tt.

(** [{k: args[k] for k in (...) if k in args and args[k] is not None}] *)
Definition update_fields (a : pyval) : result dict :=
  match a with
  | VDict d =>
      Ok (flat_map (fun k => match dict_get d k with
                             | Some VNone | None => []
                             | Some v => [(k, v)]
                             end)
                   ["evento_nombre"; "evento_fecha"; "evento_estado"])
  | _ => Exc (TypeError ("argument of type '" ++ type_name a ++ "' is not iterable"))
  end.

Definition norm_update_evento (db : DB) (usuario_id : Z) (args : pyval) : NM unit :=
  let! evento_id0 := get args "evento_id" in
  let! evento_id := resolve_evento_id "Actualizar evento" db usuario_id args evento_id0 in
  if negb (truthy evento_id) then missing_reference "Actualizar evento" args
  else
    try_except
      (let! eid := lift (py_int evento_id) in
       let! _ := lift (_ensure_ownership_evento db usuario_id (VInt eid)) in
       let! update_args := lift (update_fields args) in
       emit_action (new_action "update_evento" (("evento_id", VInt eid) :: update_args)
                      ("Actualizar evento #" ++ py_str evento_id)))
      is_value_error (fun e => emit_error ("Actualizar evento: " ++ str_exc e)).

Definition norm_delete_evento (db : DB) (usuario_id : Z) (args : pyval) : NM unit :=
  let! evento_id0 := get args "evento_id" in
  let! evento_id := resolve_evento_id "Eliminar evento" db usuario_id args evento_id0 in
  if negb (truthy evento_id) then missing_reference "Eliminar evento" args
  else
    try_except
      (let! eid := lift (py_int evento_id) in
       let! _ := lift (_ensure_ownership_evento db usuario_id (VInt eid)) in
       emit_action (new_action "delete_evento" [("evento_id", VInt eid)]
                      ("Eliminar evento #" ++ py_str evento_id)))
      is_value_error (fun e => emit_error ("Eliminar evento: " ++ str_exc e)).

(** The body of the outer [try]. *)
Definition normalize_body (name args : pyval) (db : DB) (usuario_id : Z) : NM unit :=
  if py_eq_str name "create_materia" then norm_create_materia db usuario_id args
  else if py_eq_str name "update_materia" then norm_update_materia db usuario_id args
  else if py_eq_str name "delete_materia" then norm_delete_materia db usuario_id args
  else if py_eq_str name "create_evento" then norm_create_evento db usuario_id args
  else if py_eq_str name "update_evento" then norm_update_evento db usuario_id args
  else if py_eq_str name "delete_evento" then norm_delete_evento db usuario_id args
  else if truthy name then emit_error ("Acción desconocida: " ++ py_str name)
  else emit_error "Tool call sin nombre válido".

(** A tool call from the adapter is a [dict], so the two [raw.get] calls
    before the [try] cannot fail; every exception of the body lands in
    the outer [except Exception]. *)
Definition _normalize_tool_call (raw : dict) (db : DB) (usuario_id : Z)
  : list PlannedAction * list string :=
  let name := dget raw "name" VNone in
  let args := let a := dget raw "args" VNone in if truthy a then a else VDict [] in
  match normalize_body name args db usuario_id ([], []) with
  | (Ok _, s) => s
  | (Exc e, (out, errors)) =>
      (out, app errors ["Error procesando acción '" ++ py_str name ++ "': " ++ str_exc e])
  end.

(** *** [plan_actions] *)

Definition is_alpha (c : ascii) : bool :=
  let n := nat_of_ascii c in (((65 <=? n) && (n <=? 90)) || ((97 <=? n) && (n <=? 122)))%nat.

Definition upper_ascii (c : ascii) : ascii :=
  let n := nat_of_ascii c in
  if ((97 <=? n) && (n <=? 122))%nat then ascii_of_nat (n - 32) else c.

(** [str.title()]: upper case after a non-letter, lower case after a letter. *)
Fixpoint title_go (prev_alpha : bool) (s : string) : string :=
  match s with
  | EmptyString => EmptyString
  | String c r =>
      String (if prev_alpha then lower_ascii c else upper_ascii c) (title_go (is_alpha c) r)
  end.

Fixpoint replace_us (s : string) : string :=
  match s with
  | EmptyString => EmptyString
  | String c r => String (if Ascii.eqb c "_" then " "%char else c) (replace_us r)
  end.

(** [kind.replace('_', ' ').title()] *)
Definition kind_title (k : pyval) : string := title_go false (replace_us (py_str k)).

(** The local helper [_find_materia_by_name]: same query as
    [_get_materia_by_name]. *)
Definition _find_materia_by_name (db : DB) (uid : Z) (nombre : pyval) : result (option (Z * Materia)) :=
  n ← py_strip nombre;
  scalar_one_or_none (materias_named db uid n).

(** The local helper [_find_evento_by_natural_key].  Comparing the
    NOT NULL date column with [None] selects nothing. *)
Definition _find_evento_by_natural_key (db : DB) (mid nombre fecha_val : pyval)
  : result (option (Z * Evento)) :=
  let query (fecha : string) :=
    k ← db_key mid;
    n ← py_strip nombre;
    scalar_one_or_none
      (List.filter (fun '(_, e) => Z.eqb (evento_materia_id e) k && String.eqb (evento_nombre e) n
                                   && String.eqb (evento_fecha e) fecha)
                   (evento_rows db)) in
  match fecha_val with
  | VStr s => match iso_date s with Some d => query d | None => Ok None end
  | VNone => Ok None
  | _ => Exc (DataError ("can't adapt type '" ++ type_name fecha_val ++ "'"))
  end.

Definition annotate (a : PlannedAction) (ok : bool) (res : dict) (confl : pyval) : PlannedAction :=
  {| kind := kind a; args := args a; description := description a;
     allow := Some (VBool ok); resolved := Some (VDict res); conflict := Some confl |}.

Definition id_or_none {A} (o : option (Z * A)) : pyval :=
  match o with Some (k, _) => VInt k | None => VNone end.

(** One iteration of the verification loop: the annotated action and the
    summary line it contributes. *)
Definition check_action (db : DB) (usuario_id : Z) (a : PlannedAction)
  : result (PlannedAction * string) :=
  let k := kind a in
  if py_eq_str k "create_materia" then
    nombre ← py_get (args a) "materia_nombre" (VStr "");
    m ← (if truthy nombre then _find_materia_by_name db usuario_id nombre else Ok None);
    let res := [("materia_id", id_or_none m)] in
    match m with
    | Some (mk, _) =>
        Ok (annotate a false res (VStr "Materia ya existe; solo se permite update/delete."),
            "   ✖ Crear materia '" ++ py_str nombre ++ "': ya existe (id=" ++ pretty mk ++ ").")
    | None =>
        Ok (annotate a true res VNone,
            "   ✔ Crear materia '" ++ py_str nombre ++ "': permitido (no existe).")
    end
  else if py_eq_str k "update_materia" || py_eq_str k "delete_materia" then
    mid0 ← py_get (args a) "materia_id" VNone;
    has_nombre ← (match args a with
                  | VDict d => Ok (dmem "materia_nombre" d)
                  | _ => Exc (TypeError "argument is not iterable")
                  end);
    mid ← (if negb (truthy mid0) && has_nombre then
             n ← py_get (args a) "materia_nombre" VNone;
             m2 ← _find_materia_by_name db usuario_id n;
             Ok (id_or_none m2)
           else Ok mid0);
    let res := [("materia_id", mid)] in
    blocked ← (if negb (truthy mid) then Ok true
               else r ← get_materia db mid; Ok (match r with None => true | Some _ => false end)
              : result bool);
    if (blocked : bool) then
      Ok (annotate a false res (VStr "Materia no existe; no se permite update/delete."),
          "   ✖ " ++ kind_title k ++ " materia: no existe.")
    else
      Ok (annotate a true res VNone,
          "   ✔ " ++ kind_title k ++ " materia #" ++ py_str mid ++ ": permitido.")
  else if py_eq_str k "create_evento" then
    mid ← py_get (args a) "evento_materia_id" VNone;
    nombre ← py_get (args a) "evento_nombre" (VStr "");
    fecha_val ← py_get (args a) "evento_fecha" VNone;
    m_ok ← (if truthy mid then r ← get_materia db mid; Ok (match r with Some _ => true | None => false end)
            else Ok false : result bool);
    if negb (m_ok : bool) then
      Ok (annotate a false [("materia_id", mid)] (VStr "Materia no existe; no se puede crear el evento."),
          "   ✖ Crear evento '" ++ py_str nombre ++ "': materia #" ++ py_str mid ++ " no existe.")
    else
      ev ← _find_evento_by_natural_key db mid nombre fecha_val;
      let res := [("materia_id", mid); ("evento_id", id_or_none ev)] in
      match ev with
      | Some (ek, _) =>
          Ok (annotate a false res (VStr "Evento ya existe; solo se permite update/delete."),
              "   ✖ Crear evento '" ++ py_str nombre ++ "' (" ++ py_str fecha_val ++ ") en materia #"
              ++ py_str mid ++ ": ya existe (id=" ++ pretty ek ++ ").")
      | None =>
          Ok (annotate a true res VNone,
              "   ✔ Crear evento '" ++ py_str nombre ++ "' (" ++ py_str fecha_val ++ ") en materia #"
              ++ py_str mid ++ ": permitido (no existe).")
      end
  else if py_eq_str k "update_evento" || py_eq_str k "delete_evento" then
    evid ← py_get (args a) "evento_id" VNone;
    ev ← (if truthy evid then get_evento db evid else Ok None);
    match ev with
    | None =>
        Ok (annotate a false [("evento_id", evid)] (VStr "Evento no existe; no se permite update/delete."),
            "   ✖ " ++ kind_title k ++ " evento: no existe.")
    | Some (_, e) =>
        Ok (annotate a true [("evento_id", evid); ("materia_id", VInt (evento_materia_id e))] VNone,
            "   ✔ " ++ kind_title k ++ " evento #" ++ py_str evid ++ ": permitido.")
    end
  else
    Ok (annotate a false [] (VStr "Acción desconocida."),
        "   ✖ Acción desconocida: " ++ py_str k ++ ".").

(** The verification loop; an exception leaves [plan_actions]. *)
Fixpoint check_all (db : DB) (usuario_id : Z) (l : list PlannedAction)
  : result (list PlannedAction * list string) :=
  match l with
  | [] => Ok ([], [])
  | a :: r =>
      '(a', line) ← check_action db usuario_id a;
      '(rs, lines) ← check_all db usuario_id r;
      Ok (a' :: rs, line :: lines)
  end.

(** The loop over the tool calls: actions and errors of every call are
    appended in order.  [_normalize_tool_call] returns normally on a
    [dict], so the [except] of this loop is never entered. *)
Definition normalize_all (db : DB) (usuario_id : Z) (tool_calls : list dict)
  : list PlannedAction * list string :=
  fold_left (fun '(acts, errs) call =>
               let '(o, e) := _normalize_tool_call call db usuario_id in
               ((acts ++ o)%list, (errs ++ e)%list))
            tool_calls ([], []).

Definition resumen_line (total_requested total_valid total_errors : nat) : string :=
  let pre := "📊 RESUMEN: Se detectaron " ++ pretty total_requested ++ " instrucciones. " in
  if (0 <? total_errors)%nat && (0 <? total_valid)%nat then
    pre ++ pretty total_valid ++ " se pueden ejecutar, " ++ pretty total_errors ++ " tuvieron errores."
  else if (0 <? total_errors)%nat then
    pre ++ "Ninguna se pudo interpretar correctamente."
  else if Nat.eqb total_valid total_requested then
    pre ++ "Todas se pueden ejecutar."
  else pre ++ pretty total_valid ++ " se pueden ejecutar.".

(** The language-model adapter is the function [llm] from the user's
    text to its tool calls. *)
Definition plan_actions (db : DB) (usuario_id : Z) (user_text : string) (llm : string -> list dict)
  : result PlanResult :=
  let tool_calls := llm user_text in
  let '(acts, processing_errors) := normalize_all db usuario_id tool_calls in
  let error_lines :=
    match processing_errors with
    | [] => []
    | _ => "❌ ERRORES ENCONTRADOS:" :: app (map (fun err => "   • " ++ err) processing_errors) [""]
    end in
  match acts, processing_errors with
  | [], [] => Ok {| actions := [];
                    summary := "No se detectaron acciones válidas. Podés reformular o ser más específico." |}
  | _, _ =>
      '(checked, lines) ← check_all db usuario_id acts;
      let action_lines := match acts with [] => [] | _ => "📋 ACCIONES PLANIFICADAS:" :: lines end in
      let total_requested := length tool_calls in
      let total_valid := length (List.filter allow_of checked) in
      let total_errors := length processing_errors in
      let final_lines := if (1 <? total_requested)%nat
                         then ["" ; resumen_line total_requested total_valid total_errors] else [] in
      Ok {| actions := checked; summary := join newline (app error_lines (app action_lines final_lines)) |}
  end.

(** *** [execute_actions] *)

(** The result dicts, one constructor per shape. *)
Inductive ExecResult : Type :=
| RSkipped (k : pyval) (reason : pyval) (descr : pyval)
    (** [{"kind", "status": "skipped", "reason", "description"}] *)
| RMateria (k : pyval) (m : Z * Materia)
    (** [{"kind", "status": "success", "materia": materia_dict}] *)
| REvento (k : pyval) (e : Z * Evento)
    (** [{"kind", "status": "success", "evento": evento_dict}] *)
| RDeleted (k : pyval) (field : string) (id : pyval)
    (** [{"kind", "status": "success", "deleted": {field: id}}] *)
| RError (k : pyval) (error : string) (descr : pyval)
    (** [{"kind", "status": "error", "error", "description"}] *)
| RSummary (total successful failed skipped : nat) (errors : option (list string)).
    (** the trailing [execution_summary] record *)

Definition status (r : ExecResult) : string :=
  match r with
  | RSkipped _ _ _ => "skipped"
  | RMateria _ _ | REvento _ _ | RDeleted _ _ _ => "success"
  | RError _ _ _ => "error"
  | RSummary _ _ _ _ _ => "summary"
  end.

(** [getattr(a, 'conflict', default)] *)
Definition conflict_or (a : PlannedAction) (default : string) : pyval :=
  match conflict a with Some c => c | None => VStr default end.

(** [a.args.copy()] *)
Definition py_copy (o : pyval) : result dict :=
  match o with
  | VDict d => Ok d
  | _ => Exc (AttributeError ("'" ++ type_name o ++ "' object has no attribute 'copy'"))
  end.

(** [d.pop(k)] on a dict: the value and the rest. *)
Definition dict_pop (d : dict) (k : string) : result (pyval * dict) :=
  match dict_get d k with
  | Some v => Ok (v, dict_remove d k)
  | None => Exc (KeyError k)
  end.

(** [o[k]] *)
Definition py_subscript (o : pyval) (k : string) : result pyval :=
  match o with
  | VDict d => match dict_get d k with Some v => Ok v | None => Exc (KeyError k) end
  | VStr _ | VList _ => Exc (TypeError (type_name o ++ " indices must be integers"))
  | _ => Exc (TypeError ("'" ++ type_name o ++ "' object is not subscriptable"))
  end.

(** The body of the [try] once the action is allowed: the domain-service
    call and the success record, or the exception it raises.  The database
    changes only on success (each service commits once, at its end). *)
Definition dispatch (db : DB) (usuario_id : Z) (a : PlannedAction) : result (ExecResult * DB) :=
  let k := kind a in
  if py_eq_str k "create_materia" then
    payload ← mk_MateriaCreate (args a);
    '(m, db') ← SubjectService.create_subject db usuario_id payload;
    Ok (RMateria k m, db')
  else if py_eq_str k "update_materia" then
    args_copy ← py_copy (args a);
    '(mid, rest) ← dict_pop args_copy "materia_id";
    payload ← mk_MateriaUpdate (VDict rest);
    '(m, db') ← SubjectService.update_subject db usuario_id mid payload;
    Ok (RMateria k m, db')
  else if py_eq_str k "delete_materia" then
    mid ← py_subscript (args a) "materia_id";
    db' ← SubjectService.delete_subject db usuario_id mid;
    Ok (RDeleted k "materia_id" mid, db')
  else if py_eq_str k "create_evento" then
    payload ← mk_EventoCreate (args a);
    '(e, db') ← EventService.create_event db usuario_id payload;
    Ok (REvento k e, db')
  else if py_eq_str k "update_evento" then
    args_copy ← py_copy (args a);
    '(evid, rest) ← dict_pop args_copy "evento_id";
    payload ← mk_EventoUpdate (VDict rest);
    '(e, db') ← EventService.update_event db usuario_id evid payload;
    Ok (REvento k e, db')
  else if py_eq_str k "delete_evento" then
    evid ← py_subscript (args a) "evento_id";
    db' ← EventService.delete_event db usuario_id evid;
    Ok (RDeleted k "evento_id" evid, db')
  else
    Ok (RError k "Tipo de acción desconocido" (description a), db).

(** One iteration of the loop, for the action numbered [n] ([i+1]): its
    result, the line it adds to [execution_errors], and the database after
    it. *)
Definition step (db : DB) (usuario_id : Z) (n : nat) (a : PlannedAction)
  : ExecResult * option string * DB :=
  if negb (allow_of a) then
    (RSkipped (kind a) (conflict_or a "no permitida") (description a),
     Some ("Acción " ++ pretty n ++ " (" ++ py_str (kind a) ++ "): no permitida - "
           ++ py_str (conflict_or a "sin razón específica")),
     db)
  else
    match dispatch db usuario_id a with
    | Ok (r, db') =>
        match r with
        | RError _ _ _ => (r, Some ("Acción " ++ pretty n ++ ": tipo desconocido '" ++ py_str (kind a) ++ "'"), db')
        | _ => (r, None, db')
        end
    | Exc e =>
        (RError (kind a) (str_exc e) (description a),
         Some ("Acción " ++ pretty n ++ " (" ++ py_str (kind a) ++ "): " ++ str_exc e),
         db)
    end.

Fixpoint execute_loop (db : DB) (usuario_id : Z) (n : nat) (l : list PlannedAction)
  : list ExecResult * list string * DB :=
  match l with
  | [] => ([], [], db)
  | a :: r =>
      let '(res, err, db1) := step db usuario_id n a in
      let '(results, errors, db2) := execute_loop db1 usuario_id (S n) r in
      (res :: results,
       match err with Some m => m :: errors | None => errors end,
       db2)
  end.

Definition count_status (s : string) (l : list ExecResult) : nat :=
  length (List.filter (fun r => String.eqb (status r) s) l).

Definition execute_actions (db : DB) (usuario_id : Z) (acts : list PlannedAction)
  : list ExecResult * DB :=
  let '(results, execution_errors, db') := execute_loop db usuario_id 1 acts in
  let summary_result :=
    RSummary (length acts) (count_status "success" results) (count_status "error" results)
             (count_status "skipped" results)
             (match execution_errors with [] => None | _ => Some execution_errors end) in
  ((if (1 <? length acts)%nat then app results [summary_result] else results), db').

(** *** Plan (de)serialisation *)

Definition serialize_action (a : PlannedAction) : dict :=
  [("kind", kind a); ("args", args a); ("description", description a);
   ("allow", match allow a with Some v => v | None => VBool true end);
   ("resolved", match resolved a with Some v => v | None => VDict [] end);
   ("conflict", match conflict a with Some v => v | None => VNone end)].

Definition serialize_plan (plan : PlanResult) : dict :=
  [("summary", VStr (summary plan));
   ("actions", VList (map (fun a => VDict (serialize_action a)) (actions plan)))].

(** One item; [i] is its index, used in the error message. *)
Definition deserialize_item (i : nat) (item : dict) : result PlannedAction :=
  match dict_get item "kind", dict_get item "args" with
  | Some k, Some a =>
      Ok {| kind := k; args := a; description := dget item "description" (VStr "");
            allow := dict_get item "allow"; resolved := dict_get item "resolved";
            conflict := dict_get item "conflict" |}
  | None, _ => Exc (ValueError ("Error en acción " ++ pretty i ++ ": Acción " ++ pretty i
                                ++ " falta campo 'kind'."))
  | _, None => Exc (ValueError ("Error en acción " ++ pretty i ++ ": Acción " ++ pretty i
                                ++ " falta campo 'args'."))
  end.

Fixpoint deserialize_from (i : nat) (items : list dict) : result (list PlannedAction) :=
  match items with
  | [] => Ok []
  | item :: r =>
      a ← deserialize_item i item;
      rest ← deserialize_from (S i) r;
      Ok (a :: rest)
  end.

(** [NLCommandRequest.actions] is a [List[Dict[str, Any]]]. *)
Definition deserialize_actions (items : list dict) : result (list PlannedAction) :=
  deserialize_from 0 items.

End NlService.

(* ------------------------------------------------------------------ *)
(** ** routers/v1_nl.py, [mode="execute"] *)

Module V1Nl.
Import NlService.

(** [[a for a in actions if getattr(a, 'allow', True)]] *)
Definition allowed_actions (acts : list PlannedAction) : list PlannedAction :=
  List.filter allow_of acts.

Inductive Response : Type :=
| NoValidActions                                  (** "No hay acciones válidas para ejecutar" *)
| Executed (summary : string) (results : list ExecResult).

(** The execute branch of [nl_command]; [payload_actions] is
    [payload.actions] ([None] or an empty list: plan now). *)
Definition nl_command_execute (db : DB) (usuario_id : Z) (text : string) (llm : string -> list dict)
    (payload_actions : option (list dict)) : result (Response * DB) :=
  acts ← match payload_actions with
         | Some ((_ :: _) as items) => deserialize_actions items
         | _ => plan ← plan_actions db usuario_id text llm; Ok (actions plan)
         end;
  match allowed_actions acts with
  | [] => Ok (NoValidActions, db)
  | allowed =>
      let '(results, db') := execute_actions db usuario_id allowed in
      let summary := match results with
                     | [] => "Sin cambios."
                     | _ => "Acciones ejecutadas:" ++ newline
                            ++ join newline (map (fun r => "- " ++ match r with
                                                  | RSkipped k _ _ | RMateria k _ | REvento k _
                                                  | RDeleted k _ _ | RError k _ _ => py_str k
                                                  | RSummary _ _ _ _ _ => "execution_summary"
                                                  end) results)
                     end in
      Ok (Executed summary results, db')
  end.

End V1Nl.

(* ------------------------------------------------------------------ *)
(** ** HTTP answers of the routers *)

Module Http.

(** What an endpoint answers: a response with its status code, an
    [HTTPException] it raises, or an exception it lets through (FastAPI
    answers 500). *)
Inductive response (E A : Type) : Type :=
| Response (code : Z) (body : A)
| HTTPException (code : Z) (detail : string)
| Unhandled (e : E).
Arguments Response {E A} code body.
Arguments HTTPException {E A} code detail.
Arguments Unhandled {E A} e.

End Http.

(* ------------------------------------------------------------------ *)
(** ** routers/v1_subjects.py and routers/v1_events.py *)

Module V1Subjects.
Import Http SubjectService.

Definition create_subject_endpoint (db : DB) (usuario_id : Z) (payload : MateriaCreate)
  : response exc ((Z * Materia) * DB) :=
  let payload_fixed := {| mc_nombre := mc_nombre payload; mc_descripcion := mc_descripcion payload;
                          mc_usuario_id := usuario_id |} in
  match create_subject db usuario_id payload_fixed with
  | Ok r => Response 201 r
  | Exc MateriaDuplicada => HTTPException 409 "Ya existe una materia con ese nombre"
  | Exc e => Unhandled e
  end.

Definition list_subjects_endpoint order_by_nombre (db : DB) (usuario_id : Z) (q : option string)
    (skip limit : nat) : response exc (list (Z * Materia)) :=
  Response 200 (list_subjects order_by_nombre db usuario_id q skip limit).

Definition get_subject_endpoint (db : DB) (usuario_id materia_id : Z) : response exc (Z * Materia) :=
  match get_subject db usuario_id (VInt materia_id) with
  | Ok m => Response 200 m
  | Exc MateriaNoEncontrada => HTTPException 404 "Materia no encontrada"
  | Exc AccesoNoAutorizado => HTTPException 403 "No autorizado para acceder a esta materia"
  | Exc e => Unhandled e
  end.

Definition update_subject_endpoint (db : DB) (usuario_id materia_id : Z) (payload : MateriaUpdate)
  : response exc ((Z * Materia) * DB) :=
  match update_subject db usuario_id (VInt materia_id) payload with
  | Ok r => Response 200 r
  | Exc MateriaNoEncontrada => HTTPException 404 "Materia no encontrada"
  | Exc AccesoNoAutorizado => HTTPException 403 "No autorizado para acceder a esta materia"
  | Exc MateriaDuplicada => HTTPException 409 "Ya existe una materia con ese nombre"
  | Exc e => Unhandled e
  end.

(** 204 with the database after the deletion. *)
Definition delete_subject_endpoint (db : DB) (usuario_id materia_id : Z) : response exc DB :=
  match delete_subject db usuario_id (VInt materia_id) with
  | Ok db' => Response 204 db'
  | Exc MateriaNoEncontrada => HTTPException 404 "Materia no encontrada"
  | Exc AccesoNoAutorizado => HTTPException 403 "No autorizado para acceder a esta materia"
  | Exc e => Unhandled e
  end.

End V1Subjects.

Module V1Events.
Import Http EventService.

Definition create_event_endpoint (db : DB) (usuario_id : Z) (payload : EventoCreate)
  : response exc ((Z * Evento) * DB) :=
  match create_event db usuario_id payload with
  | Ok r => Response 201 r
  | Exc MateriaNoEncontrada => HTTPException 404 "Materia no encontrada"
  | Exc AccesoNoAutorizado => HTTPException 403 "No autorizado para acceder a esta materia"
  | Exc e => Unhandled e
  end.

Definition list_events_endpoint order_by_fecha (db : DB) (usuario_id materia_id : Z)
    (estado : option string) (skip limit : nat) : response exc (list (Z * Evento)) :=
  match list_events order_by_fecha db usuario_id materia_id estado skip limit with
  | Ok l => Response 200 l
  | Exc MateriaNoEncontrada => HTTPException 404 "Materia no encontrada"
  | Exc AccesoNoAutorizado => HTTPException 403 "No autorizado para acceder a esta materia"
  | Exc e => Unhandled e
  end.

Definition get_event_endpoint (db : DB) (usuario_id evento_id : Z) : response exc (Z * Evento) :=
  match get_event db usuario_id (VInt evento_id) with
  | Ok e => Response 200 e
  | Exc EventoNoEncontrado => HTTPException 404 "Evento no encontrado"
  | Exc AccesoNoAutorizado => HTTPException 403 "No autorizado para acceder a este evento"
  | Exc e => Unhandled e
  end.

Definition update_event_endpoint (db : DB) (usuario_id evento_id : Z) (payload : EventoUpdate)
  : response exc ((Z * Evento) * DB) :=
  match update_event db usuario_id (VInt evento_id) payload with
  | Ok r => Response 200 r
  | Exc EventoNoEncontrado => HTTPException 404 "Evento no encontrado"
  | Exc AccesoNoAutorizado => HTTPException 403 "No autorizado para acceder a este evento"
  | Exc e => Unhandled e
  end.

Definition delete_event_endpoint (db : DB) (usuario_id evento_id : Z) : response exc DB :=
  match delete_event db usuario_id (VInt evento_id) with
  | Ok db' => Response 204 db'
  | Exc EventoNoEncontrado => HTTPException 404 "Evento no encontrado"
  | Exc AccesoNoAutorizado => HTTPException 403 "No autorizado para acceder a este evento"
  | Exc e => Unhandled e
  end.

End V1Events.

(* ------------------------------------------------------------------ *)
(** ** routers/v1_nl.py, both modes *)

Module V1NlCommand.
Import Http NlService V1Nl.

Inductive NlOut : Type :=
| PlanOut (plan : dict)          (** [serialize_plan(plan)] *)
| ExecOut (r : V1Nl.Response).   (** the execute answer *)

(** [nl_command]: [mode="plan"] plans and serialises; otherwise the
    execute branch.  A [ValueError] becomes a 400, any other exception a
    500 ([PermissionError] is raised by nothing it calls). *)
Definition nl_command (db : DB) (usuario_id : Z) (text : string) (llm : string -> list dict)
    (mode : string) (payload_actions : option (list dict)) : response exc (NlOut * DB) :=
  let r := if String.eqb mode "plan" then
             plan ← plan_actions db usuario_id text llm;
             Ok (PlanOut (serialize_plan plan), db)
           else
             '(resp, db') ← nl_command_execute db usuario_id text llm payload_actions;
             Ok (ExecOut resp, db') in
  match r with
  | Ok x => Http.Response 200 x
  | Exc (ValueError m) => HTTPException 400 m
  | Exc e => HTTPException 500 ("Error procesando la orden: " ++ str_exc e)
  end.

End V1NlCommand.

(* ------------------------------------------------------------------ *)
(** ** Users: services/user_service.py, utils.py, auth.py and their routers *)

Module Users.
Import Http.

Record Usuario := mkUsuario {
  usuario_nombre : string;
  usuario_email : string;
  usuario_password : string;     (** the stored hash *)
  usuario_daltonismo : string
}.

(** The [usuario] table; [usuario_email] carries a UNIQUE constraint. *)
Record UserDB := mkUserDB {
  usuarios : gmap Z Usuario;
  next_usuario_id : Z
}.

Definition usuario_rows (db : UserDB) : list (Z * Usuario) := map_to_list (usuarios db).

(** The exceptions met on these paths. *)
Inductive uexc : Type :=
| UsuarioDuplicado
| InvalidCredentialsError (msg : string)
| UAttributeError (msg : string)
| UValueError (msg : string)
| UIntegrityError (msg : string)
| UMultipleResultsFound.

Definition str_uexc (e : uexc) : string :=
  match e with
  | UsuarioDuplicado => ""
  | InvalidCredentialsError m | UAttributeError m | UValueError m | UIntegrityError m => m
  | UMultipleResultsFound => "Multiple rows were found when one or none was required"
  end.

Definition uresult (A : Type) : Type := (A + uexc)%type.

Definition scalar_one_or_none_u {A} (rows : list A) : uresult (option A) :=
  match rows with
  | [] => inl None
  | [x] => inl (Some x)
  | _ => inr UMultipleResultsFound
  end.

(** A non-empty string is truthy; the optional fields of the payloads are
    [option string]. *)
Definition truthy_opt (o : option string) : bool :=
  match o with Some s => negb (String.eqb s "") | None => false end.

Section PasswordHashing.

(** [_pwd.hash] (salted pbkdf2) and [_pwd.verify]: opaque. *)
Variable pwd_hash : string -> string.
Variable pwd_verify : string -> string -> bool.

(** utils.py *)
Definition hash_clave (plain_password : string) : uresult string :=
  if String.eqb plain_password "" then inr (UValueError "La contraseña no puede estar vacía.")
  else inl (pwd_hash plain_password).

Definition verificar_clave (plain_password stored_hash : string) : bool :=
  if String.eqb stored_hash "" || String.eqb plain_password "" then false
  else pwd_verify plain_password stored_hash.

(** [_email_existe]; [exclude_user_id] is excluded when truthy. *)
Definition _email_existe (db : UserDB) (email : string) (exclude_user_id : option Z) : uresult bool :=
  let rows := List.filter
                (fun '(k, u) => String.eqb (usuario_email u) email &&
                                match exclude_user_id with
                                | Some x => if Z.eqb x 0 then true else negb (Z.eqb k x)
                                | None => true
                                end)
                (usuario_rows db) in
  match scalar_one_or_none_u rows with
  | inl o => inl (match o with Some _ => true | None => false end)
  | inr e => inr e
  end.

(** The commit of row [k] with value [u]: the UNIQUE constraint on
    [usuario_email]. *)
Definition commit_usuario (db : UserDB) (k : Z) (u : Usuario) : uresult UserDB :=
  if existsb (fun '(k', u') => negb (Z.eqb k' k) && String.eqb (usuario_email u') (usuario_email u))
             (usuario_rows db)
  then inr (UIntegrityError "duplicate key value violates unique constraint usuario_usuario_email_key")
  else inl {| usuarios := <[k := u]> (usuarios db); next_usuario_id := next_usuario_id db |}.

(** [UsuarioCreate] after validation. *)
Record UsuarioCreate := {
  uc_nombre : string; uc_email : string; uc_password : string; uc_daltonismo : string }.

Definition register_user (db : UserDB) (payload : UsuarioCreate) : uresult ((Z * Usuario) * UserDB) :=
  let email_norm := lower (strip (uc_email payload)) in
  let nombre_norm := strip (uc_nombre payload) in
  match _email_existe db email_norm None with
  | inr e => inr e
  | inl true => inr UsuarioDuplicado
  | inl false =>
      match hash_clave (uc_password payload) with
      | inr e => inr e
      | inl h =>
          let u := {| usuario_nombre := nombre_norm; usuario_email := email_norm;
                      usuario_password := h; usuario_daltonismo := uc_daltonismo payload |} in
          let k := next_usuario_id db in
          match commit_usuario {| usuarios := usuarios db; next_usuario_id := k + 1 |} k u with
          | inl db' => inl ((k, u), db')
          | inr e => inr e
          end
      end
  end.

(** [UsuarioProfileUpdate] after validation: [None] when absent. *)
Record UsuarioProfileUpdate := {
  up_nombre : option string; up_email : option string; up_daltonismo : option string }.

Definition none_attr (a : string) : uexc :=
  UAttributeError ("'NoneType' object has no attribute '" ++ a ++ "'").

Definition update_user_profile (db : UserDB) (usuario_id : Z) (payload : UsuarioProfileUpdate)
  : uresult ((Z * Usuario) * UserDB) :=
  match usuarios db !! usuario_id with
  | None =>
      inr (none_attr (if truthy_opt (up_email payload) then "usuario_email"
                      else if truthy_opt (up_nombre payload) then "usuario_nombre"
                      else if truthy_opt (up_daltonismo payload) then "usuario_daltonismo"
                      else "usuario_id"))
  | Some user =>
      let step_email : uresult (Usuario * bool) :=
        match up_email payload with
        | Some e =>
            if String.eqb e "" then inl (user, false) else
            let email_norm := lower (strip e) in
            if String.eqb email_norm (usuario_email user) then inl (user, false) else
            match _email_existe db email_norm (Some usuario_id) with
            | inr x => inr x
            | inl true => inr UsuarioDuplicado
            | inl false =>
                inl ({| usuario_nombre := usuario_nombre user; usuario_email := email_norm;
                        usuario_password := usuario_password user;
                        usuario_daltonismo := usuario_daltonismo user |}, true)
            end
        | None => inl (user, false)
        end in
      match step_email with
      | inr x => inr x
      | inl (u1, c1) =>
          let '(u2, c2) :=
            match up_nombre payload with
            | Some n =>
                if String.eqb n "" then (u1, c1) else
                let nombre_norm := strip n in
                if String.eqb nombre_norm (usuario_nombre u1) then (u1, c1)
                else ({| usuario_nombre := nombre_norm; usuario_email := usuario_email u1;
                         usuario_password := usuario_password u1;
                         usuario_daltonismo := usuario_daltonismo u1 |}, true)
            | None => (u1, c1)
            end in
          let '(u3, c3) :=
            match up_daltonismo payload with
            | Some d =>
                if String.eqb d "" then (u2, c2) else
                if String.eqb d (usuario_daltonismo u2) then (u2, c2)
                else ({| usuario_nombre := usuario_nombre u2; usuario_email := usuario_email u2;
                         usuario_password := usuario_password u2; usuario_daltonismo := d |}, true)
            | None => (u2, c2)
            end in
          if c3 then
            match commit_usuario db usuario_id u3 with
            | inl db' => inl ((usuario_id, u3), db')
            | inr x => inr x
            end
          else inl ((usuario_id, u3), db)
      end
  end.

(** routers/v1_users.py *)
Definition register_endpoint (db : UserDB) (payload : UsuarioCreate)
  : response uexc ((Z * Usuario) * UserDB) :=
  match register_user db payload with
  | inl r => Response 201 r
  | inr UsuarioDuplicado => HTTPException 409 "El email ya está registrado"
  | inr e => Unhandled e
  end.

(** [PUT /api/v1/auth/profile] *)
Definition update_profile_endpoint (db : UserDB) (usuario_id : Z) (payload : UsuarioProfileUpdate)
  : response uexc ((Z * Usuario) * UserDB) :=
  match update_user_profile db usuario_id payload with
  | inl r => Response 200 r
  | inr UsuarioDuplicado => HTTPException 400 "El email ya está en uso por otro usuario"
  | inr e => HTTPException 500 ("Error actualizando perfil: " ++ str_uexc e)
  end.

(** [LoginRequest] has the fields [email] and [password]; reading any
    other attribute of the pydantic model raises [AttributeError]. *)
Record LoginRequest := { lr_email : string; lr_password : string }.

Definition login_request_attr (r : LoginRequest) (name : string) : uresult string :=
  if String.eqb name "email" then inl (lr_email r)
  else if String.eqb name "password" then inl (lr_password r)
  else inr (UAttributeError ("'LoginRequest' object has no attribute '" ++ name ++ "'")).

Definition _buscar_usuario_por_identificador (db : UserDB) (identificador : string)
  : uresult (option (Z * Usuario)) :=
  scalar_one_or_none_u
    (List.filter (fun '(_, u) => String.eqb (usuario_email u) identificador
                                 || String.eqb (usuario_nombre u) identificador)
                 (usuario_rows db)).

(** [crear_token(subject, extra={"username": ...})]: signed JWT, opaque. *)
Variable crear_token : string -> string -> string.

Definition login_user (request : LoginRequest) (db : UserDB) : uresult dict :=
  match login_request_attr request "identifier" with
  | inr e => inr e
  | inl identifier =>
      match _buscar_usuario_por_identificador db identifier with
      | inr e => inr e
      | inl None => inr (InvalidCredentialsError "Credenciales inválidas")
      | inl (Some (k, u)) =>
          match login_request_attr request "password" with
          | inr e => inr e
          | inl password =>
              if negb (verificar_clave password (usuario_password u))
              then inr (InvalidCredentialsError "Credenciales inválidas")
              else inl [("access_token", VStr (crear_token (pretty k) (usuario_nombre u)));
                        ("token_type", VStr "Bearer")]
          end
      end
  end.

(** routers/v1_auth.py *)
Definition login_endpoint (payload : LoginRequest) (db : UserDB) : response uexc dict :=
  match login_user payload db with
  | inl r => Response 200 r
  | inr (InvalidCredentialsError _) => HTTPException 401 "Credenciales inválidas"
  | inr _ => HTTPException 500 "Error de autenticación"
  end.

End PasswordHashing.

End Users.

(* ------------------------------------------------------------------ *)
(** ** Predicates used by the statements, and sample data *)

Module Spec.
Import NlService.

(** The events stored under subject [k]. *)
Definition events_of_materia (db : DB) (k : Z) : list (Z * Evento) :=
  List.filter (fun '(_, e) => Z.eqb (evento_materia_id e) k) (evento_rows db).

(** Each sequence is ahead of every key of its table. *)
Definition seq_ok (db : DB) : Prop :=
  (forall k, is_Some (materias db !! k) -> (k < next_materia_id db)%Z) /\
  (forall k, is_Some (eventos db !! k) -> (k < next_evento_id db)%Z).

(** Autoincrement keys start at 1. *)
Definition event_keys_positive (db : DB) : Prop :=
  forall k, is_Some (eventos db !! k) -> (0 < k)%Z.

(** Rows of other users in [db] are still in [db'], unchanged. *)
Definition keeps_foreign (uid : Z) (db db' : DB) : Prop :=
  (forall k m, materias db !! k = Some m -> materia_usuario_id m <> uid -> materias db' !! k = Some m) /\
  (forall k e m, eventos db !! k = Some e -> materias db !! evento_materia_id e = Some m ->
                 materia_usuario_id m <> uid -> eventos db' !! k = Some e).

(** Action [a] updates or deletes a subject or an event that, in [db],
    belongs to a user other than [uid]. *)
Definition targets_foreign (db : DB) (uid : Z) (a : PlannedAction) : Prop :=
  ((kind a = VStr "update_materia" \/ kind a = VStr "delete_materia") /\
   exists d k m, args a = VDict d /\ dict_get d "materia_id" = Some (VInt k) /\
                 materias db !! k = Some m /\ materia_usuario_id m <> uid) \/
  ((kind a = VStr "update_evento" \/ kind a = VStr "delete_evento") /\
   exists d k e m, args a = VDict d /\ dict_get d "evento_id" = Some (VInt k) /\
                   eventos db !! k = Some e /\ materias db !! evento_materia_id e = Some m /\
                   materia_usuario_id m <> uid).

(** *** Invariants of the normaliser *)

(** Every [update_materia] or [delete_materia] action names, first in its
    arguments, a non-zero key of a subject of [uid]. *)
Definition materia_action_owned (db : DB) (uid : Z) (a : PlannedAction) : Prop :=
  (kind a = VStr "update_materia" \/ kind a = VStr "delete_materia") ->
  exists k m rest, args a = VDict (("materia_id", VInt k) :: rest) /\ k <> 0%Z /\
                   materias db !! k = Some m /\ materia_usuario_id m = uid.

(** [c] appends only actions satisfying [P]. *)
Definition keeps_actions (P : PlannedAction -> Prop) {A} (c : NM A) : Prop :=
  forall s, Forall P (fst s) -> Forall P (fst (snd (c s))).

(** [s'] is [s] with actions and errors appended. *)
Definition grows (s s' : acc) : Prop :=
  exists o e, s' = ((fst s ++ o)%list, (snd s ++ e)%list).

(** The same, with at least one action or error appended. *)
Definition grows_strict (s s' : acc) : Prop :=
  exists o e, (o <> [] \/ e <> []) /\ s' = ((fst s ++ o)%list, (snd s ++ e)%list).

(** [c] only appends; it leaves no trace only by raising. *)
Definition productive {A} (c : NM A) : Prop :=
  forall s, match c s with
            | (Ok _, s') => grows_strict s s'
            | (Exc _, s') => grows s s'
            end.

(** [c] only appends. *)
Definition monotone {A} (c : NM A) : Prop := forall s, grows s (snd (c s)).

(** The database the executor hands to action number [i] (0-based). *)
Definition db_before (db : DB) (uid : Z) (acts : list PlannedAction) (i : nat) : DB :=
  let '(_, _, d) := execute_loop db uid 1 (take i acts) in d.

(** The action [deserialize_actions] rebuilds from [serialize_action a]. *)
Definition replayed (a : PlannedAction) : PlannedAction :=
  {| kind := kind a; args := args a; description := description a;
     allow := Some (match allow a with Some v => v | None => VBool true end);
     resolved := Some (match resolved a with Some v => v | None => VDict [] end);
     conflict := Some (match conflict a with Some v => v | None => VNone end) |}.

(** What the checker must keep of a normalised action. *)
Definition kind_args (a : PlannedAction) : pyval * pyval := (kind a, args a).

(** Within one map of subjects, no two keys hold subjects of the same
    user with the same name. *)
Definition names_unique (M : gmap Z Materia) : Prop :=
  forall k1 k2 m1 m2, M !! k1 = Some m1 -> M !! k2 = Some m2 ->
    materia_usuario_id m1 = materia_usuario_id m2 -> materia_nombre m1 = materia_nombre m2 -> k1 = k2.

(** The subject rows of a user, and the event rows whose subject belongs
    to the user, in key order. *)
Definition subjects_of (db : DB) (uid : Z) : list (Z * Materia) :=
  List.filter (fun '(_, m) => Z.eqb (materia_usuario_id m) uid) (materia_rows db).
Definition events_of_user (db : DB) (uid : Z) : list (Z * Evento) :=
  List.filter (fun '(_, e) => evento_owned_by db uid e) (evento_rows db).

(** A replayed action dict carries both required fields. *)
Definition has_kind_args (item : dict) : Prop :=
  dict_get item "kind" <> None /\ dict_get item "args" <> None.

(** The error [deserialize_actions] raises for the action at index [i]:
    Python's message starts with this text and goes on with the keys of
    the item and the expected format. *)
Definition missing_field_error (i : nat) (item : dict) (e : exc) : Prop :=
  (dict_get item "kind" = None /\
   exists rest, e = ValueError (("Error en acción " ++ pretty i ++ ": Acción " ++ pretty i
                                 ++ " falta campo 'kind'.") ++ rest)) \/
  (dict_get item "kind" <> None /\ dict_get item "args" = None /\
   exists rest, e = ValueError (("Error en acción " ++ pretty i ++ ": Acción " ++ pretty i
                                 ++ " falta campo 'args'.") ++ rest)).

(** The unique constraint on [usuario_email]. *)
Definition emails_unique (U : gmap Z Users.Usuario) : Prop :=
  forall k1 k2 u1 u2, U !! k1 = Some u1 -> U !! k2 = Some u2 ->
    Users.usuario_email u1 = Users.usuario_email u2 -> k1 = k2.

(** The [usuario_id != exclude_user_id] filter of [_email_existe]. *)
Definition excl_ok (ex : option Z) (k : Z) : bool :=
  match ex with Some x => if Z.eqb x 0 then true else negb (Z.eqb k x) | None => true end.

(** The characters that are special in a LIKE pattern. *)
Definition like_special (c : ascii) : bool :=
  Ascii.eqb c "%" || Ascii.eqb c "_" || Ascii.eqb c "\".

Fixpoint no_like_wildcards (s : string) : bool :=
  match s with
  | EmptyString => true
  | String c r => negb (like_special c) && no_like_wildcards r
  end.

(** A planned event action only targets the user's own subject
    ([create_evento]) or an event of one of the user's subjects
    ([update_evento], [delete_evento]). *)
Definition evento_action_owned (db : DB) (uid : Z) (a : PlannedAction) : Prop :=
  (kind a = VStr "create_evento" ->
   exists k m rest, args a = VDict (("evento_materia_id", VInt k) :: rest) /\
                    materias db !! k = Some m /\ materia_usuario_id m = uid) /\
  ((kind a = VStr "update_evento" \/ kind a = VStr "delete_evento") ->
   exists k e m rest, args a = VDict (("evento_id", VInt k) :: rest) /\
                      eventos db !! k = Some e /\ materias db !! evento_materia_id e = Some m /\
                      materia_usuario_id m = uid).

End Spec.

Module Samples.
Import NlService.

Definition fisica : Materia :=
  {| materia_usuario_id := 1; materia_nombre := "Fisica"; materia_descripcion := None |}.
Definition quimica : Materia :=
  {| materia_usuario_id := 2; materia_nombre := "Quimica"; materia_descripcion := None |}.
Definition sin_nombre : Materia :=
  {| materia_usuario_id := 1; materia_nombre := ""; materia_descripcion := None |}.
Definition parcial : Evento :=
  {| evento_materia_id := 1; evento_nombre := "Parcial"; evento_descripcion := None;
     evento_fecha := "2025-05-01"; evento_estado := "pendiente" |}.
Definition final : Evento :=
  {| evento_materia_id := 1; evento_nombre := "Final"; evento_descripcion := None;
     evento_fecha := "2025-07-01"; evento_estado := "pendiente" |}.
Definition lab : Evento :=
  {| evento_materia_id := 2; evento_nombre := "Lab"; evento_descripcion := None;
     evento_fecha := "2025-06-01"; evento_estado := "pendiente" |}.

(** User 1 owns Fisica (two events), user 2 owns Quimica (one event). *)
Definition db0 : DB :=
  {| materias := <[1%Z := fisica]> (<[2%Z := quimica]> ∅);
     eventos := <[10%Z := parcial]> (<[11%Z := final]> (<[12%Z := lab]> ∅));
     next_materia_id := 3; next_evento_id := 13 |}.

(** User 1 also owns a subject whose name was stripped to "" on creation
    (the REST create accepts "  ", which passes [min_length=1]). *)
Definition db_blank : DB :=
  {| materias := <[1%Z := sin_nombre]> ∅; eventos := ∅;
     next_materia_id := 2; next_evento_id := 1 |}.

Definition create_blank_call : dict :=
  [("name", VStr "create_materia"); ("args", VDict [("materia_nombre", VStr "  ")])].

(** A replayed action whose [allow] is JSON [null]. *)
Definition item_allow_null : dict :=
  [("kind", VStr "delete_materia"); ("args", VDict [("materia_id", VInt 1)]);
   ("description", VStr "Eliminar materia #1"); ("allow", VNone)].

(** A planned creation of a subject user 1 already has. *)
Definition create_fisica : PlannedAction :=
  new_action "create_materia"
    [("materia_usuario_id", VInt 1); ("materia_nombre", VStr "Fisica"); ("materia_descripcion", VNone)]
    "Crear materia 'Fisica'".

(** A batch for user 1: deleting user 2's subject, then a creation the
    checker blocked. *)
Definition delete_quimica : PlannedAction :=
  new_action "delete_materia" [("materia_id", VInt 2)] "Eliminar materia #2".
Definition blocked_create : PlannedAction :=
  annotate create_fisica false [("materia_id", VInt 1)]
           (VStr "Materia ya existe; solo se permite update/delete.").
Definition batch : list PlannedAction := [delete_quimica; blocked_create].

(** A language model that asks to create the subject "Biologia". *)
Definition llm_biologia (_ : string) : list dict :=
  [[("name", VStr "create_materia"); ("args", VDict [("materia_nombre", VStr "Biologia")])]].

(** The plan the planner returns for it on [db0], for user 1. *)
Definition plan_biologia : PlanResult :=
  match plan_actions db0 1 "crear Biologia" llm_biologia with
  | Ok p => p
  | Exc _ => {| actions := []; summary := "" |}
  end.

(** Tool calls: a well-formed creation, a creation whose name is a number
    (its [.strip()] raises), and a deletion of user 1's subject. *)
Definition call_biologia : dict :=
  [("name", VStr "create_materia"); ("args", VDict [("materia_nombre", VStr "Biologia")])].
Definition call_bad_name : dict :=
  [("name", VStr "create_materia"); ("args", VDict [("materia_nombre", VInt 5)])].
Definition call_delete_fisica : dict :=
  [("name", VStr "delete_materia"); ("args", VDict [("materia_id", VInt 1)])].

(** A language model that asks to delete subject #1, and the plan for it
    on [db0], for user 1. *)
Definition llm_delete_fisica (_ : string) : list dict := [call_delete_fisica].
Definition plan_delete_fisica : PlanResult :=
  match plan_actions db0 1 "borrar Fisica" llm_delete_fisica with
  | Ok p => p
  | Exc _ => {| actions := []; summary := "" |}
  end.
Definition planned_delete_fisica : PlannedAction :=
  match actions plan_delete_fisica with
  | a :: _ => a
  | [] => new_action "" [] ""
  end.

(** A language model that returns the three calls above, and the plan
    for it on [db0], for user 1. *)
Definition llm_mixed (_ : string) : list dict := [call_biologia; call_bad_name; call_delete_fisica].
Definition plan_mixed : PlanResult :=
  match plan_actions db0 1 "varias cosas" llm_mixed with
  | Ok p => p
  | Exc _ => {| actions := []; summary := "" |}
  end.

(** Payloads and the databases the services leave, for user 1 on [db0]. *)
Definition biologia_create : MateriaCreate :=
  {| mc_nombre := "Biologia"; mc_descripcion := None; mc_usuario_id := 1 |}.
Definition biologia_create_padded : MateriaCreate :=
  {| mc_nombre := "  Biologia "; mc_descripcion := None; mc_usuario_id := 1 |}.
Definition biologia : Materia :=
  {| materia_usuario_id := 1; materia_nombre := "Biologia"; materia_descripcion := None |}.
Definition db_biologia : DB :=
  {| materias := <[3%Z := biologia]> (materias db0); eventos := eventos db0;
     next_materia_id := 4; next_evento_id := 13 |}.

Definition rename_mecanica : MateriaUpdate :=
  {| mu_nombre := Some (Some "Mecanica"); mu_descripcion := None |}.
Definition mecanica : Materia :=
  {| materia_usuario_id := 1; materia_nombre := "Mecanica"; materia_descripcion := None |}.
Definition db_mecanica : DB :=
  {| materias := <[1%Z := mecanica]> (materias db0); eventos := eventos db0;
     next_materia_id := 3; next_evento_id := 13 |}.

(** [db0] after deleting subject 1, and after deleting its events only. *)
Definition db_sin_fisica : DB :=
  {| materias := <[2%Z := quimica]> ∅; eventos := <[12%Z := lab]> ∅;
     next_materia_id := 3; next_evento_id := 13 |}.
Definition db_fisica_vacia : DB :=
  {| materias := materias db0; eventos := <[12%Z := lab]> ∅;
     next_materia_id := 3; next_evento_id := 13 |}.

Definition borrar_nombre : EventoUpdate :=
  {| eu_nombre := Some None; eu_descripcion := None; eu_fecha := None; eu_estado := None |}.
Definition marcar_completado : EventoUpdate :=
  {| eu_nombre := None; eu_descripcion := None; eu_fecha := None; eu_estado := Some (Some "completado") |}.
Definition parcial_completado : Evento :=
  {| evento_materia_id := 1; evento_nombre := "Parcial"; evento_descripcion := None;
     evento_fecha := "2025-05-01"; evento_estado := "completado" |}.
Definition db_parcial_completado : DB :=
  {| materias := materias db0; eventos := <[10%Z := parcial_completado]> (eventos db0);
     next_materia_id := 3; next_evento_id := 13 |}.
Definition db_sin_parcial : DB :=
  {| materias := materias db0; eventos := <[11%Z := final]> (<[12%Z := lab]> ∅);
     next_materia_id := 3; next_evento_id := 13 |}.

Definition repaso_create : EventoCreate :=
  {| ec_nombre := "Repaso"; ec_descripcion := None; ec_fecha := "2025-04-20";
     ec_estado := "pendiente"; ec_materia_id := 1 |}.

(** Replayed action lists: one whose second item lacks 'args', and the
    actions of [[item_allow_null]]. *)
Definition item_no_args : dict := [("kind", VStr "delete_materia")].
Definition replay_allow_null : list PlannedAction :=
  match deserialize_actions [item_allow_null] with Ok acts => acts | Exc _ => [] end.

(** A language model that asks to delete event #10, and the plan for it. *)
Definition llm_delete_parcial (_ : string) : list dict :=
  [[("name", VStr "delete_evento"); ("args", VDict [("evento_id", VInt 10)])]].
Definition plan_delete_parcial : PlanResult :=
  match plan_actions db0 1 "borrar parcial" llm_delete_parcial with
  | Ok p => p
  | Exc _ => {| actions := []; summary := "" |}
  end.
Definition planned_delete_parcial : PlannedAction :=
  match actions plan_delete_parcial with
  | a :: _ => a
  | [] => new_action "" [] ""
  end.

(** Users: a table with Ana, a stand-in for the password hash, and
    payloads. *)
Definition toy_hash (s : string) : string := "h(" ++ s ++ ")".
Definition ana : Users.Usuario := Users.mkUsuario "Ana" "ana@x.com" "h(secret)" "ninguno".
Definition udb0 : Users.UserDB := Users.mkUserDB (<[1%Z := ana]> ∅) 2.
Definition bob_create : Users.UsuarioCreate :=
  {| Users.uc_nombre := " Bob "; Users.uc_email := "Bob@X.com"; Users.uc_password := "pw";
     Users.uc_daltonismo := "ninguno" |}.
Definition bob_create_again : Users.UsuarioCreate :=
  {| Users.uc_nombre := "Roberto"; Users.uc_email := "BOB@x.COM"; Users.uc_password := "otra";
     Users.uc_daltonismo := "ninguno" |}.
Definition bob : Users.Usuario := Users.mkUsuario "Bob" "bob@x.com" "h(pw)" "ninguno".
Definition udb_bob : Users.UserDB := Users.mkUserDB (<[2%Z := bob]> (<[1%Z := ana]> ∅)) 3.
Definition ana_new_email : Users.UsuarioProfileUpdate :=
  {| Users.up_nombre := None; Users.up_email := Some "Ana@Y.com"; Users.up_daltonismo := None |}.

End Samples.

(* ------------------------------------------------------------------ *)
(** ** Properties *)

Module Theorems.
Import NlService Spec.

(** *** Shared facts *)

Lemma bind_ok {A B} (a : A) (f : A -> result B) : mbind f (Ok a) = f a.
Proof. reflexivity. Qed.

Lemma bind_exc {A B} (e : exc) (f : A -> result B) : mbind f (Exc e) = Exc e.
Proof. reflexivity. Qed.

Lemma scalar_one_or_none_some {A} (l : list A) x :
  scalar_one_or_none l = Ok (Some x) -> l = [x].
Proof. destruct l as [|y [|z r]]; simpl; congruence. Qed.

Lemma materias_named_sound db uid n k m :
  In (k, m) (materias_named db uid n) ->
  materias db !! k = Some m /\ materia_usuario_id m = uid /\ materia_nombre m = n.
Proof.
  unfold materias_named, materia_rows. intros H.
  apply filter_In in H as [Hin Hc].
  apply andb_true_iff in Hc as [H1 H2].
  apply Z.eqb_eq in H1. apply String.eqb_eq in H2.
  apply list_elem_of_In, elem_of_map_to_list in Hin. auto.
Qed.

Lemma get_materia_by_name_some db uid r k m :
  _get_materia_by_name db uid r = Ok (Some (k, m)) ->
  materias db !! k = Some m /\ materia_usuario_id m = uid.
Proof.
  unfold _get_materia_by_name. destruct (py_strip r) as [n|e]; simpl; [|discriminate].
  intros H. apply scalar_one_or_none_some in H.
  pose proof (materias_named_sound db uid n k m) as Hs. rewrite H in Hs.
  destruct Hs as [? [? _]]; [left; reflexivity|]. auto.
Qed.

Lemma filter_idem {A} (f : A -> bool) (l : list A) :
  List.filter f (List.filter f l) = List.filter f l.
Proof.
  induction l as [|x r IH]; simpl; [reflexivity|].
  destruct (f x) eqn:E; simpl; [rewrite E, IH|]; auto.
Qed.

(** *** C5 *)

(** C5: [_ensure_ownership_materia] raises the same [ValueError("Materia
    no encontrada")] for a missing subject and for a subject of another
    user; it is [SubjectService._get_materia_autorizada] that tells the two
    apart ([MateriaNoEncontrada] versus [AccesoNoAutorizado]). *)
Theorem ensure_ownership_materia_single_error : forall db uid k,
  (materias db !! k = None ->
     _ensure_ownership_materia db uid (VInt k) = Exc (ValueError "Materia no encontrada") /\
     SubjectService._get_materia_autorizada db (VInt k) uid = Exc MateriaNoEncontrada) /\
  (forall m, materias db !! k = Some m -> materia_usuario_id m <> uid ->
     _ensure_ownership_materia db uid (VInt k) = Exc (ValueError "Materia no encontrada") /\
     SubjectService._get_materia_autorizada db (VInt k) uid = Exc AccesoNoAutorizado).
Proof.
  intros db uid k.
  unfold _ensure_ownership_materia, SubjectService._get_materia_autorizada, get_materia.
  cbn. split.
  - intros H. rewrite H. auto.
  - intros m H Hne. rewrite H. apply Z.eqb_neq in Hne. rewrite Hne. auto.
Qed.

Lemma ensure_ownership_materia_single_error_witness :
  (_ensure_ownership_materia Samples.db0 1 (VInt 5) = Exc (ValueError "Materia no encontrada") /\
   SubjectService._get_materia_autorizada Samples.db0 (VInt 5) 1 = Exc MateriaNoEncontrada) /\
  (_ensure_ownership_materia Samples.db0 1 (VInt 2) = Exc (ValueError "Materia no encontrada") /\
   SubjectService._get_materia_autorizada Samples.db0 (VInt 2) 1 = Exc AccesoNoAutorizado).
Proof.
  split.
  - apply (proj1 (ensure_ownership_materia_single_error Samples.db0 1 5)). vm_compute. reflexivity.
  - apply (proj2 (ensure_ownership_materia_single_error Samples.db0 1 2) Samples.quimica);
      [vm_compute; reflexivity | discriminate].
Defined.

(** C5 counterexample: user 1 gets the very same outcome from the guard
    for subject 5, which does not exist, and for subject 2, which exists
    and belongs to user 2. *)
Lemma ensure_ownership_materia_same_failure :
  materias Samples.db0 !! 5%Z = None /\
  materias Samples.db0 !! 2%Z = Some Samples.quimica /\ materia_usuario_id Samples.quimica = 2%Z /\
  _ensure_ownership_materia Samples.db0 1 (VInt 5) = _ensure_ownership_materia Samples.db0 1 (VInt 2).
Proof. vm_compute. repeat split. Qed.


(** *** C10 *)

Lemma step_skip db uid n a :
  allow_of a = false ->
  fst (fst (step db uid n a)) = RSkipped (kind a) (conflict_or a "no permitida") (description a) /\
  snd (step db uid n a) = db.
Proof. intros H. unfold step. rewrite H. simpl. auto. Qed.

Lemma step_run db uid n a :
  allow_of a = true ->
  match dispatch db uid a with
  | Ok (r, db') => fst (fst (step db uid n a)) = r /\ snd (step db uid n a) = db'
  | Exc e => fst (fst (step db uid n a)) = RError (kind a) (str_exc e) (description a) /\
             snd (step db uid n a) = db
  end.
Proof.
  intros H. unfold step. rewrite H. simpl.
  destruct (dispatch db uid a) as [[r db']|e]; simpl; auto.
  destruct r; simpl; auto.
Qed.

(** C10: a replayed item with ["kind"] and ["args"] becomes an action
    whose [allow] is the item's ["allow"] entry as is: a missing entry
    counts as allowed, and any present entry counts by its truth value (so
    [false], but also [null], [0] or [""], filter the action out).  The
    router keeps the action exactly when it counts as allowed, and
    [execute_actions] skips it (database unchanged) when it does not and
    otherwise runs the domain-service call. *)
Theorem replay_allow_by_truthiness : forall i item k a,
  dict_get item "kind" = Some k -> dict_get item "args" = Some a ->
  exists pa, deserialize_item i item = Ok pa /\
    kind pa = k /\ args pa = a /\
    allow_of pa = match dict_get item "allow" with None => true | Some v => truthy v end /\
    V1Nl.allowed_actions [pa] = (if allow_of pa then [pa] else []) /\
    (forall db uid n, allow_of pa = false ->
       fst (fst (step db uid n pa)) = RSkipped k (conflict_or pa "no permitida") (description pa) /\
       snd (step db uid n pa) = db) /\
    (forall db uid n, allow_of pa = true ->
       match dispatch db uid pa with
       | Ok (r, db') => fst (fst (step db uid n pa)) = r /\ snd (step db uid n pa) = db'
       | Exc e => fst (fst (step db uid n pa)) = RError k (str_exc e) (description pa) /\
                  snd (step db uid n pa) = db
       end).
Proof.
  intros i item k a Hk Ha.
  unfold deserialize_item. rewrite Hk, Ha.
  eexists. split; [reflexivity|]. cbn [kind args].
  split; [reflexivity|]. split; [reflexivity|]. split.
  { unfold allow_of. cbn [allow]. destruct (dict_get item "allow"); reflexivity. }
  split.
  { unfold V1Nl.allowed_actions. simpl. destruct (allow_of _); reflexivity. }
  split.
  - intros db uid n H. exact (step_skip db uid n _ H).
  - intros db uid n H. exact (step_run db uid n _ H).
Qed.

Lemma replay_allow_by_truthiness_witness :
  exists pa, deserialize_item 0 Samples.item_allow_null = Ok pa /\
    kind pa = VStr "delete_materia" /\ args pa = VDict [("materia_id", VInt 1)] /\
    allow_of pa = false /\ V1Nl.allowed_actions [pa] = [] /\
    (forall db uid n, allow_of pa = false ->
       fst (fst (step db uid n pa)) = RSkipped (VStr "delete_materia") (conflict_or pa "no permitida") (description pa) /\
       snd (step db uid n pa) = db) /\
    (forall db uid n, allow_of pa = true ->
       match dispatch db uid pa with
       | Ok (r, db') => fst (fst (step db uid n pa)) = r /\ snd (step db uid n pa) = db'
       | Exc e => fst (fst (step db uid n pa)) = RError (VStr "delete_materia") (str_exc e) (description pa) /\
                  snd (step db uid n pa) = db
       end).
Proof.
  destruct (replay_allow_by_truthiness 0 Samples.item_allow_null (VStr "delete_materia")
              (VDict [("materia_id", VInt 1)]) eq_refl eq_refl)
    as [pa [H1 [H2 [H3 [H4 [H5 [H6 H7]]]]]]].
  assert (Hf : allow_of pa = false) by (rewrite H4; reflexivity).
  rewrite Hf in H5.
  exists pa. split; [exact H1|]. split; [exact H2|]. split; [exact H3|].
  split; [exact Hf|]. split; [exact H5|]. split; [exact H6|exact H7].
Defined.

(** C10 counterexample: an item with ["allow": null] has "kind" and "args"
    and no explicit [false], yet the router filters it out. *)
Lemma replay_allow_null_dropped :
  dict_get Samples.item_allow_null "allow" = Some VNone /\
  exists pa, deserialize_item 0 Samples.item_allow_null = Ok pa /\ V1Nl.allowed_actions [pa] = [].
Proof. split; [reflexivity|]. eexists. split; reflexivity. Qed.


(** *** C3 *)

Lemma evento_query_by_materia db uid evento_ref materia_ref k m :
  truthy evento_ref = false -> truthy materia_ref = true ->
  materias db !! k = Some m -> materia_usuario_id m = uid ->
  evento_query db uid evento_ref materia_ref (Some (k, m)) =
    Ok (match events_of_materia db k with [ev] => Some ev | _ => None end).
Proof.
  intros He Hm Hk Hu. unfold evento_query. rewrite He. cbn.
  assert (Hq : List.filter
                 (fun '(_, e) => evento_owned_by db uid e && Z.eqb (evento_materia_id e) k && true)
                 (evento_rows db) = events_of_materia db k).
  { unfold events_of_materia. apply filter_ext. intros [ek e].
    unfold evento_owned_by. destruct (Z.eqb_spec (evento_materia_id e) k) as [E|E].
    - rewrite E, Hk, Hu, Z.eqb_refl. reflexivity.
    - destruct (materias db !! evento_materia_id e); rewrite ?andb_false_r; reflexivity. }
  assert (Hf : List.filter (fun '(_, e) => Z.eqb (evento_materia_id e) k) (events_of_materia db k)
               = events_of_materia db k) by (unfold events_of_materia; apply filter_idem).
  rewrite Hq, Hm, Hf.
  destruct (events_of_materia db k) as [|x [|y r]]; reflexivity.
Qed.

(** C3: looking an event up by a subject reference alone ([materia_ref]
    truthy, [evento_ref] falsy) yields the subject's only event when it has
    exactly one, and [None] when the subject has none or several, or when
    no subject of the user has that name. *)
Theorem find_evento_by_materia_ref_alone : forall db uid evento_ref materia_ref,
  truthy evento_ref = false -> truthy materia_ref = true ->
  (_get_materia_by_name db uid materia_ref = Ok None ->
     _find_evento_by_references db uid evento_ref materia_ref = Ok None) /\
  (forall k m, _get_materia_by_name db uid materia_ref = Ok (Some (k, m)) ->
     _find_evento_by_references db uid evento_ref materia_ref =
       Ok (match events_of_materia db k with [ev] => Some ev | _ => None end)).
Proof.
  intros db uid evento_ref materia_ref He Hm. unfold _find_evento_by_references. rewrite Hm.
  split.
  - intros H. rewrite H. reflexivity.
  - intros k m H. rewrite H. cbn [mbind result_bind].
    destruct (get_materia_by_name_some _ _ _ _ _ H) as [Hk Hu].
    apply evento_query_by_materia; assumption.
Qed.

Lemma find_evento_by_materia_ref_alone_witness :
  _find_evento_by_references Samples.db0 1 VNone (VStr "Fisica") = Ok None /\
  _find_evento_by_references Samples.db0 2 VNone (VStr "Quimica") = Ok (Some (12%Z, Samples.lab)).
Proof.
  split.
  - rewrite (proj2 (find_evento_by_materia_ref_alone Samples.db0 1 VNone (VStr "Fisica")
                      eq_refl eq_refl) 1%Z Samples.fisica); vm_compute; reflexivity.
  - rewrite (proj2 (find_evento_by_materia_ref_alone Samples.db0 2 VNone (VStr "Quimica")
                      eq_refl eq_refl) 2%Z Samples.quimica); vm_compute; reflexivity.
Defined.


(** *** C2 *)

Lemma check_create_materia_eq db uid a d N :
  kind a = VStr "create_materia" -> args a = VDict d ->
  dget d "materia_nombre" (VStr "") = VStr N ->
  check_action db uid a =
    m ← (if negb (String.eqb N "") then _find_materia_by_name db uid (VStr N) else Ok None);
    match m with
    | Some (mk, _) =>
        Ok (annotate a false [("materia_id", VInt mk)] (VStr "Materia ya existe; solo se permite update/delete."),
            "   ✖ Crear materia '" ++ py_str (VStr N) ++ "': ya existe (id=" ++ pretty mk ++ ").")
    | None =>
        Ok (annotate a true [("materia_id", VNone)] VNone,
            "   ✔ Crear materia '" ++ py_str (VStr N) ++ "': permitido (no existe).")
    end.
Proof.
  intros Hk Ha Hn. unfold check_action. rewrite Hk, Ha. cbn [py_eq_str py_get].
  rewrite Hn. cbn [mbind result_bind truthy].
  destruct (negb (String.eqb N "")); [|reflexivity].
  destruct (_find_materia_by_name db uid (VStr N)) as [[[mk mm]|]|e]; reflexivity.
Qed.






(** *** C7 *)

Lemma execute_loop_app db uid n l1 l2 :
  execute_loop db uid n (l1 ++ l2) =
  let '(r1, e1, d1) := execute_loop db uid n l1 in
  let '(r2, e2, d2) := execute_loop d1 uid (n + length l1) l2 in
  ((r1 ++ r2)%list, (e1 ++ e2)%list, d2).
Proof.
  revert db n. induction l1 as [|a l1 IH]; intros db n; simpl.
  - rewrite Nat.add_0_r. destruct (execute_loop db uid n l2) as [[? ?] ?]. reflexivity.
  - destruct (step db uid n a) as [[res err] d1]. rewrite IH.
    destruct (execute_loop d1 uid (S n) l1) as [[r1 e1] d2].
    replace (n + S (length l1)) with (S n + length l1) by lia.
    destruct (execute_loop d2 uid (S n + length l1) l2) as [[r2 e2] d3].
    destruct err; reflexivity.
Qed.

Lemma execute_loop_length db uid n l :
  length (fst (fst (execute_loop db uid n l))) = length l.
Proof.
  revert db n. induction l as [|a l IH]; intros db n; simpl; [reflexivity|].
  destruct (step db uid n a) as [[res err] d1].
  specialize (IH d1 (S n)). destruct (execute_loop d1 uid (S n) l) as [[r e] d2].
  simpl in *. lia.
Qed.

(** Action [i] is run by [step] on the database left by the actions
    before it, and the next one starts from the database it leaves. *)
Lemma execute_loop_at db uid acts i a :
  acts !! i = Some a ->
  fst (fst (execute_loop db uid 1 acts)) !! i =
    Some (fst (fst (step (db_before db uid acts i) uid (S i) a))) /\
  db_before db uid acts (S i) = snd (step (db_before db uid acts i) uid (S i) a).
Proof.
  intros Hi. unfold db_before.
  pose proof (lookup_lt_Some _ _ _ Hi) as Hlt.
  assert (Hlen : length (take i acts) = i) by (apply length_take_le; lia).
  rewrite (take_S_r _ _ _ Hi).
  rewrite <- (take_drop_middle _ _ _ Hi) at 1.
  rewrite !execute_loop_app.
  pose proof (execute_loop_length db uid 1 (take i acts)) as Hl1.
  destruct (execute_loop db uid 1 (take i acts)) as [[r1 e1] d1].
  simpl in Hl1. rewrite Hlen. simpl.
  destruct (step d1 uid (S i) a) as [[res err] d2]. simpl.
  destruct (execute_loop d2 uid (S (S i)) (drop (S i) acts)) as [[r2 e2] d3].
  split.
  - simpl. rewrite lookup_app_r by lia. rewrite Hl1, Hlen. replace (i - i)%nat with 0%nat by lia. reflexivity.
  - destruct err; reflexivity.
Qed.





(** *** C8 *)

Lemma deserialize_serialize i l :
  deserialize_from i (map serialize_action l) = Ok (map replayed l).
Proof.
  revert i. induction l as [|a l IH]; intros i; [reflexivity|].
  cbn [map deserialize_from]. rewrite IH. reflexivity.
Qed.

Lemma allow_of_replayed a : allow_of (replayed a) = allow_of a.
Proof. unfold allow_of, replayed. cbn. destruct (allow a); reflexivity. Qed.

Lemma dispatch_replayed db uid a : dispatch db uid (replayed a) = dispatch db uid a.
Proof. reflexivity. Qed.

Lemma step_replayed db uid n a :
  allow_of a = true -> step db uid n (replayed a) = step db uid n a.
Proof.
  intros H. unfold step. rewrite allow_of_replayed, H, dispatch_replayed. reflexivity.
Qed.

Lemma execute_loop_replayed db uid n l :
  Forall (fun a => allow_of a = true) l ->
  execute_loop db uid n (map replayed l) = execute_loop db uid n l.
Proof.
  intros Hl. revert db n. induction Hl as [|a l Ha Hl IH]; intros db n; [reflexivity|].
  cbn [map execute_loop]. rewrite step_replayed by exact Ha.
  destruct (step db uid n a) as [[res err] d1]. rewrite IH. reflexivity.
Qed.

Lemma execute_actions_replayed db uid l :
  Forall (fun a => allow_of a = true) l ->
  execute_actions db uid (map replayed l) = execute_actions db uid l.
Proof.
  intros Hl. unfold execute_actions. rewrite execute_loop_replayed by exact Hl.
  rewrite length_map. reflexivity.
Qed.

Lemma allowed_actions_replayed l :
  V1Nl.allowed_actions (map replayed l) = map replayed (V1Nl.allowed_actions l).
Proof.
  unfold V1Nl.allowed_actions. induction l as [|a l IH]; [reflexivity|].
  cbn [map List.filter]. rewrite allow_of_replayed. destruct (allow_of a); cbn; rewrite IH; reflexivity.
Qed.

Lemma allowed_actions_all l : Forall (fun a => allow_of a = true) (V1Nl.allowed_actions l).
Proof.
  apply Forall_forall. intros a Ha. apply list_elem_of_In in Ha.
  unfold V1Nl.allowed_actions in Ha. apply filter_In in Ha. apply Ha.
Qed.

Lemma allowed_actions_id l :
  Forall (fun a => allow_of a = true) l -> V1Nl.allowed_actions l = l.
Proof.
  intros Hl. unfold V1Nl.allowed_actions. induction Hl as [|a l Ha Hl IH]; [reflexivity|].
  cbn. rewrite Ha, IH. reflexivity.
Qed.




(** *** C6 *)

Lemma normalize_fold db uid l A E :
  fold_left (fun '(acts, errs) call =>
               let '(o, e) := _normalize_tool_call call db uid in
               ((acts ++ o)%list, (errs ++ e)%list)) l (A, E) =
  ((A ++ concat (map (fun c => fst (_normalize_tool_call c db uid)) l))%list,
   (E ++ concat (map (fun c => snd (_normalize_tool_call c db uid)) l))%list).
Proof.
  revert A E. induction l as [|c l IH]; intros A E; simpl.
  - rewrite !app_nil_r. reflexivity.
  - destruct (_normalize_tool_call c db uid) as [o e]. rewrite IH. simpl.
    rewrite !app_assoc. reflexivity.
Qed.

Lemma normalize_all_concat db uid l :
  normalize_all db uid l =
  (concat (map (fun c => fst (_normalize_tool_call c db uid)) l),
   concat (map (fun c => snd (_normalize_tool_call c db uid)) l)).
Proof. unfold normalize_all. rewrite normalize_fold. reflexivity. Qed.




(** *** C1 *)

(** Case analysis of a computation in [result] known to succeed. *)
Ltac unbind H := try (unfold mbind, result_bind in H); cbv beta iota in H.
Ltac dres H :=
  cbv zeta in H; unbind H;
  repeat match type of H with
  | context [match ?c with Ok _ => _ | Exc _ => _ end] =>
      let E := fresh "E" in destruct c eqn:E; unbind H; try discriminate H
  | context [match ?p with pair _ _ => _ end] =>
      destruct p; unbind H
  | context [match ?o with Some _ => _ | None => _ end] =>
      let E := fresh "E" in destruct o eqn:E; unbind H; try discriminate H
  | context [if ?b then _ else _] =>
      let E := fresh "E" in destruct b eqn:E; unbind H; try discriminate H
  end.

Lemma get_materia_autorizada_ok db mid uid k m :
  SubjectService._get_materia_autorizada db mid uid = Ok (k, m) ->
  mid = VInt k /\ materias db !! k = Some m /\ materia_usuario_id m = uid.
Proof.
  unfold SubjectService._get_materia_autorizada, get_materia.
  destruct mid as [| | z | | |]; cbn; try discriminate.
  destruct (materias db !! z) as [m0|] eqn:E; cbn; [|discriminate].
  destruct (Z.eqb_spec (materia_usuario_id m0) uid); cbn; [|discriminate].
  intros H; inversion H; subst; auto.
Qed.

Lemma get_evento_autorizado_ok db eid uid k e :
  EventService._get_evento_autorizado db eid uid = Ok (k, e) ->
  eid = VInt k /\ eventos db !! k = Some e /\
  exists m, materias db !! evento_materia_id e = Some m /\ materia_usuario_id m = uid.
Proof.
  unfold EventService._get_evento_autorizado, get_evento, get_materia.
  destruct eid as [| | z | | |]; cbn; try discriminate.
  destruct (eventos db !! z) as [e0|] eqn:E; cbn; [|discriminate].
  destruct (materias db !! evento_materia_id e0) as [m0|] eqn:F; cbn; [|discriminate].
  destruct (Z.eqb_spec (materia_usuario_id m0) uid); cbn; [|discriminate].
  intros H; inversion H; subst; eauto.
Qed.

Lemma create_subject_keeps db uid p r db' :
  seq_ok db -> SubjectService.create_subject db uid p = Ok (r, db') ->
  seq_ok db' /\ keeps_foreign uid db db'.
Proof.
  intros [Hm He] H. unfold SubjectService.create_subject in H. dres H.
  inversion H; subst; clear H. split; split; cbn.
  - intros k Hk. apply lookup_insert_is_Some in Hk as [<-|[_ Hk]]; [lia|].
    specialize (Hm k Hk). lia.
  - exact He.
  - intros k m Hk _. rewrite lookup_insert_ne; [exact Hk|].
    assert (is_Some (materias db !! k)) as Hs by eauto. specialize (Hm k Hs). lia.
  - intros k e m Hk _ _. exact Hk.
Qed.


Lemma keeps_foreign_refl uid db : keeps_foreign uid db db.
Proof. split; eauto. Qed.

Lemma keeps_foreign_trans uid db1 db2 db3 :
  keeps_foreign uid db1 db2 -> keeps_foreign uid db2 db3 -> keeps_foreign uid db1 db3.
Proof.
  intros [M1 E1] [M2 E2]. split.
  - intros k m Hk Hne. eauto.
  - intros k e m Hk Hm Hne. eapply E2; eauto.
Qed.

(** An update or deletion leaves alone every row other than its target
    [k]; the target is a row of the user (for an event, its subject is). *)
Ltac keeps_other Hk Hu :=
  intros ?k' ?m' Hk' Hne;
  first [ rewrite lookup_insert_ne | rewrite lookup_delete_ne ]; [exact Hk'|];
  intros ->; rewrite Hk in Hk'; injection Hk' as <-; contradiction.

Lemma update_subject_keeps db uid mid p r db' :
  seq_ok db -> SubjectService.update_subject db uid mid p = Ok (r, db') ->
  seq_ok db' /\ keeps_foreign uid db db'.
Proof.
  intros [Hm He] H. unfold SubjectService.update_subject in H. dres H;
  match goal with
  | E : SubjectService._get_materia_autorizada _ _ _ = Ok (?k, ?m) |- _ =>
      apply get_materia_autorizada_ok in E as [_ [Hk Hu]]
  end;
  inversion H; subst; clear H; (split; [split|split]); cbn;
  solve
    [ exact He
    | intros k' Hk'; apply lookup_insert_is_Some in Hk' as [<-|[_ Hk']]; apply Hm; [eauto|exact Hk']
    | intros ? ? ? Hk' _ _; exact Hk'
    | keeps_other Hk Hu ].
Qed.

Lemma delete_subject_keeps db uid mid db' :
  seq_ok db -> SubjectService.delete_subject db uid mid = Ok db' ->
  seq_ok db' /\ keeps_foreign uid db db'.
Proof.
  intros [Hm He] H. unfold SubjectService.delete_subject in H. dres H.
  match goal with
  | E : SubjectService._get_materia_autorizada _ _ _ = Ok (?k, ?m) |- _ =>
      apply get_materia_autorizada_ok in E as [_ [Hk Hu]]
  end.
  inversion H; subst; clear H. split; split; cbn.
  - intros k' Hk'. apply lookup_delete_is_Some in Hk' as [_ Hk']. apply Hm, Hk'.
  - intros k' [x Hx]. apply map_lookup_filter_Some in Hx as [Hx _]. apply He. eauto.
  - keeps_other Hk Hu.
  - intros k' e m' Hk' Hm' Hne. apply map_lookup_filter_Some. split; [exact Hk'|].
    cbn. intros Heq. rewrite Heq, Hk in Hm'. injection Hm' as <-. contradiction.
Qed.

Lemma create_event_keeps db uid p r db' :
  seq_ok db -> EventService.create_event db uid p = Ok (r, db') ->
  seq_ok db' /\ keeps_foreign uid db db'.
Proof.
  intros [Hm He] H. unfold EventService.create_event in H. dres H.
  inversion H; subst; clear H. split; split; cbn.
  - exact Hm.
  - intros k Hk. apply lookup_insert_is_Some in Hk as [<-|[_ Hk]]; [lia|].
    specialize (He k Hk). lia.
  - intros k m Hk _. exact Hk.
  - intros k e m Hk _ _. rewrite lookup_insert_ne; [exact Hk|].
    assert (is_Some (eventos db !! k)) as Hs by eauto. specialize (He k Hs). lia.
Qed.

Lemma update_event_keeps db uid eid p r db' :
  seq_ok db -> EventService.update_event db uid eid p = Ok (r, db') ->
  seq_ok db' /\ keeps_foreign uid db db'.
Proof.
  intros [Hm He] H. unfold EventService.update_event in H. dres H;
  match goal with
  | E : EventService._get_evento_autorizado _ _ _ = Ok (?k, ?e) |- _ =>
      apply get_evento_autorizado_ok in E as [_ [Hk [m0 [Hm0 Hu]]]]
  end;
  inversion H; subst; clear H; (split; [split|split]); cbn;
  solve
    [ exact Hm
    | intros k' Hk'; apply lookup_insert_is_Some in Hk' as [<-|[_ Hk']]; apply He; [eauto|exact Hk']
    | intros ? ? Hk' _; exact Hk'
    | intros k' e' m' Hk' Hm' Hne; rewrite lookup_insert_ne; [exact Hk'|];
      intros ->; rewrite Hk in Hk'; injection Hk' as <-; rewrite Hm0 in Hm';
      injection Hm' as <-; contradiction ].
Qed.

Lemma delete_event_keeps db uid eid db' :
  seq_ok db -> EventService.delete_event db uid eid = Ok db' ->
  seq_ok db' /\ keeps_foreign uid db db'.
Proof.
  intros [Hm He] H. unfold EventService.delete_event in H. dres H.
  match goal with
  | E : EventService._get_evento_autorizado _ _ _ = Ok (?k, ?e) |- _ =>
      apply get_evento_autorizado_ok in E as [_ [Hk [m0 [Hm0 Hu]]]]
  end.
  inversion H; subst; clear H. split; split; cbn.
  - exact Hm.
  - intros k' Hk'. apply lookup_delete_is_Some in Hk' as [_ Hk']. apply He, Hk'.
  - intros k' m' Hk' _. exact Hk'.
  - intros k' e' m' Hk' Hm' Hne. rewrite lookup_delete_ne; [exact Hk'|].
    intros ->. rewrite Hk in Hk'. injection Hk' as <-. rewrite Hm0 in Hm'.
    injection Hm' as <-. contradiction.
Qed.


Lemma dispatch_keeps db uid a r db' :
  seq_ok db -> dispatch db uid a = Ok (r, db') -> seq_ok db' /\ keeps_foreign uid db db'.
Proof.
  intros Hs H. unfold dispatch in H.
  repeat match type of H with
  | context [if ?b then _ else _] =>
      let E := fresh "E" in destruct b eqn:E; [dres H|]
  end;
  try (inversion H; subst; split; [exact Hs | apply keeps_foreign_refl]);
  inversion H; subst; clear H;
  first [ eapply create_subject_keeps; eassumption
        | eapply update_subject_keeps; eassumption
        | eapply delete_subject_keeps; eassumption
        | eapply create_event_keeps; eassumption
        | eapply update_event_keeps; eassumption
        | eapply delete_event_keeps; eassumption ].
Qed.


Lemma step_keeps db uid n a :
  seq_ok db -> seq_ok (snd (step db uid n a)) /\ keeps_foreign uid db (snd (step db uid n a)).
Proof.
  intros Hs. destruct (allow_of a) eqn:Ha.
  - pose proof (step_run db uid n a Ha) as R.
    destruct (dispatch db uid a) as [[r d]|e] eqn:D; destruct R as [_ ->].
    + eapply dispatch_keeps; eassumption.
    + split; [exact Hs | apply keeps_foreign_refl].
  - destruct (step_skip db uid n a Ha) as [_ ->]. split; [exact Hs | apply keeps_foreign_refl].
Qed.

Lemma execute_loop_keeps db uid n l :
  seq_ok db ->
  seq_ok (snd (execute_loop db uid n l)) /\ keeps_foreign uid db (snd (execute_loop db uid n l)).
Proof.
  revert db n. induction l as [|a l IH]; intros db n Hs; cbn [execute_loop].
  - split; [exact Hs | apply keeps_foreign_refl].
  - destruct (step_keeps db uid n a Hs) as [Hs1 K1].
    destruct (step db uid n a) as [[res err] d1]. cbn [snd] in Hs1, K1.
    destruct (IH d1 (S n) Hs1) as [Hs2 K2].
    destruct (execute_loop d1 uid (S n) l) as [[rs es] d2]. cbn [snd] in *.
    split; [exact Hs2 | eapply keeps_foreign_trans; eassumption].
Qed.

Lemma db_before_keeps db uid acts i :
  seq_ok db -> seq_ok (db_before db uid acts i) /\ keeps_foreign uid db (db_before db uid acts i).
Proof.
  intros Hs. unfold db_before.
  pose proof (execute_loop_keeps db uid 1 (take i acts) Hs) as K.
  destruct (execute_loop db uid 1 (take i acts)) as [[? ?] ?]. exact K.
Qed.

Lemma get_materia_autorizada_foreign db uid k m :
  materias db !! k = Some m -> materia_usuario_id m <> uid ->
  SubjectService._get_materia_autorizada db (VInt k) uid = Exc AccesoNoAutorizado.
Proof.
  intros Hk Hne. unfold SubjectService._get_materia_autorizada, get_materia. cbn.
  rewrite Hk. apply Z.eqb_neq in Hne. rewrite Hne. reflexivity.
Qed.

Lemma get_evento_autorizado_foreign db uid k e m :
  eventos db !! k = Some e -> materias db !! evento_materia_id e = Some m ->
  materia_usuario_id m <> uid ->
  EventService._get_evento_autorizado db (VInt k) uid = Exc AccesoNoAutorizado.
Proof.
  intros Hk Hm Hne. unfold EventService._get_evento_autorizado, get_evento, get_materia. cbn.
  rewrite Hk. cbn. rewrite Hm. apply Z.eqb_neq in Hne. rewrite Hne. reflexivity.
Qed.

Lemma targets_foreign_transport uid db db' a :
  keeps_foreign uid db db' -> targets_foreign db uid a -> targets_foreign db' uid a.
Proof.
  intros [KM KE] [[Hk [d [k [m [Ha [Hd [Hm Hne]]]]]]] | [Hk [d [k [e [m [Ha [Hd [He [Hm Hne]]]]]]]]]].
  - left. split; [exact Hk|]. exists d, k, m. eauto 6.
  - right. split; [exact Hk|]. exists d, k, e, m. eauto 8.
Qed.

Ltac eval_literals :=
  repeat match goal with
  | |- context [String.eqb ?x ?y] =>
      let b := eval vm_compute in (String.eqb x y) in change (String.eqb x y) with b
  end.
Ltac eval_literals_in H :=
  repeat match type of H with
  | context [String.eqb ?x ?y] =>
      let b := eval vm_compute in (String.eqb x y) in change (String.eqb x y) with b in H
  end.
Ltac unbind_goal := try (unfold mbind, result_bind); cbv beta iota.

Lemma update_subject_foreign db uid k m p :
  materias db !! k = Some m -> materia_usuario_id m <> uid ->
  SubjectService.update_subject db uid (VInt k) p = Exc AccesoNoAutorizado.
Proof.
  intros Hk Hne. unfold SubjectService.update_subject.
  rewrite (get_materia_autorizada_foreign db uid k m Hk Hne). reflexivity.
Qed.

Lemma delete_subject_foreign db uid k m :
  materias db !! k = Some m -> materia_usuario_id m <> uid ->
  SubjectService.delete_subject db uid (VInt k) = Exc AccesoNoAutorizado.
Proof.
  intros Hk Hne. unfold SubjectService.delete_subject.
  rewrite (get_materia_autorizada_foreign db uid k m Hk Hne). reflexivity.
Qed.

Lemma update_event_foreign db uid k e m p :
  eventos db !! k = Some e -> materias db !! evento_materia_id e = Some m ->
  materia_usuario_id m <> uid ->
  EventService.update_event db uid (VInt k) p = Exc AccesoNoAutorizado.
Proof.
  intros Hk Hm Hne. unfold EventService.update_event.
  rewrite (get_evento_autorizado_foreign db uid k e m Hk Hm Hne). reflexivity.
Qed.

Lemma delete_event_foreign db uid k e m :
  eventos db !! k = Some e -> materias db !! evento_materia_id e = Some m ->
  materia_usuario_id m <> uid ->
  EventService.delete_event db uid (VInt k) = Exc AccesoNoAutorizado.
Proof.
  intros Hk Hm Hne. unfold EventService.delete_event.
  rewrite (get_evento_autorizado_foreign db uid k e m Hk Hm Hne). reflexivity.
Qed.

Lemma dispatch_foreign_fails db uid a :
  targets_foreign db uid a -> exists e, dispatch db uid a = Exc e.
Proof.
  intros [[Hk [d [k [m [Ha [Hd [Hm Hne]]]]]]] | [Hk [d [k [e [m [Ha [Hd [He [Hm Hne]]]]]]]]]];
  unfold dispatch; rewrite Ha;
  (destruct Hk as [Hk|Hk]; rewrite Hk; cbn [py_eq_str]; eval_literals; cbv beta iota;
   cbn [py_copy py_subscript]; unbind_goal;
   unfold dict_pop; rewrite Hd; unbind_goal).
  - destruct (mk_MateriaUpdate _) as [p|e0]; unbind_goal; [|eauto].
    rewrite (update_subject_foreign db uid k m p Hm Hne). eauto.
  - rewrite (delete_subject_foreign db uid k m Hm Hne). eauto.
  - destruct (mk_EventoUpdate _) as [p|e0]; unbind_goal; [|eauto].
    rewrite (update_event_foreign db uid k e m p He Hm Hne). eauto.
  - rewrite (delete_event_foreign db uid k e m He Hm Hne). eauto.
Qed.


Lemma execute_actions_at db uid acts i a :
  acts !! i = Some a ->
  fst (execute_actions db uid acts) !! i = Some (fst (fst (step (db_before db uid acts i) uid (S i) a))).
Proof.
  intros Hi. destruct (execute_loop_at db uid acts i a Hi) as [H _].
  unfold execute_actions.
  destruct (execute_loop db uid 1 acts) as [[results errs] d]. cbn [fst] in *.
  destruct (1 <? length acts)%nat; [|exact H]. cbn [fst].
  apply lookup_app_l_Some. exact H.
Qed.

Lemma execute_actions_db db uid acts :
  snd (execute_actions db uid acts) = snd (execute_loop db uid 1 acts).
Proof. unfold execute_actions. destruct (execute_loop db uid 1 acts) as [[? ?] ?]. reflexivity. Qed.

Lemma seq_ok_db0 : seq_ok Samples.db0.
Proof.
  split; intros k [x Hx]; cbn in Hx;
    repeat (apply lookup_insert_Some in Hx as [[<- _]|[_ Hx]]; [cbn; lia|]);
    rewrite lookup_empty in Hx; discriminate.
Qed.

(** C1: a request of user [uid] never changes a subject or an event of
    another user.  The domain services refuse such a target with
    [AccesoNoAutorizado]; an action of the batch that updates or deletes
    one is either skipped or recorded as an error, and leaves the database
    as it was; and after the whole batch every row of another user is still
    there, unchanged (the sequences are assumed ahead of the stored keys,
    as autoincrement keeps them). *)
Theorem ownership_isolation : forall db uid acts,
  seq_ok db ->
  (forall k m p, materias db !! k = Some m -> materia_usuario_id m <> uid ->
     SubjectService.update_subject db uid (VInt k) p = Exc AccesoNoAutorizado /\
     SubjectService.delete_subject db uid (VInt k) = Exc AccesoNoAutorizado) /\
  (forall k e m p, eventos db !! k = Some e -> materias db !! evento_materia_id e = Some m ->
     materia_usuario_id m <> uid ->
     EventService.update_event db uid (VInt k) p = Exc AccesoNoAutorizado /\
     EventService.delete_event db uid (VInt k) = Exc AccesoNoAutorizado) /\
  (forall i a, acts !! i = Some a -> targets_foreign db uid a ->
     db_before db uid acts (S i) = db_before db uid acts i /\
     (fst (execute_actions db uid acts) !! i =
        Some (RSkipped (kind a) (conflict_or a "no permitida") (description a)) \/
      exists e, fst (execute_actions db uid acts) !! i =
        Some (RError (kind a) (str_exc e) (description a)))) /\
  keeps_foreign uid db (snd (execute_actions db uid acts)).
Proof.
  intros db uid acts Hs. split; [|split; [|split]].
  - intros k m p Hk Hne. split.
    + exact (update_subject_foreign db uid k m p Hk Hne).
    + exact (delete_subject_foreign db uid k m Hk Hne).
  - intros k e m p Hk Hm Hne. split.
    + exact (update_event_foreign db uid k e m p Hk Hm Hne).
    + exact (delete_event_foreign db uid k e m Hk Hm Hne).
  - intros i a Hi Ht.
    destruct (db_before_keeps db uid acts i Hs) as [_ K].
    pose proof (targets_foreign_transport _ _ _ _ K Ht) as Ht'.
    destruct (execute_loop_at db uid acts i a Hi) as [_ Hdb].
    rewrite (execute_actions_at db uid acts i a Hi), Hdb.
    set (d := db_before db uid acts i) in *.
    destruct (allow_of a) eqn:Ha.
    + pose proof (step_run d uid (S i) a Ha) as R.
      destruct (dispatch_foreign_fails d uid a Ht') as [e D]. rewrite D in R.
      destruct R as [-> ->]. split; [reflexivity|]. right. eauto.
    + destruct (step_skip d uid (S i) a Ha) as [-> ->]. split; [reflexivity|]. left. reflexivity.
  - rewrite execute_actions_db. apply (execute_loop_keeps db uid 1 acts Hs).
Qed.

Lemma ownership_isolation_witness :
  (db_before Samples.db0 1 Samples.batch 1 = db_before Samples.db0 1 Samples.batch 0 /\
   (fst (execute_actions Samples.db0 1 Samples.batch) !! 0%nat =
      Some (RSkipped (VStr "delete_materia") (conflict_or Samples.delete_quimica "no permitida")
                     (VStr "Eliminar materia #2")) \/
    exists e, fst (execute_actions Samples.db0 1 Samples.batch) !! 0%nat =
      Some (RError (VStr "delete_materia") (str_exc e) (VStr "Eliminar materia #2")))) /\
  keeps_foreign 1 Samples.db0 (snd (execute_actions Samples.db0 1 Samples.batch)).
Proof.
  destruct (ownership_isolation Samples.db0 1 Samples.batch seq_ok_db0) as [_ [_ [H3 H4]]].
  split; [|exact H4].
  apply (H3 0%nat Samples.delete_quimica).
  - reflexivity.
  - left. split; [right; reflexivity|]. exists [("materia_id", VInt 2)], 2%Z, Samples.quimica.
    split; [reflexivity|]. split; [reflexivity|]. split; [vm_compute; reflexivity|]. discriminate.
Defined.


(** *** C4 *)

Section KeepsActions.
Variable P : PlannedAction -> Prop.

Lemma ka_ret {A} (a : A) : keeps_actions P (nm_ret a).
Proof. intros s H. exact H. Qed.

Lemma ka_lift {A} (r : result A) : keeps_actions P (lift r).
Proof. intros s H. exact H. Qed.

Lemma ka_get o k : keeps_actions P (get o k).
Proof. intros s H. exact H. Qed.

Lemma ka_error m : keeps_actions P (emit_error m).
Proof. intros s H. exact H. Qed.

Lemma ka_emit a : P a -> keeps_actions P (emit_action a).
Proof. intros Ha s H. cbn. apply Forall_app. auto. Qed.

Lemma ka_bind {A B} (c : NM A) (f : A -> NM B) :
  keeps_actions P c -> (forall x, keeps_actions P (f x)) -> keeps_actions P (nm_bind c f).
Proof.
  intros Hc Hf s H. unfold nm_bind. specialize (Hc s H).
  destruct (c s) as [[x|e] s']; cbn in *; auto. apply Hf, Hc.
Qed.

Lemma ka_bind_lift {A B} (r : result A) (f : A -> NM B) :
  (forall x, r = Ok x -> keeps_actions P (f x)) -> keeps_actions P (nm_bind (lift r) f).
Proof.
  intros Hf s H. unfold nm_bind, lift. destruct r as [x|e]; cbn; auto. apply Hf; auto.
Qed.

Lemma ka_try {A} (c : NM A) hd h :
  keeps_actions P c -> (forall e, keeps_actions P (h e)) -> keeps_actions P (try_except c hd h).
Proof.
  intros Hc Hh s H. unfold try_except. specialize (Hc s H).
  destruct (c s) as [[x|e] s'] eqn:E; cbn in *; auto.
  destruct (hd e); auto. apply Hh, Hc.
Qed.

End KeepsActions.

Ltac ka_step :=
  match goal with
  | |- keeps_actions _ (nm_bind (lift _) _) => apply ka_bind_lift; intros ?x ?Hx
  | |- keeps_actions _ (nm_bind _ _) => apply ka_bind; [|intros ?x]
  | |- keeps_actions _ (try_except _ _ _) => apply ka_try; [|intros ?e]
  | |- keeps_actions _ (nm_ret _) => apply ka_ret
  | |- keeps_actions _ (lift _) => apply ka_lift
  | |- keeps_actions _ (get _ _) => apply ka_get
  | |- keeps_actions _ (emit_error _) => apply ka_error
  | |- keeps_actions _ (if ?b then _ else _) => let E := fresh "E" in destruct b eqn:E
  | |- keeps_actions _ (match ?x with _ => _ end) => destruct x
  | |- keeps_actions _ (emit_action _) => apply ka_emit
  end.

Lemma ensure_ownership_materia_ok db uid v x :
  _ensure_ownership_materia db uid v = Ok x ->
  exists k m, v = VInt k /\ materias db !! k = Some m /\ materia_usuario_id m = uid.
Proof.
  unfold _ensure_ownership_materia, get_materia.
  destruct v as [| | k | | |]; cbn; try discriminate.
  destruct (materias db !! k) as [m|] eqn:E; cbn; [|discriminate].
  destruct (Z.eqb_spec (materia_usuario_id m) uid); [|discriminate]. eauto.
Qed.

Lemma truthy_int k : truthy (VInt k) = true -> k <> 0%Z.
Proof. cbn. intros H ->. discriminate. Qed.

Lemma normalize_body_owned db uid name a :
  keeps_actions (materia_action_owned db uid) (normalize_body name a db uid).
Proof.
  unfold normalize_body, norm_create_materia, norm_update_materia, norm_delete_materia,
    norm_create_evento, norm_update_evento, norm_delete_evento, materia_id_or_ref,
    resolve_evento_id, missing_reference.
  repeat ka_step;
  try (unfold materia_action_owned, new_action; cbn [kind]; intros [Hk|Hk]; discriminate Hk).
  all: unfold materia_action_owned, new_action; cbn [kind args]; intros _.
  all: match goal with
       | H : _ensure_ownership_materia _ _ ?v = Ok _ |- _ =>
           destruct (ensure_ownership_materia_ok _ _ _ _ H) as [k [m [-> [Hk Hu]]]]
       end.
  all: do 3 eexists; split; [reflexivity|]; split; [|eauto].
  all: apply truthy_int; apply negb_false_iff; assumption.
Qed.


Lemma normalize_tool_call_owned db uid raw :
  Forall (materia_action_owned db uid) (fst (_normalize_tool_call raw db uid)).
Proof.
  unfold _normalize_tool_call.
  pose proof (normalize_body_owned db uid (dget raw "name" VNone)
                (let a := dget raw "args" VNone in if truthy a then a else VDict []) ([], [])
                (List.Forall_nil _)) as H.
  destruct (normalize_body _ _ db uid ([], [])) as [[x|e] [out errs]]; exact H.
Qed.

Lemma normalize_all_owned db uid calls :
  Forall (materia_action_owned db uid) (fst (normalize_all db uid calls)).
Proof.
  rewrite normalize_all_concat. cbn [fst]. apply Forall_concat, Forall_forall.
  intros l Hl. apply list_elem_of_In, in_map_iff in Hl as [c [<- _]].
  apply normalize_tool_call_owned.
Qed.

Lemma check_all_in db uid l l' lines :
  check_all db uid l = Ok (l', lines) ->
  forall a', In a' l' -> exists a line, In a l /\ check_action db uid a = Ok (a', line).
Proof.
  revert l' lines. induction l as [|a l IH]; intros l' lines H a' Hin; cbn in H.
  - injection H as <- <-. destruct Hin.
  - unfold mbind, result_bind in H.
    destruct (check_action db uid a) as [[a1 line1]|e] eqn:E; [|discriminate].
    destruct (check_all db uid l) as [[rs ls]|e] eqn:E2; [|discriminate].
    injection H as <- <-. destruct Hin as [<-|Hin].
    + exists a, line1. split; [left; reflexivity | exact E].
    + destruct (IH rs ls eq_refl a' Hin) as [a0 [l0 [H1 H2]]].
      exists a0, l0. split; [right; exact H1 | exact H2].
Qed.

Lemma check_owned_materia_action db uid a a' line :
  materia_action_owned db uid a ->
  (kind a = VStr "update_materia" \/ kind a = VStr "delete_materia") ->
  check_action db uid a = Ok (a', line) ->
  exists k m, a' = annotate a true [("materia_id", VInt k)] VNone /\
              materias db !! k = Some m /\ materia_usuario_id m = uid.
Proof.
  intros Ho Hk H. destruct (Ho Hk) as [k [m [rest [Ha [Hk0 [Hm Hu]]]]]].
  apply Z.eqb_neq in Hk0.
  unfold check_action in H. rewrite Ha in H.
  destruct Hk as [Hk|Hk]; rewrite Hk in H;
    cbn -[get_materia _find_materia_by_name kind_title py_str annotate] in H;
    do 2 (try rewrite Hk0 in H; cbn -[kind_title py_str annotate] in H); rewrite Hm in H; cbn -[kind_title py_str annotate] in H.
  - injection H as <- _. eauto.
  - injection H as <- _. eauto.
Qed.



Lemma result_bind_ok_inv {A B} (r : result A) (k : A -> result B) x :
  (r ≫= k) = Ok x -> exists y, k y = Ok x.
Proof. unfold mbind, result_bind. destruct r; [eauto|discriminate]. Qed.

Ltac keep_inv H :=
  cbv beta zeta in H;
  lazymatch type of H with
  | mbind _ _ = Ok _ =>
      let y := fresh "y" in
      apply result_bind_ok_inv in H; destruct H as [y H]; keep_inv H
  | (if ?b then _ else _) = Ok _ => destruct b; keep_inv H
  | (match ?x with _ => _ end) = Ok _ => destruct x; keep_inv H
  | Ok _ = Ok _ => injection H as <- _; split; reflexivity
  | Exc _ = Ok _ => discriminate H
  end.

Lemma check_action_keeps_kind_args db uid a a' line :
  check_action db uid a = Ok (a', line) -> kind a' = kind a /\ args a' = args a.
Proof.
  intros H. unfold check_action in H. keep_inv H.
Qed.
Lemma plan_actions_checked db uid text llm p :
  plan_actions db uid text llm = Ok p ->
  exists lines, check_all db uid (fst (normalize_all db uid (llm text))) = Ok (actions p, lines).
Proof.
  unfold plan_actions. destruct (normalize_all db uid (llm text)) as [acts errs]. cbn [fst].
  intros H.
  destruct acts as [|a0 acts']; [destruct errs as [|e0 errs']|].
  - injection H as <-. exists []. reflexivity.
  - unfold mbind, result_bind in H.
    destruct (check_all db uid []) as [[c l]|e]; [|discriminate].
    injection H as <-. eauto.
  - unfold mbind, result_bind in H.
    destruct (check_all db uid (a0 :: acts')) as [[c l]|e]; [|discriminate].
    injection H as <-. eauto.
Qed.





(** *** C9 *)

Lemma grows_refl s : grows s s.
Proof. exists [], []. destruct s. cbn. rewrite !app_nil_r. reflexivity. Qed.

Lemma grows_trans s1 s2 s3 : grows s1 s2 -> grows s2 s3 -> grows s1 s3.
Proof.
  intros [o1 [e1 ->]] [o2 [e2 ->]]. exists (o1 ++ o2)%list, (e1 ++ e2)%list.
  cbn. rewrite !app_assoc. reflexivity.
Qed.

Lemma grows_strict_grows s1 s2 : grows_strict s1 s2 -> grows s1 s2.
Proof. intros [o [e [_ ->]]]. exists o, e. reflexivity. Qed.

Lemma grows_strict_l s1 s2 s3 : grows s1 s2 -> grows_strict s2 s3 -> grows_strict s1 s3.
Proof.
  intros [o1 [e1 ->]] [o2 [e2 [Hne ->]]]. exists (o1 ++ o2)%list, (e1 ++ e2)%list.
  split.
  - destruct Hne as [H|H]; [left|right]; intros Hc; apply app_eq_nil in Hc; tauto.
  - cbn. rewrite !app_assoc. reflexivity.
Qed.

Lemma mono_ret {A} (a : A) : monotone (nm_ret a).
Proof. intros s. apply grows_refl. Qed.

Lemma mono_lift {A} (r : result A) : monotone (lift r).
Proof. intros s. apply grows_refl. Qed.

Lemma mono_get o k : monotone (get o k).
Proof. intros s. apply grows_refl. Qed.

Lemma prod_emit_action a : productive (emit_action a).
Proof. intros s. exists [a], []. split; [left; discriminate|]. rewrite app_nil_r. reflexivity. Qed.

Lemma prod_emit_error m : productive (emit_error m).
Proof. intros s. exists [], [m]. split; [right; discriminate|]. rewrite app_nil_r. reflexivity. Qed.

Lemma productive_monotone {A} (c : NM A) : productive c -> monotone c.
Proof.
  intros Hc s. specialize (Hc s). destruct (c s) as [[x|e] s']; cbn;
    [apply grows_strict_grows|]; exact Hc.
Qed.

Lemma mono_bind {A B} (c : NM A) (f : A -> NM B) :
  monotone c -> (forall x, monotone (f x)) -> monotone (nm_bind c f).
Proof.
  intros Hc Hf s. unfold nm_bind. specialize (Hc s).
  destruct (c s) as [[x|e] s']; cbn in *; [|exact Hc].
  eapply grows_trans; [exact Hc|apply Hf].
Qed.

Lemma prod_bind {A B} (c : NM A) (f : A -> NM B) :
  monotone c -> (forall x, productive (f x)) -> productive (nm_bind c f).
Proof.
  intros Hc Hf s. unfold nm_bind. specialize (Hc s).
  destruct (c s) as [[x|e] s']; cbn in *; [|exact Hc].
  specialize (Hf x s'). destruct (f x s') as [[y|e] s'']; cbn in *.
  - eapply grows_strict_l; eassumption.
  - eapply grows_trans; eassumption.
Qed.

Lemma prod_try {A} (c : NM A) hd h :
  productive c -> (forall e, productive (h e)) -> productive (try_except c hd h).
Proof.
  intros Hc Hh s. unfold try_except. specialize (Hc s).
  destruct (c s) as [[x|e] s'] eqn:E; cbn in *; [exact Hc|].
  destruct (hd e); [|exact Hc].
  specialize (Hh e s'). destruct (h e s') as [[y|e'] s'']; cbn in *.
  - eapply grows_strict_l; eassumption.
  - eapply grows_trans; eassumption.
Qed.

Ltac prod_step :=
  match goal with
  | |- monotone (nm_bind _ _) => apply mono_bind; [|intros ?x]
  | |- monotone (nm_ret _) => apply mono_ret
  | |- monotone (lift _) => apply mono_lift
  | |- monotone (get _ _) => apply mono_get
  | |- monotone (match ?x with _ => _ end) => destruct x
  | |- productive (nm_bind _ _) => apply prod_bind; [|intros ?x]
  | |- productive (try_except _ _ _) => apply prod_try; [|intros ?e]
  | |- productive (emit_error _) => apply prod_emit_error
  | |- productive (emit_action _) => apply prod_emit_action
  | |- productive (if ?b then _ else _) => destruct b
  | |- productive (match ?x with _ => _ end) => destruct x
  end.

Lemma evento_query_in db uid er mr mat k e :
  evento_query db uid er mr mat = Ok (Some (k, e)) -> In (k, e) (evento_rows db).
Proof.
  unfold evento_query. intros H. apply result_bind_ok_inv in H. destruct H as [eref H].
  cbv zeta in H.
  remember (List.filter _ (evento_rows db)) as q eqn:Eq.
  assert (Hq : forall x, In x q -> In x (evento_rows db))
    by (intros x Hx; rewrite Eq in Hx; apply filter_In in Hx; tauto).
  clear Eq.
  destruct q as [|ev [|ev2 r]].
  - cbn in H. destruct mat as [[mid ?]|]; cbn in H; discriminate.
  - injection H as ->. apply Hq. left. reflexivity.
  - destruct (_ && _); [|discriminate].
    destruct mat as [[mid ?]|]; [|discriminate].
    remember (List.filter _ (ev :: ev2 :: r)) as q2 eqn:Eq2.
    destruct q2 as [|ev' [|]]; try discriminate.
    injection H as ->. apply Hq.
    assert (Hin : In (k, e) (List.filter (fun '(_, e) => Z.eqb (evento_materia_id e) mid) (ev :: ev2 :: r)))
      by (rewrite <- Eq2; left; reflexivity).
    apply filter_In in Hin. tauto.
Qed.

Lemma find_evento_by_references_in db uid er mr k e :
  _find_evento_by_references db uid er mr = Ok (Some (k, e)) -> eventos db !! k = Some e.
Proof.
  unfold _find_evento_by_references. intros H.
  assert (Hin : In (k, e) (evento_rows db)).
  { destruct (truthy mr).
    - apply result_bind_ok_inv in H. destruct H as [m H].
      destruct m as [m|]; [|discriminate]. eapply evento_query_in; exact H.
    - eapply evento_query_in; exact H. }
  unfold evento_rows in Hin. apply elem_of_map_to_list, list_elem_of_In, Hin.
Qed.


Lemma grows_strict_err s m : grows_strict s (fst s, (snd s ++ [m])%list).
Proof. exists [], [m]. split; [right; discriminate|]. rewrite app_nil_r. reflexivity. Qed.

Ltac strict_err :=
  lazymatch goal with
  | |- grows_strict _ (_, (_ ++ [_])%list) => apply grows_strict_err
  end.

Lemma prod_resolve_then label db uid args eid0 (T : pyval -> NM unit) :
  event_keys_positive db -> (forall v, truthy v = true -> productive (T v)) ->
  productive (nm_bind (resolve_evento_id label db uid args eid0)
                      (fun v => if negb (truthy v) then missing_reference label args else T v)).
Proof.
  intros Hpos HT s. unfold resolve_evento_id.
  destruct (truthy eid0) eqn:E0; cbn [negb].
  { unfold nm_bind, nm_ret. rewrite E0. apply HT, E0. }
  unfold missing_reference, emit_error, nm_bind, get, lift, nm_ret, try_except.
  destruct (py_get args "evento_ref" VNone) as [er|x] eqn:Er; cbv beta iota zeta;
    [|apply grows_refl].
  destruct (py_get args "materia_ref" VNone) as [mr|x] eqn:Mr; cbv beta iota zeta;
    [|apply grows_refl].
  destruct (truthy er || truthy mr) eqn:Eor.
  - destruct (_find_evento_by_references db uid er mr) as [[[k e]|]|x] eqn:F;
      cbv beta iota zeta.
    + assert (Hk : (0 < k)%Z)
        by (apply Hpos; rewrite (find_evento_by_references_in _ _ _ _ _ _ F); eexists; reflexivity).
      assert (Ht : truthy (VInt k) = true) by (cbn; destruct k; [lia|reflexivity|lia]).
      rewrite Ht. cbn [negb]. apply HT, Ht.
    + try rewrite E0; cbn [negb]. cbv beta iota zeta.
      apply orb_true_iff in Eor.
      destruct (negb (truthy er) && negb (truthy mr)) eqn:En;
        [destruct Eor as [Eor|Eor]; rewrite Eor in En; cbn in En;
         [discriminate|rewrite andb_false_r in En; discriminate]|].
      strict_err.
    + cbn [any_exc]. try rewrite E0; cbn [negb]. cbv beta iota zeta.
      apply orb_true_iff in Eor.
      destruct (negb (truthy er) && negb (truthy mr)) eqn:En;
        [destruct Eor as [Eor|Eor]; rewrite Eor in En; cbn in En;
         [discriminate|rewrite andb_false_r in En; discriminate]|].
      strict_err.
  - try rewrite E0; cbn [negb]. cbv beta iota zeta.
    apply orb_false_iff in Eor as [-> ->]. cbn [negb andb].
    strict_err.
Qed.


Lemma normalize_body_productive db uid name a :
  event_keys_positive db -> productive (normalize_body name a db uid).
Proof.
  intros Hpos. unfold normalize_body.
  repeat match goal with |- productive (if ?b then _ else _) => destruct b end;
    try apply prod_emit_error.
  - unfold norm_create_materia. repeat prod_step.
  - unfold norm_update_materia. cbv zeta. repeat prod_step.
  - unfold norm_delete_materia, materia_id_or_ref. repeat prod_step.
  - unfold norm_create_evento, materia_id_or_ref. cbv zeta. repeat prod_step.
  - unfold norm_update_evento. apply prod_bind; [apply mono_get|intros eid0].
    apply prod_resolve_then; [exact Hpos|intros v _]. repeat prod_step.
  - unfold norm_delete_evento. apply prod_bind; [apply mono_get|intros eid0].
    apply prod_resolve_then; [exact Hpos|intros v _]. repeat prod_step.
Qed.

(** Every tool call leaves at least one action or one error. *)
Lemma normalize_tool_call_traced db uid raw :
  event_keys_positive db ->
  fst (_normalize_tool_call raw db uid) <> [] \/ snd (_normalize_tool_call raw db uid) <> [].
Proof.
  intros Hpos. unfold _normalize_tool_call.
  pose proof (normalize_body_productive db uid (dget raw "name" VNone)
               (let a := dget raw "args" VNone in if truthy a then a else VDict []) Hpos ([], []))
    as Hp.
  destruct (normalize_body _ _ db uid ([], [])) as [[x|e] [o errs]].
  - destruct Hp as [o' [e' [Hne Heq]]]. injection Heq as -> ->. cbn. exact Hne.
  - right. cbn. intros Hc. apply app_eq_nil in Hc as [_ Hc]. discriminate.
Qed.


Lemma check_all_kind_args db uid acts checked lines :
  check_all db uid acts = Ok (checked, lines) -> map kind_args checked = map kind_args acts.
Proof.
  revert checked lines. induction acts as [|a r IH]; intros checked lines H.
  - cbn in H. injection H as <- _. reflexivity.
  - cbn in H. unfold mbind, result_bind in H.
    destruct (check_action db uid a) as [[a' line]|x] eqn:Ea; [|discriminate].
    destruct (check_all db uid r) as [[rs ls]|x] eqn:Er; [|discriminate].
    injection H as <- _. cbn.
    destruct (check_action_keeps_kind_args _ _ _ _ _ Ea) as [Hk Ha].
    unfold kind_args at 1 3. rewrite Hk, Ha, (IH rs ls eq_refl). reflexivity.
Qed.

Lemma normalize_all_app db uid l1 l2 :
  normalize_all db uid (l1 ++ l2) =
  ((fst (normalize_all db uid l1) ++ fst (normalize_all db uid l2))%list,
   (snd (normalize_all db uid l1) ++ snd (normalize_all db uid l2))%list).
Proof. rewrite !normalize_all_concat. cbn. rewrite !map_app, !concat_app. reflexivity. Qed.

Lemma normalize_all_one db uid c :
  normalize_all db uid [c] = _normalize_tool_call c db uid.
Proof.
  rewrite normalize_all_concat. cbn. rewrite !app_nil_r.
  destruct (_normalize_tool_call c db uid). reflexivity.
Qed.



Lemma event_keys_positive_db0 : event_keys_positive Samples.db0.
Proof.
  intros k [e He]. cbn in He.
  repeat (apply lookup_insert_Some in He as [[<- _]|[_ He]]; [lia|]).
  rewrite lookup_empty in He. discriminate.
Qed.



Lemma in_materias_named db uid n k m :
  In (k, m) (materias_named db uid n) <->
  materias db !! k = Some m /\ materia_usuario_id m = uid /\ materia_nombre m = n.
Proof.
  unfold materias_named, materia_rows. rewrite List.filter_In.
  rewrite <- list_elem_of_In, elem_of_map_to_list.
  rewrite andb_true_iff, Z.eqb_eq, String.eqb_eq. tauto.
Qed.

Lemma nodup_all_eq {A} (l : list A) x :
  List.NoDup l -> (forall y, In y l -> y = x) -> In x l -> l = [x].
Proof.
  intros Hn Ha Hx. destruct l as [|a [|b r]].
  - destruct Hx.
  - rewrite (Ha a) by (left; reflexivity). reflexivity.
  - exfalso. inversion Hn as [|? ? Hna _]; subst. apply Hna.
    rewrite (Ha a) by (left; reflexivity). rewrite <- (Ha b) by (right; left; reflexivity).
    left; reflexivity.
Qed.

Lemma materias_named_nodup db uid n : List.NoDup (materias_named db uid n).
Proof.
  unfold materias_named, materia_rows. apply List.NoDup_filter.
  apply NoDup_ListNoDup, NoDup_map_to_list.
Qed.

Lemma nil_iff_no_in {A} (l : list A) : (forall x, ~ In x l) -> l = [].
Proof. destruct l as [|a r]; [reflexivity|]. intros H. exfalso. apply (H a). left; reflexivity. Qed.

Lemma create_subject_ok db uid p k m db' :
  SubjectService.create_subject db uid p = Ok ((k, m), db') ->
  materias_named db uid (strip (mc_nombre p)) = [] /\ k = next_materia_id db /\
  m = {| materia_usuario_id := uid; materia_nombre := strip (mc_nombre p);
         materia_descripcion := mc_descripcion p |} /\
  db' = {| materias := <[k := m]> (materias db); eventos := eventos db;
           next_materia_id := k + 1; next_evento_id := next_evento_id db |}.
Proof.
  unfold SubjectService.create_subject. cbv zeta.
  destruct (materias_named db uid (strip (mc_nombre p))) as [|x [|y r]] eqn:E;
    cbn; try discriminate.
  intros H; inversion H; subst; auto.
Qed.

(** X1: a successful [create_subject] stores the subject under the next key, owned by the user and with the stripped name; a second creation by the same user with a name that strips to the same string then raises [MateriaDuplicada]. *)
Theorem create_subject_stores_then_duplicate : forall db uid p k m db' p',
  SubjectService.create_subject db uid p = Ok ((k, m), db') ->
  strip (mc_nombre p') = strip (mc_nombre p) ->
  k = next_materia_id db /\ materias db' !! k = Some m /\
  materia_usuario_id m = uid /\ materia_nombre m = strip (mc_nombre p) /\
  SubjectService.create_subject db' uid p' = Exc MateriaDuplicada.
Proof.
  intros db uid p k m db' p' H Hn.
  apply create_subject_ok in H as (Hd & -> & -> & ->).
  split; [reflexivity|]. split; [cbn; apply lookup_insert_eq|]. split; [reflexivity|]. split; [reflexivity|].
  unfold SubjectService.create_subject. cbv zeta. rewrite Hn.
  erewrite (nodup_all_eq _ (next_materia_id db, _)); [reflexivity| apply materias_named_nodup | |].
  - intros [k' m'] Hin. apply in_materias_named in Hin as (Hk & Hu & Hnm). cbn in Hk.
    destruct (decide (k' = next_materia_id db)) as [->|Hne].
    + rewrite lookup_insert_eq in Hk. injection Hk as <-. reflexivity.
    + rewrite lookup_insert_ne in Hk by congruence. exfalso.
      assert (In (k', m') (materias_named db uid (strip (mc_nombre p)))) as Hi
        by (apply in_materias_named; auto).
      rewrite Hd in Hi. destruct Hi.
  - apply in_materias_named. cbn. rewrite lookup_insert_eq. auto.
Qed.


Lemma names_unique_insert (M : gmap Z Materia) k m :
  names_unique M ->
  (forall k2 m2, k2 <> k -> M !! k2 = Some m2 -> materia_usuario_id m2 = materia_usuario_id m ->
                 materia_nombre m2 = materia_nombre m -> False) ->
  names_unique (<[k := m]> M).
Proof.
  intros Hu Hn k1 k2 m1 m2 H1 H2 Ho Hnm.
  destruct (decide (k1 = k)) as [->|N1]; destruct (decide (k2 = k)) as [->|N2]; auto.
  - rewrite lookup_insert_eq in H1. rewrite lookup_insert_ne in H2 by congruence.
    injection H1 as <-. exfalso. eapply (Hn k2 m2); eauto.
  - rewrite lookup_insert_eq in H2. rewrite lookup_insert_ne in H1 by congruence.
    injection H2 as <-. exfalso. eapply (Hn k1 m1); eauto.
  - rewrite lookup_insert_ne in H1, H2 by congruence. eauto.
Qed.

Lemma names_unique_delete (M : gmap Z Materia) k :
  names_unique M -> names_unique (delete k M).
Proof.
  intros Hu k1 k2 m1 m2 H1 H2. apply lookup_delete_Some in H1 as [_ H1].
  apply lookup_delete_Some in H2 as [_ H2]. eauto.
Qed.

Lemma create_subject_names_unique db uid p r db' :
  names_unique (materias db) -> SubjectService.create_subject db uid p = Ok (r, db') ->
  names_unique (materias db').
Proof.
  intros Hu H. destruct r as [k m]. apply create_subject_ok in H as (Hd & -> & -> & ->). cbn.
  apply names_unique_insert; [exact Hu|]. cbn. intros k2 m2 _ H2 Ho Hnm.
  assert (In (k2, m2) (materias_named db uid (strip (mc_nombre p)))) as Hi
    by (apply in_materias_named; auto).
  rewrite Hd in Hi. destruct Hi.
Qed.

Lemma update_subject_names_unique db uid mid p r db' :
  names_unique (materias db) -> SubjectService.update_subject db uid mid p = Ok (r, db') ->
  names_unique (materias db').
Proof.
  intros Hu H. unfold SubjectService.update_subject in H.
  destruct (SubjectService._get_materia_autorizada db mid uid) as [[k m]|] eqn:Eg; [|discriminate].
  apply get_materia_autorizada_ok in Eg as (_ & Hk & Ho). unbind H.
  (* the subject after the rename: its owner, and a name no other subject of the owner has *)
  assert (forall m1, match mu_nombre p with
          | Some (Some n) =>
              if String.eqb n "" then Ok m else
              dup ← scalar_one_or_none
                      (List.filter (fun '(k', _) => negb (Z.eqb k' k))
                                   (materias_named db uid (strip n)));
              match dup with
              | Some _ => Exc MateriaDuplicada
              | None => Ok {| materia_usuario_id := materia_usuario_id m; materia_nombre := strip n;
                              materia_descripcion := materia_descripcion m |}
              end
          | _ => Ok m
          end = Ok m1 ->
          materia_usuario_id m1 = uid /\
          forall k2 m2, k2 <> k -> materias db !! k2 = Some m2 -> materia_usuario_id m2 = uid ->
                        materia_nombre m2 = materia_nombre m1 -> False) as Hm1.
  { intros m1 E.
    assert (Hold : forall k2 m2, k2 <> k -> materias db !! k2 = Some m2 -> materia_usuario_id m2 = uid ->
                        materia_nombre m2 = materia_nombre m -> False)
      by (intros k2 m2 N H2 Ho2 Hn2; apply N; eapply Hu; eauto; congruence).
    destruct (mu_nombre p) as [[n|]|]; try (injection E as <-; auto).
    destruct (String.eqb n "") eqn:En; [injection E as <-; auto|].
    unbind E.
    destruct (List.filter _ (materias_named db uid (strip n))) as [|x [|y l]] eqn:Ef;
      cbn in E; try discriminate.
    injection E as <-. cbn. split; [exact Ho|].
    intros k2 m2 N H2 Ho2 Hn2.
    assert (In (k2, m2) (List.filter (fun '(k', _) => negb (Z.eqb k' k))
                                     (materias_named db uid (strip n)))) as Hi.
    { apply List.filter_In. split; [apply in_materias_named; auto|].
      apply negb_true_iff, Z.eqb_neq, N. }
    rewrite Ef in Hi. destruct Hi. }
  destruct (match mu_nombre p with Some (Some n) => _ | _ => Ok m end) as [m1|] eqn:E1 in H;
    [|discriminate].
  destruct (Hm1 m1 E1) as [Ho1 Hn1]. unbind H. inversion H; subst; clear H. cbn.
  apply names_unique_insert; [exact Hu|].
  intros k2 m2 N H2 Ho2 Hn2. destruct (mu_descripcion p); cbn in *; eapply Hn1; eauto; congruence.
Qed.

Lemma delete_subject_names_unique db uid mid db' :
  names_unique (materias db) -> SubjectService.delete_subject db uid mid = Ok db' ->
  names_unique (materias db').
Proof.
  intros Hu H. unfold SubjectService.delete_subject in H. dres H. inversion H; subst. cbn.
  apply names_unique_delete, Hu.
Qed.


Section Preserved.
Variable P : DB -> Prop.
Variable uid : Z.
Hypothesis dispatch_P : forall db a r db', P db -> dispatch db uid a = Ok (r, db') -> P db'.

Lemma step_preserves db n a : P db -> P (snd (step db uid n a)).
Proof.
  intros Hp. destruct (allow_of a) eqn:Ha.
  - pose proof (step_run db uid n a Ha) as R.
    destruct (dispatch db uid a) as [[r d]|e] eqn:D; destruct R as [_ ->]; eauto.
  - destruct (step_skip db uid n a Ha) as [_ ->]. exact Hp.
Qed.

Lemma execute_loop_preserves db n l : P db -> P (snd (execute_loop db uid n l)).
Proof.
  revert db n. induction l as [|a l IH]; intros db n Hp; cbn [execute_loop]; [exact Hp|].
  pose proof (step_preserves db n a Hp) as H1.
  destruct (step db uid n a) as [[res err] d1]. cbn [snd] in H1.
  pose proof (IH d1 (S n) H1) as H2.
  destruct (execute_loop d1 uid (S n) l) as [[rs es] d2]. exact H2.
Qed.

Lemma execute_actions_preserves db acts : P db -> P (snd (execute_actions db uid acts)).
Proof.
  intros Hp. unfold execute_actions.
  pose proof (execute_loop_preserves db 1 acts Hp) as H.
  destruct (execute_loop db uid 1 acts) as [[rs es] d]. exact H.
Qed.
End Preserved.

Lemma event_services_keep_materias db uid :
  (forall p r db', EventService.create_event db uid p = Ok (r, db') -> materias db' = materias db) /\
  (forall eid p r db', EventService.update_event db uid eid p = Ok (r, db') -> materias db' = materias db) /\
  (forall eid db', EventService.delete_event db uid eid = Ok db' -> materias db' = materias db).
Proof.
  split; [|split].
  - intros p r db' H. unfold EventService.create_event in H; dres H; inversion H; reflexivity.
  - intros eid p r db' H. unfold EventService.update_event in H; dres H; inversion H; reflexivity.
  - intros eid db' H. unfold EventService.delete_event in H; dres H; inversion H; reflexivity.
Qed.

Lemma dispatch_names_unique db uid a r db' :
  names_unique (materias db) -> dispatch db uid a = Ok (r, db') -> names_unique (materias db').
Proof.
  intros Hs H. destruct (event_services_keep_materias db uid) as (Ec & Eu & Ed).
  unfold dispatch in H.
  repeat match type of H with
  | context [if ?b then _ else _] =>
      let E := fresh "E" in destruct b eqn:E; [dres H|]
  end;
  try (inversion H; subst; exact Hs);
  inversion H; subst; clear H;
  first [ eapply create_subject_names_unique; eassumption
        | eapply update_subject_names_unique; eassumption
        | eapply delete_subject_names_unique; eassumption
        | erewrite Ec by eassumption; exact Hs
        | erewrite Eu by eassumption; exact Hs
        | erewrite Ed by eassumption; exact Hs ].
Qed.

(** X2: if no user has two subjects of the same name, [create_subject], [update_subject], [delete_subject] and the executor [execute_actions] keep it so. *)
Theorem subject_names_unique_preserved : forall db uid,
  names_unique (materias db) ->
  (forall p r db', SubjectService.create_subject db uid p = Ok (r, db') -> names_unique (materias db')) /\
  (forall mid p r db', SubjectService.update_subject db uid mid p = Ok (r, db') -> names_unique (materias db')) /\
  (forall mid db', SubjectService.delete_subject db uid mid = Ok db' -> names_unique (materias db')) /\
  (forall acts, names_unique (materias (snd (execute_actions db uid acts)))).
Proof.
  intros db uid Hu. split; [|split; [|split]].
  - intros. eapply create_subject_names_unique; eassumption.
  - intros. eapply update_subject_names_unique; eassumption.
  - intros. eapply delete_subject_names_unique; eassumption.
  - intros acts. apply (execute_actions_preserves (fun d => names_unique (materias d)) uid); [|exact Hu].
    intros. eapply dispatch_names_unique; eassumption.
Qed.


(** X3: repeating a successful [update_subject] with the same payload on the resulting database succeeds again with the same subject and changes nothing. *)
Theorem update_subject_idempotent : forall db uid mid p r db',
  SubjectService.update_subject db uid mid p = Ok (r, db') ->
  SubjectService.update_subject db' uid mid p = Ok (r, db').
Proof.
  intros db uid mid p [k2 m2] db' H.
  unfold SubjectService.update_subject in *.
  destruct (SubjectService._get_materia_autorizada db mid uid) as [[k m]|] eqn:Eg; [|discriminate].
  pose proof Eg as Eg'. apply get_materia_autorizada_ok in Eg' as (-> & Hk & Ho). unbind H.
  destruct (match mu_nombre p with Some (Some n) => _ | _ => Ok m end) as [m1|] eqn:E1 in H;
    [|discriminate].
  unbind H. inversion H; subst k2 db'; clear H.
  set (m2' := match mu_descripcion p with Some ds => _ | None => m1 end) in *.
  (* the stored row is found again, with the same owner *)
  assert (Ho1 : materia_usuario_id m1 = uid /\
                match mu_nombre p with
                | Some (Some n) => if String.eqb n "" then m1 = m
                                   else materia_nombre m1 = strip n /\
                                        List.filter (fun '(k', _) => negb (Z.eqb k' k))
                                          (materias_named db uid (strip n)) = [] /\
                                        m1 = {| materia_usuario_id := materia_usuario_id m;
                                                materia_nombre := strip n;
                                                materia_descripcion := materia_descripcion m |}
                | _ => m1 = m
                end).
  { destruct (mu_nombre p) as [[n|]|]; try (injection E1 as <-; auto).
    destruct (String.eqb n "") eqn:En; [injection E1 as <-; auto|].
    unbind E1.
    destruct (List.filter _ (materias_named db uid (strip n))) as [|x [|y l]] eqn:Ef;
      cbn in E1; try discriminate.
    injection E1 as <-. cbn. auto. }
  destruct Ho1 as [Ho1 Hc].
  assert (Ho2 : materia_usuario_id m2' = uid) by (subst m2'; destruct (mu_descripcion p); exact Ho1).
  unfold SubjectService._get_materia_autorizada, get_materia. cbn.
  rewrite lookup_insert_eq. cbn. rewrite Ho2, Z.eqb_refl. cbn.
  assert (Hm1 : (match mu_nombre p with
          | Some (Some n) =>
              if String.eqb n "" then Ok m2' else
              dup ← scalar_one_or_none
                      (List.filter (fun '(k', _) => negb (Z.eqb k' k))
                                   (materias_named
                                      {| materias := <[k:=m2']> (materias db); eventos := eventos db;
                                         next_materia_id := next_materia_id db;
                                         next_evento_id := next_evento_id db |} uid (strip n)));
              match dup with
              | Some _ => Exc MateriaDuplicada
              | None => Ok {| materia_usuario_id := materia_usuario_id m2'; materia_nombre := strip n;
                              materia_descripcion := materia_descripcion m2' |}
              end
          | _ => Ok m2'
          end) = Ok (match mu_nombre p with
                     | Some (Some n) => if String.eqb n "" then m2'
                                        else {| materia_usuario_id := materia_usuario_id m2';
                                                materia_nombre := strip n;
                                                materia_descripcion := materia_descripcion m2' |}
                     | _ => m2' end)).
  { destruct (mu_nombre p) as [[n|]|]; try reflexivity.
    destruct (String.eqb n "") eqn:En; [reflexivity|].
    destruct Hc as (Hn1 & Hf & ->).
    replace (List.filter _ _) with (@nil (Z * Materia)); [reflexivity|].
    symmetry. apply nil_iff_no_in. intros [k' m'] Hi.
    apply List.filter_In in Hi as [Hi Hne]. apply negb_true_iff, Z.eqb_neq in Hne.
    apply in_materias_named in Hi as (Hk' & Ho' & Hn'). cbn in Hk'.
    rewrite lookup_insert_ne in Hk' by congruence.
    assert (In (k', m') (List.filter (fun '(k', _) => negb (Z.eqb k' k))
                                     (materias_named db uid (strip n)))) as Hi.
    { apply List.filter_In. split; [apply in_materias_named; auto|].
      apply negb_true_iff, Z.eqb_neq, Hne. }
    rewrite Hf in Hi. destruct Hi. }
  cbv zeta. rewrite Hm1. unbind_goal.
  (* the recomputed row is the stored one *)
  assert (Heq : match mu_descripcion p with
                | Some ds => {| materia_usuario_id := materia_usuario_id
                                  (match mu_nombre p with
                                   | Some (Some n) => if String.eqb n "" then m2'
                                       else {| materia_usuario_id := materia_usuario_id m2';
                                               materia_nombre := strip n;
                                               materia_descripcion := materia_descripcion m2' |}
                                   | _ => m2' end);
                                materia_nombre := materia_nombre
                                  (match mu_nombre p with
                                   | Some (Some n) => if String.eqb n "" then m2'
                                       else {| materia_usuario_id := materia_usuario_id m2';
                                               materia_nombre := strip n;
                                               materia_descripcion := materia_descripcion m2' |}
                                   | _ => m2' end);
                                materia_descripcion := ds |}
                | None => match mu_nombre p with
                          | Some (Some n) => if String.eqb n "" then m2'
                              else {| materia_usuario_id := materia_usuario_id m2';
                                      materia_nombre := strip n;
                                      materia_descripcion := materia_descripcion m2' |}
                          | _ => m2' end
                end = m2').
  { subst m2'. destruct (mu_nombre p) as [[n|]|]; destruct (mu_descripcion p); try reflexivity;
    destruct (String.eqb n ""); try reflexivity;
    destruct Hc as (_ & _ & ->); reflexivity. }
  rewrite Heq. cbn. rewrite insert_insert_eq. reflexivity.
Qed.



(** X5: a successful [delete_events_by_materia] requires an owned subject, returns the number of its events, removes exactly them, and leaves the subjects unchanged. *)
Theorem delete_events_by_materia_count : forall db uid k n db',
  EventService.delete_events_by_materia db uid k = Ok (n, db') ->
  (exists m, materias db !! k = Some m /\ materia_usuario_id m = uid) /\
  n = length (events_of_materia db k) /\ events_of_materia db' k = [] /\
  materias db' = materias db /\
  (forall j e, evento_materia_id e <> k -> (eventos db' !! j = Some e <-> eventos db !! j = Some e)).
Proof.
  intros db uid k n db' H. unfold EventService.delete_events_by_materia in H.
  destruct (EventService._assert_materia_propia db (VInt k) uid) as [[k0 m]|] eqn:Eg; [|discriminate].
  unfold EventService._assert_materia_propia, get_materia in Eg. cbn in Eg.
  destruct (materias db !! k) as [m0|] eqn:Hk; [|discriminate]. cbn in Eg.
  destruct (Z.eqb_spec (materia_usuario_id m0) uid) as [Hu|]; cbn in Eg; [|discriminate].
  unbind H. injection H as <- <-.
  split; [eauto|]. split; [reflexivity|]. split; [|split; [reflexivity|]].
  - apply nil_iff_no_in. intros [j ev] Hi. unfold events_of_materia, evento_rows in Hi.
    apply List.filter_In in Hi as [Hi Hev]. apply Z.eqb_eq in Hev.
    apply list_elem_of_In, elem_of_map_to_list in Hi. cbn in Hi.
    apply map_lookup_filter_Some in Hi as [_ Hne]. cbn in Hne. contradiction.
  - intros j e Ne. cbn. rewrite map_lookup_filter_Some. cbn. tauto.
Qed.


Lemma page_sound {A} (ord : list A -> list A) (l : list A) skip limit x :
  (forall l, Permutation (ord l) l) ->
  In x (firstn limit (skipn skip (ord l))) -> In x l.
Proof.
  intros Hp Hi. eapply Permutation_in; [apply Hp|].
  rewrite <- (firstn_skipn skip (ord l)). apply in_or_app. right.
  rewrite <- (firstn_skipn limit (skipn skip (ord l))). apply in_or_app. left. exact Hi.
Qed.

Lemma page_length {A} (l : list A) skip limit :
  (length (firstn limit (skipn skip l)) <= limit)%nat.
Proof. rewrite length_firstn. lia. Qed.

Lemma page_complete {A} (ord : list A -> list A) (l : list A) limit x :
  (forall l, Permutation (ord l) l) -> (length l <= limit)%nat ->
  In x l -> In x (firstn limit (skipn 0 (ord l))).
Proof.
  intros Hp Hl Hi. change (skipn 0 (ord l)) with (ord l).
  rewrite firstn_all2 by (rewrite (Permutation_length (Hp l)); exact Hl).
  eapply Permutation_in; [symmetry; apply Hp|exact Hi].
Qed.

(** X6: [list_subjects] returns at most [limit] rows, each a subject of the user whose name ILIKE-matches the search when one is given; with no search and no offset it returns all of them when they fit in [limit]. *)
Theorem list_subjects_page : forall ord db uid q skip limit,
  (forall l, Permutation (ord l) l) ->
  let r := SubjectService.list_subjects ord db uid q skip limit in
  (length r <= limit)%nat /\
  (forall k m, In (k, m) r ->
     materias db !! k = Some m /\ materia_usuario_id m = uid /\
     (forall s, q = Some s -> s <> "" -> ilike_pct (materia_nombre m) s = true)) /\
  (q = None -> skip = 0%nat -> (length (subjects_of db uid) <= limit)%nat ->
   forall k m, materias db !! k = Some m -> materia_usuario_id m = uid -> In (k, m) r).
Proof.
  intros ord db uid q skip limit Hp r. subst r. unfold SubjectService.list_subjects.
  split; [apply page_length|split].
  - intros k m Hi. apply page_sound in Hi; [|exact Hp].
    assert (Hb : forall rows, In (k, m) (List.filter (fun '(_, m) => Z.eqb (materia_usuario_id m) uid) rows) ->
                 In (k, m) rows /\ materia_usuario_id m = uid).
    { intros rows H. apply List.filter_In in H as [H1 H2]. apply Z.eqb_eq in H2. auto. }
    destruct q as [s|].
    + destruct (String.eqb_spec s "") as [->|Ns].
      * apply Hb in Hi as [Hi Ho]. unfold materia_rows in Hi.
        apply list_elem_of_In, elem_of_map_to_list in Hi.
        split; [exact Hi|split; [exact Ho|]]. intros s' [= <-] N. contradiction.
      * apply List.filter_In in Hi as [Hi Hl]. apply Hb in Hi as [Hi Ho]. unfold materia_rows in Hi.
        apply list_elem_of_In, elem_of_map_to_list in Hi.
        split; [exact Hi|split; [exact Ho|]]. intros s' [= <-] _. exact Hl.
    + apply Hb in Hi as [Hi Ho]. unfold materia_rows in Hi.
      apply list_elem_of_In, elem_of_map_to_list in Hi.
      split; [exact Hi|split; [exact Ho|]]. intros s' [=].
  - intros -> -> Hl k m Hk Ho. apply page_complete; [exact Hp|exact Hl|].
    apply List.filter_In. split.
    + unfold materia_rows. apply list_elem_of_In, elem_of_map_to_list, Hk.
    + apply Z.eqb_eq, Ho.
Qed.

(** X7: [get_user_events] returns at most [limit] rows, each an event of a subject of the user whose name ILIKE-matches the search when one is given; with no search and no offset it returns all of them when they fit in [limit]. *)
Theorem get_user_events_page : forall ord db uid q skip limit,
  (forall l, Permutation (ord l) l) ->
  let r := EventService.get_user_events ord db uid q skip limit in
  (length r <= limit)%nat /\
  (forall k e, In (k, e) r ->
     eventos db !! k = Some e /\
     (exists m, materias db !! evento_materia_id e = Some m /\ materia_usuario_id m = uid) /\
     (forall s, q = Some s -> s <> "" -> ilike_pct (evento_nombre e) s = true)) /\
  (q = None -> skip = 0%nat -> (length (events_of_user db uid) <= limit)%nat ->
   forall k e m, eventos db !! k = Some e -> materias db !! evento_materia_id e = Some m ->
   materia_usuario_id m = uid -> In (k, e) r).
Proof.
  intros ord db uid q skip limit Hp r. subst r. unfold EventService.get_user_events.
  assert (Hown : forall e, evento_owned_by db uid e = true <->
                 exists m, materias db !! evento_materia_id e = Some m /\ materia_usuario_id m = uid).
  { intros e. unfold evento_owned_by. destruct (materias db !! evento_materia_id e) as [m|].
    - rewrite Z.eqb_eq. split; [eauto|]. intros (m' & [= <-] & H). exact H.
    - split; [discriminate|]. intros (m' & [=] & _). }
  split; [apply page_length|split].
  - intros k e Hi. apply page_sound in Hi; [|exact Hp].
    assert (Hb : forall rows, In (k, e) (List.filter (fun '(_, e) => evento_owned_by db uid e) rows) ->
                 In (k, e) rows /\ evento_owned_by db uid e = true).
    { intros rows H. apply List.filter_In in H as [H1 H2]. auto. }
    destruct q as [s|].
    + destruct (String.eqb_spec s "") as [->|Ns].
      * apply Hb in Hi as [Hi Ho]. unfold evento_rows in Hi.
        apply list_elem_of_In, elem_of_map_to_list in Hi.
        split; [exact Hi|split; [apply Hown, Ho|]]. intros s' [= <-] N. contradiction.
      * apply List.filter_In in Hi as [Hi Hl]. apply Hb in Hi as [Hi Ho]. unfold evento_rows in Hi.
        apply list_elem_of_In, elem_of_map_to_list in Hi.
        split; [exact Hi|split; [apply Hown, Ho|]]. intros s' [= <-] _. exact Hl.
    + apply Hb in Hi as [Hi Ho]. unfold evento_rows in Hi.
      apply list_elem_of_In, elem_of_map_to_list in Hi.
      split; [exact Hi|split; [apply Hown, Ho|]]. intros s' [=].
  - intros -> -> Hl k e m Hk Hm Ho. apply page_complete; [exact Hp|exact Hl|].
    apply List.filter_In. split.
    + unfold evento_rows. apply list_elem_of_In, elem_of_map_to_list, Hk.
    + apply Hown. eauto.
Qed.


(** X8: the GET, PUT and DELETE endpoints of [/subjects/{id}] answer 404 "Materia no encontrada" for a key with no subject. *)
Theorem subject_endpoints_not_found : forall db uid k p,
  materias db !! k = None ->
  V1Subjects.get_subject_endpoint db uid k = Http.HTTPException 404 "Materia no encontrada" /\
  V1Subjects.update_subject_endpoint db uid k p = Http.HTTPException 404 "Materia no encontrada" /\
  V1Subjects.delete_subject_endpoint db uid k = Http.HTTPException 404 "Materia no encontrada".
Proof.
  intros db uid k p Hk.
  unfold V1Subjects.get_subject_endpoint, V1Subjects.update_subject_endpoint,
    V1Subjects.delete_subject_endpoint, SubjectService.get_subject, SubjectService.update_subject,
    SubjectService.delete_subject, SubjectService._get_materia_autorizada, get_materia.
  cbn. rewrite Hk. auto.
Qed.

(** X9: the GET, PUT and DELETE endpoints of [/subjects/{id}] answer 403 for a subject of another user. *)
Theorem subject_endpoints_foreign : forall db uid k m p,
  materias db !! k = Some m -> materia_usuario_id m <> uid ->
  V1Subjects.get_subject_endpoint db uid k =
    Http.HTTPException 403 "No autorizado para acceder a esta materia" /\
  V1Subjects.update_subject_endpoint db uid k p =
    Http.HTTPException 403 "No autorizado para acceder a esta materia" /\
  V1Subjects.delete_subject_endpoint db uid k =
    Http.HTTPException 403 "No autorizado para acceder a esta materia".
Proof.
  intros db uid k m p Hk Hne.
  unfold V1Subjects.get_subject_endpoint, V1Subjects.update_subject_endpoint,
    V1Subjects.delete_subject_endpoint, SubjectService.get_subject, SubjectService.update_subject,
    SubjectService.delete_subject, SubjectService._get_materia_autorizada, get_materia.
  cbn. rewrite Hk. apply Z.eqb_neq in Hne. rewrite Hne. auto.
Qed.

(** X10: the GET, PUT and DELETE endpoints of [/events/{id}] answer 404 for a missing event and 403 for an event of another user's subject; GET answers 200 with the event when it is the user's. *)
Theorem event_endpoints_classify : forall db uid k p,
  (eventos db !! k = None ->
   V1Events.get_event_endpoint db uid k = Http.HTTPException 404 "Evento no encontrado" /\
   V1Events.update_event_endpoint db uid k p = Http.HTTPException 404 "Evento no encontrado" /\
   V1Events.delete_event_endpoint db uid k = Http.HTTPException 404 "Evento no encontrado") /\
  (forall e, eventos db !! k = Some e -> evento_owned_by db uid e = false ->
   V1Events.get_event_endpoint db uid k =
     Http.HTTPException 403 "No autorizado para acceder a este evento" /\
   V1Events.update_event_endpoint db uid k p =
     Http.HTTPException 403 "No autorizado para acceder a este evento" /\
   V1Events.delete_event_endpoint db uid k =
     Http.HTTPException 403 "No autorizado para acceder a este evento") /\
  (forall e, eventos db !! k = Some e -> evento_owned_by db uid e = true ->
   V1Events.get_event_endpoint db uid k = Http.Response 200 (k, e)).
Proof.
  intros db uid k p.
  unfold V1Events.get_event_endpoint, V1Events.update_event_endpoint,
    V1Events.delete_event_endpoint, EventService.get_event, EventService.update_event,
    EventService.delete_event, EventService._get_evento_autorizado, get_evento, get_materia.
  cbn. split; [|split].
  - intros Hk. rewrite Hk. auto.
  - intros e Hk Ho. rewrite Hk. cbn. unfold evento_owned_by in Ho.
    destruct (materias db !! evento_materia_id e) as [m|]; cbn; [rewrite Ho|]; auto.
  - intros e Hk Ho. rewrite Hk. cbn. unfold evento_owned_by in Ho.
    destruct (materias db !! evento_materia_id e) as [m|]; cbn; [rewrite Ho|discriminate]; auto.
Qed.


(** X11: a PUT on an own event whose payload sets [evento_nombre], [evento_fecha] or [evento_estado] to null is not caught by the router: the NOT NULL constraint makes it an unhandled IntegrityError. *)
Theorem update_event_null_unhandled : forall db uid k e p,
  eventos db !! k = Some e -> evento_owned_by db uid e = true ->
  (eu_nombre p = Some None \/ eu_fecha p = Some None \/ eu_estado p = Some None) ->
  V1Events.update_event_endpoint db uid k p =
    Http.Unhandled (IntegrityError "null value violates not-null constraint").
Proof.
  intros db uid k e p Hk Ho Hn.
  unfold V1Events.update_event_endpoint, EventService.update_event,
    EventService._get_evento_autorizado, get_evento, get_materia.
  cbn. rewrite Hk. cbn. unfold evento_owned_by in Ho.
  destruct (materias db !! evento_materia_id e) as [m|]; [|discriminate]. cbn. rewrite Ho. cbn.
  destruct (eu_nombre p) as [[n|]|]; cbn;
  [ destruct Hn as [[=]|[Hn|Hn]]
  | reflexivity
  | destruct Hn as [[=]|[Hn|Hn]] ];
  rewrite ?Hn; cbn;
  destruct (eu_fecha p) as [[f|]|]; cbn; try reflexivity; try discriminate;
  rewrite ?Hn; reflexivity.
Qed.




Lemma assert_materia_propia_cases db k uid :
  EventService._assert_materia_propia db (VInt k) uid =
  match materias db !! k with
  | None => Exc MateriaNoEncontrada
  | Some m => if Z.eqb (materia_usuario_id m) uid then Ok (k, m) else Exc AccesoNoAutorizado
  end.
Proof.
  unfold EventService._assert_materia_propia, get_materia. cbn.
  destruct (materias db !! k) as [m|]; cbn; [|reflexivity].
  destruct (Z.eqb (materia_usuario_id m) uid); reflexivity.
Qed.

(** X14: [list_events] raises [MateriaNoEncontrada] for a missing subject and [AccesoNoAutorizado] for a foreign one and nothing else; on success it returns at most [limit] events of that subject, with the requested state if one is given, and all of them when there is no offset and they fit. *)
Theorem list_events_page : forall ord db uid k estado skip limit,
  (forall l, Permutation (ord l) l) ->
  match EventService.list_events ord db uid k estado skip limit with
  | Ok r =>
      (exists m, materias db !! k = Some m /\ materia_usuario_id m = uid) /\
      (length r <= limit)%nat /\
      (forall j e, In (j, e) r ->
         eventos db !! j = Some e /\ evento_materia_id e = k /\
         (forall s, estado = Some s -> s <> "" -> evento_estado e = s)) /\
      (estado = None -> skip = 0%nat -> (length (events_of_materia db k) <= limit)%nat ->
       forall j e, eventos db !! j = Some e -> evento_materia_id e = k -> In (j, e) r)
  | Exc MateriaNoEncontrada => materias db !! k = None
  | Exc AccesoNoAutorizado => exists m, materias db !! k = Some m /\ materia_usuario_id m <> uid
  | Exc _ => False
  end.
Proof.
  intros ord db uid k estado skip limit Hp. unfold EventService.list_events.
  rewrite assert_materia_propia_cases.
  destruct (materias db !! k) as [m|] eqn:Hk; cbn; [|reflexivity].
  destruct (Z.eqb_spec (materia_usuario_id m) uid) as [Ho|Ho]; cbn; [|eauto].
  split; [eauto|]. split; [apply page_length|split].
  - intros j e Hi. apply page_sound in Hi; [|exact Hp].
    assert (Hb : forall rows, In (j, e) (List.filter (fun '(_, e) => Z.eqb (evento_materia_id e) k) rows) ->
                 In (j, e) rows /\ evento_materia_id e = k).
    { intros rows H. apply List.filter_In in H as [H1 H2]. apply Z.eqb_eq in H2. auto. }
    destruct estado as [s|].
    + destruct (String.eqb_spec s "") as [->|Ns].
      * apply Hb in Hi as [Hi He]. unfold evento_rows in Hi.
        apply list_elem_of_In, elem_of_map_to_list in Hi.
        split; [exact Hi|split; [exact He|]]. intros s' [= <-] N. contradiction.
      * apply List.filter_In in Hi as [Hi Hs]. apply Hb in Hi as [Hi He]. unfold evento_rows in Hi.
        apply list_elem_of_In, elem_of_map_to_list in Hi. apply String.eqb_eq in Hs.
        split; [exact Hi|split; [exact He|]]. intros s' [= <-] _. exact Hs.
    + apply Hb in Hi as [Hi He]. unfold evento_rows in Hi.
      apply list_elem_of_In, elem_of_map_to_list in Hi.
      split; [exact Hi|split; [exact He|]]. intros s' [=].
  - intros -> -> Hl j e Hj He. apply page_complete; [exact Hp|exact Hl|].
    apply List.filter_In. split.
    + unfold evento_rows. apply list_elem_of_In, elem_of_map_to_list, Hj.
    + apply Z.eqb_eq, He.
Qed.

(** X15: [create_event] raises [MateriaNoEncontrada] or [AccesoNoAutorizado] exactly as the subject is missing or foreign; on success it stores the event under a fresh key with the given subject and keeps the key counter ahead of every key. *)
Theorem create_event_stores : forall db uid p,
  seq_ok db ->
  match EventService.create_event db uid p with
  | Ok ((k, e), db') =>
      (exists m, materias db !! ec_materia_id p = Some m /\ materia_usuario_id m = uid) /\
      k = next_evento_id db /\ eventos db !! k = None /\ eventos db' = <[k := e]> (eventos db) /\
      evento_materia_id e = ec_materia_id p /\ materias db' = materias db /\ seq_ok db'
  | Exc MateriaNoEncontrada => materias db !! ec_materia_id p = None
  | Exc AccesoNoAutorizado =>
      exists m, materias db !! ec_materia_id p = Some m /\ materia_usuario_id m <> uid
  | Exc _ => False
  end.
Proof.
  intros db uid p Hs.
  destruct (EventService.create_event db uid p) as [[[k e] db']|x] eqn:H.
  - pose proof (create_event_keeps db uid p (k, e) db' Hs H) as [Hs' _].
    unfold EventService.create_event in H. rewrite assert_materia_propia_cases in H.
    destruct (materias db !! ec_materia_id p) as [m|] eqn:Hk; cbn in H; [|discriminate].
    destruct (Z.eqb_spec (materia_usuario_id m) uid) as [Ho|Ho]; cbn in H; [|discriminate].
    injection H as <- <- <-. cbn. split; [eauto|]. split; [reflexivity|].
    split; [|split; [reflexivity|split; [reflexivity|split; [reflexivity|exact Hs']]]].
    destruct Hs as [_ He]. destruct (eventos db !! next_evento_id db) eqn:E; [|reflexivity].
    exfalso. assert (is_Some (eventos db !! next_evento_id db)) as Hi by eauto.
    apply He in Hi. lia.
  - unfold EventService.create_event in H. rewrite assert_materia_propia_cases in H.
    destruct (materias db !! ec_materia_id p) as [m|] eqn:Hk; cbn in H.
    + destruct (Z.eqb_spec (materia_usuario_id m) uid) as [Ho|Ho]; cbn in H; [discriminate|].
      injection H as <-. eauto.
    + injection H as <-. reflexivity.
Qed.


Lemma string_app_nil_r (s : string) : (s ++ "")%string = s.
Proof.
  induction s as [|c s IH]; [reflexivity|].
  change (String c s ++ "")%string with (String c (s ++ ""))%string. rewrite IH. reflexivity.
Qed.

Lemma deserialize_from_spec n items :
  match deserialize_from n items with
  | Ok acts => Forall2 (fun it a => dict_get it "kind" = Some (kind a) /\
                                    dict_get it "args" = Some (args a)) items acts
  | Exc e => exists i item, nth_error items i = Some item /\ missing_field_error (n + i) item e /\
               forall j it, (j < i)%nat -> nth_error items j = Some it -> has_kind_args it
  end.
Proof.
  revert n. induction items as [|it r IH]; intros n; cbn [deserialize_from]; [constructor|].
  unfold deserialize_item at 1.
  destruct (dict_get it "kind") as [k|] eqn:Ek; destruct (dict_get it "args") as [a|] eqn:Ea;
    unfold mbind, result_bind; cbv beta iota.
  - specialize (IH (S n)). destruct (deserialize_from (S n) r) as [acts|e]; cbn.
    + constructor; [cbn; auto|exact IH].
    + destruct IH as (i & item & Hi & Hm & Hp). exists (S i), item.
      split; [exact Hi|]. split; [replace (n + S i)%nat with (S n + i)%nat by lia; exact Hm|].
      intros [|j] it' Hj Hit.
      * injection Hit as <-. split; congruence.
      * apply (Hp j); [lia|exact Hit].
  - exists 0%nat, it. split; [reflexivity|]. split; [|intros j ? Hj; lia].
    right. rewrite Nat.add_0_r. repeat split; try congruence.
    exists ""; rewrite string_app_nil_r; reflexivity.
  - exists 0%nat, it. split; [reflexivity|]. split; [|intros j ? Hj; lia].
    left. rewrite Nat.add_0_r. split; [assumption|].
    exists ""; rewrite string_app_nil_r; reflexivity.
  - exists 0%nat, it. split; [reflexivity|]. split; [|intros j ? Hj; lia].
    left. rewrite Nat.add_0_r. split; [assumption|].
    exists ""; rewrite string_app_nil_r; reflexivity.
Qed.

(** The case analysis of [deserialize_actions], shared by the replay proofs. *)
Lemma deserialize_actions_cases : forall items,
  match deserialize_actions items with
  | Ok acts => length acts = length items /\
               Forall2 (fun it a => dict_get it "kind" = Some (kind a) /\
                                    dict_get it "args" = Some (args a)) items acts
  | Exc e => exists i item, nth_error items i = Some item /\ missing_field_error i item e /\
               forall j it, (j < i)%nat -> nth_error items j = Some it -> has_kind_args it
  end.
Proof.
  intros items. pose proof (deserialize_from_spec 0 items) as H. unfold deserialize_actions.
  destruct (deserialize_from 0 items) as [acts|e].
  - split; [symmetry; eapply Forall2_length; exact H|exact H].
  - exact H.
Qed.

(** X16: [deserialize_actions] either returns one action per item with the item's kind and args, or fails with the 'kind' or 'args' message of the first item that lacks one of them. *)
Theorem deserialize_actions_first_missing : forall items,
  match deserialize_actions items with
  | Ok acts => length acts = length items /\
               Forall2 (fun it a => dict_get it "kind" = Some (kind a) /\
                                    dict_get it "args" = Some (args a)) items acts
  | Exc e => exists i item, nth_error items i = Some item /\ missing_field_error i item e /\
               forall j it, (j < i)%nat -> nth_error items j = Some it -> has_kind_args it
  end.
Proof.
  intros items. pose proof (deserialize_from_spec 0 items) as H. unfold deserialize_actions.
  destruct (deserialize_from 0 items) as [acts|e].
  - split; [symmetry; eapply Forall2_length; exact H|exact H].
  - exact H.
Qed.


Lemma dispatch_result_shape db uid a r db' :
  dispatch db uid a = Ok (r, db') ->
  status r = "success" \/ exists k m d, r = RError k m d.
Proof.
  intros H. unfold dispatch in H.
  repeat match type of H with
  | context [if ?b then _ else _] =>
      let E := fresh "E" in destruct b eqn:E; [dres H|]
  end; inversion H; subst; clear H; cbn; eauto.
Qed.

(** What one step adds: one result whose status is success, error or
    skipped, and an error line exactly when it is not a success. *)
Lemma step_shape db uid n a :
  let '(r, err, _) := step db uid n a in
  (status r = "success" /\ err = None) \/
  ((status r = "error" \/ status r = "skipped") /\ err <> None).
Proof.
  unfold step. destruct (negb (allow_of a)); [right; split; [right; reflexivity|discriminate]|].
  destruct (dispatch db uid a) as [[r db']|e] eqn:D.
  - apply dispatch_result_shape in D as [Hs|(k & m & d & ->)].
    + destruct r; cbn in *; try discriminate; left; auto.
    + right. split; [left; reflexivity|discriminate].
  - right. split; [left; reflexivity|discriminate].
Qed.

Lemma execute_loop_tally db uid n l :
  let '(rs, es, _) := execute_loop db uid n l in
  (count_status "success" rs + count_status "error" rs + count_status "skipped" rs = length rs)%nat /\
  length es = (count_status "error" rs + count_status "skipped" rs)%nat.
Proof.
  revert db n. induction l as [|a l IH]; intros db n; cbn [execute_loop]; [cbn; auto|].
  pose proof (step_shape db uid n a) as Hs.
  destruct (step db uid n a) as [[r err] d1].
  specialize (IH d1 (S n)). destruct (execute_loop d1 uid (S n) l) as [[rs es] d2].
  destruct IH as [IH1 IH2]. unfold count_status in *. cbn [List.filter length].
  destruct Hs as [[Hr ->]|[[Hr|Hr] Herr]]; rewrite Hr; cbn;
  [| destruct err; [|contradiction] ..]; cbn; lia.
Qed.

(** X17: for two or more actions, [execute_actions] returns one result per action followed by a summary whose counts add up to the number of actions and whose error lines, when present, are one per failed or skipped action. *)
Theorem execute_actions_summary : forall db uid acts,
  (1 < length acts)%nat ->
  exists results successful failed skipped errors,
    fst (execute_actions db uid acts) =
      app results [RSummary (length acts) successful failed skipped errors] /\
    length results = length acts /\
    (successful + failed + skipped = length acts)%nat /\
    match errors with
    | None => (failed + skipped = 0)%nat
    | Some lines => length lines = (failed + skipped)%nat /\ lines <> []
    end.
Proof.
  intros db uid acts Hl. unfold execute_actions.
  pose proof (execute_loop_tally db uid 1 acts) as T.
  pose proof (execute_loop_length db uid 1 acts) as L.
  destruct (execute_loop db uid 1 acts) as [[rs es] d]. cbn in L.
  destruct T as [T1 T2].
  apply Nat.ltb_lt in Hl. rewrite Hl. cbn [fst].
  eexists rs, _, _, _, _. split; [reflexivity|]. split; [exact L|]. split; [lia|].
  destruct es as [|x es']; cbn in T2 |- *; [lia|]. split; [lia|discriminate].
Qed.


(** X18: outside plan mode, replaying a list of actions in which some item lacks 'kind' or 'args' answers 400 with the message of the first such item. *)
Theorem nl_command_malformed_replay_400 : forall db uid text llm mode items it,
  String.eqb mode "plan" = false -> In it items -> ~ has_kind_args it ->
  exists i item m, nth_error items i = Some item /\ missing_field_error i item (ValueError m) /\
    V1NlCommand.nl_command db uid text llm mode (Some items) = Http.HTTPException 400 m.
Proof.
  intros db uid text llm mode items it Hm Hin Hna.
  pose proof (deserialize_actions_cases items) as D.
  destruct (deserialize_actions items) as [acts|e] eqn:E.
  - exfalso. destruct D as [_ F]. apply Hna.
    clear E. induction F as [|it' a l' acts' [Hk Ha] _ IH]; [destruct Hin|].
    destruct Hin as [<-|Hin]; [split; congruence|exact (IH Hin)].
  - destruct D as (i & item & Hi & Hmf & _).
    assert (exists m, e = ValueError m) as [m ->]
      by (destruct Hmf as [[_ [rest ->]]|[_ [_ [rest ->]]]]; eauto).
    exists i, item, m. split; [exact Hi|]. split; [exact Hmf|].
    unfold V1NlCommand.nl_command. rewrite Hm.
    unfold V1Nl.nl_command_execute.
    destruct items as [|x r]; [destruct Hin|].
    rewrite E. reflexivity.
Qed.

(** X19: outside plan mode, replaying a non-empty well-formed list in which no action is allowed answers 200 with the message that there are no valid actions and leaves the database unchanged. *)
Theorem nl_command_nothing_allowed : forall db uid text llm mode items acts,
  String.eqb mode "plan" = false -> items <> [] -> deserialize_actions items = Ok acts ->
  Forall (fun a => allow_of a = false) acts ->
  V1NlCommand.nl_command db uid text llm mode (Some items) =
    Http.Response 200 (V1NlCommand.ExecOut V1Nl.NoValidActions, db).
Proof.
  intros db uid text llm mode items acts Hm Hne E Hall.
  unfold V1NlCommand.nl_command. rewrite Hm. unfold V1Nl.nl_command_execute.
  destruct items as [|x r]; [contradiction|]. rewrite E. unfold mbind, result_bind; cbv beta iota.
  replace (V1Nl.allowed_actions acts) with (@nil PlannedAction); [reflexivity|].
  unfold V1Nl.allowed_actions. clear E.
  induction Hall as [|a l Ha _ IH]; cbn; [reflexivity|]. rewrite Ha. exact IH.
Qed.


(** X21: [POST /users/login] always answers 500 "Error de autenticación": [login_user] reads [payload.identifier], which the [LoginRequest] schema does not have, and the router turns the AttributeError into a 500. *)
Theorem login_endpoint_always_500 : forall pwd_verify crear_token payload db,
  Users.login_endpoint pwd_verify crear_token payload db =
    Http.HTTPException 500 "Error de autenticación".
Proof. reflexivity. Qed.


Lemma in_email_rows db email ex k u :
  In (k, u) (List.filter (fun '(k, u) => String.eqb (Users.usuario_email u) email &&
                                         match ex with
                                         | Some x => if Z.eqb x 0 then true else negb (Z.eqb k x)
                                         | None => true end)
                         (Users.usuario_rows db)) <->
  Users.usuarios db !! k = Some u /\ Users.usuario_email u = email /\ excl_ok ex k = true.
Proof.
  unfold Users.usuario_rows. rewrite List.filter_In.
  rewrite <- list_elem_of_In, elem_of_map_to_list.
  rewrite andb_true_iff, String.eqb_eq. unfold excl_ok. tauto.
Qed.

Lemma email_existe_spec db email ex :
  emails_unique (Users.usuarios db) ->
  exists b, Users._email_existe db email ex = inl b /\
    (b = true <-> exists k u, Users.usuarios db !! k = Some u /\ Users.usuario_email u = email /\
                              excl_ok ex k = true).
Proof.
  intros Hu. unfold Users._email_existe.
  set (L := List.filter _ (Users.usuario_rows db)).
  assert (HL : forall k u, In (k, u) L <-> Users.usuarios db !! k = Some u /\
                 Users.usuario_email u = email /\ excl_ok ex k = true) by (intros; apply in_email_rows).
  destruct L as [|[k1 u1] [|[k2 u2] r]] eqn:EL; cbn.
  - exists false. split; [reflexivity|]. split; [discriminate|].
    intros (k & u & H). apply HL in H. destruct H.
  - exists true. split; [reflexivity|]. split; [|reflexivity]. intros _.
    exists k1, u1. apply HL. left; reflexivity.
  - exfalso.
    assert (NoDup L) as Hn.
    { subst L. apply NoDup_ListNoDup, List.NoDup_filter, NoDup_ListNoDup.
      unfold Users.usuario_rows. apply NoDup_map_to_list. }
    rewrite EL in Hn.
    destruct (proj1 (HL k1 u1) (or_introl eq_refl)) as (H1 & E1 & _).
    destruct (proj1 (HL k2 u2) (or_intror (or_introl eq_refl))) as (H2 & E2 & _).
    assert (k1 = k2) as <- by (eapply Hu; eauto; congruence).
    rewrite H1 in H2. injection H2 as <-.
    apply NoDup_ListNoDup in Hn. inversion Hn as [|? ? Hni _]; subst. apply Hni. left; reflexivity.
Qed.

Lemma commit_usuario_spec db k u :
  Users.commit_usuario db k u =
  if existsb (fun '(k', u') => negb (Z.eqb k' k) && String.eqb (Users.usuario_email u') (Users.usuario_email u))
             (Users.usuario_rows db)
  then inr (Users.UIntegrityError "duplicate key value violates unique constraint usuario_usuario_email_key")
  else inl {| Users.usuarios := <[k := u]> (Users.usuarios db); Users.next_usuario_id := Users.next_usuario_id db |}.
Proof. reflexivity. Qed.

Lemma commit_free db k u :
  (forall k' u', k' <> k -> Users.usuarios db !! k' = Some u' -> Users.usuario_email u' <> Users.usuario_email u) ->
  Users.commit_usuario db k u =
    inl {| Users.usuarios := <[k := u]> (Users.usuarios db); Users.next_usuario_id := Users.next_usuario_id db |}.
Proof.
  intros H. rewrite commit_usuario_spec.
  destruct (existsb _ _) eqn:E; [|reflexivity]. exfalso.
  apply existsb_exists in E as ([k' u'] & Hi & Hb). apply andb_true_iff in Hb as [Hk He].
  apply negb_true_iff, Z.eqb_neq in Hk. apply String.eqb_eq in He.
  unfold Users.usuario_rows in Hi. apply list_elem_of_In, elem_of_map_to_list in Hi.
  exact (H k' u' Hk Hi He).
Qed.

Lemma commit_unique db k u db' :
  emails_unique (Users.usuarios db) -> Users.commit_usuario db k u = inl db' ->
  emails_unique (Users.usuarios db').
Proof.
  intros Hu H. rewrite commit_usuario_spec in H.
  destruct (existsb _ _) eqn:E; [discriminate|]. injection H as <-. cbn.
  assert (Hn : forall k' u', k' <> k -> Users.usuarios db !! k' = Some u' ->
                             Users.usuario_email u' = Users.usuario_email u -> False).
  { intros k' u' N Hk' He. assert (existsb (fun '(k', u') => negb (Z.eqb k' k) &&
             String.eqb (Users.usuario_email u') (Users.usuario_email u)) (Users.usuario_rows db) = true)
      as Ht; [|congruence].
    apply existsb_exists. exists (k', u'). split.
    - unfold Users.usuario_rows. apply list_elem_of_In, elem_of_map_to_list, Hk'.
    - apply andb_true_iff. split; [apply negb_true_iff, Z.eqb_neq, N|apply String.eqb_eq, He]. }
  intros k1 k2 u1 u2 H1 H2 He.
  destruct (decide (k1 = k)) as [->|N1]; destruct (decide (k2 = k)) as [->|N2]; auto.
  - rewrite lookup_insert_eq in H1. rewrite lookup_insert_ne in H2 by congruence.
    injection H1 as <-. exfalso. eapply (Hn k2 u2); eauto.
  - rewrite lookup_insert_eq in H2. rewrite lookup_insert_ne in H1 by congruence.
    injection H2 as <-. exfalso. eapply (Hn k1 u1); eauto.
  - rewrite lookup_insert_ne in H1, H2 by congruence. eauto.
Qed.


Lemma register_user_ok pwd_hash db p k u db' :
  Users.register_user pwd_hash db p = inl ((k, u), db') ->
  Users._email_existe db (lower (strip (Users.uc_email p))) None = inl false /\
  Users.uc_password p <> "" /\
  u = {| Users.usuario_nombre := strip (Users.uc_nombre p);
         Users.usuario_email := lower (strip (Users.uc_email p));
         Users.usuario_password := pwd_hash (Users.uc_password p);
         Users.usuario_daltonismo := Users.uc_daltonismo p |} /\
  k = Users.next_usuario_id db /\
  Users.commit_usuario {| Users.usuarios := Users.usuarios db; Users.next_usuario_id := k + 1 |} k u = inl db'.
Proof.
  unfold Users.register_user. cbv zeta.
  destruct (Users._email_existe db _ None) as [[|]|e] eqn:E; try discriminate.
  unfold Users.hash_clave. destruct (String.eqb_spec (Users.uc_password p) "") as [Hp|Hp]; [discriminate|].
  destruct (Users.commit_usuario _ _ _) as [d|x] eqn:C; [|discriminate].
  intros H; injection H as <- <- <-. auto.
Qed.

(** X22: when emails are unique, [register_user] either stores a new user under a fresh key with the normalised email, the stripped name and the hashed password, keeping emails unique, or raises [UsuarioDuplicado] because the normalised email is taken, or the ValueError of an empty password. *)
Theorem register_user_outcome : forall pwd_hash db p,
  emails_unique (Users.usuarios db) ->
  match Users.register_user pwd_hash db p with
  | inl ((k, u), db') =>
      Users.usuario_email u = lower (strip (Users.uc_email p)) /\
      Users.usuario_nombre u = strip (Users.uc_nombre p) /\
      Users.usuario_password u = pwd_hash (Users.uc_password p) /\
      Users.usuarios db' = <[k := u]> (Users.usuarios db) /\
      emails_unique (Users.usuarios db')
  | inr e =>
      (e = Users.UsuarioDuplicado /\
       exists k u, Users.usuarios db !! k = Some u /\
                   Users.usuario_email u = lower (strip (Users.uc_email p))) \/
      (e = Users.UValueError "La contraseña no puede estar vacía." /\ Users.uc_password p = "")
  end.
Proof.
  intros pwd_hash db p Hu.
  destruct (Users.register_user pwd_hash db p) as [[[k u] db']|e] eqn:H.
  - pose proof H as H'. apply register_user_ok in H' as (_ & _ & -> & -> & C).
    assert (Hu' : emails_unique (Users.usuarios
                   {| Users.usuarios := Users.usuarios db; Users.next_usuario_id := Users.next_usuario_id db + 1 |}))
      by exact Hu.
    pose proof (commit_unique _ _ _ _ Hu' C) as Hu''.
    rewrite commit_usuario_spec in C. destruct (existsb _ _); [discriminate|].
    injection C as <-. cbn. auto 6.
  - destruct (email_existe_spec db (lower (strip (Users.uc_email p))) None Hu) as (b & Eb & Hb).
    unfold Users.register_user in H. cbv zeta in H. rewrite Eb in H.
    destruct b.
    + injection H as <-. left. split; [reflexivity|].
      destruct (proj1 Hb eq_refl) as (k & u & Hk & He & _). eauto.
    + unfold Users.hash_clave in H.
      destruct (String.eqb_spec (Users.uc_password p) "") as [Hp|Hp].
      * injection H as <-. right. auto.
      * exfalso. rewrite commit_free in H; [discriminate|].
        intros k' u' _ Hk' He. cbn in Hk', He.
        assert (false = true) as F by (apply Hb; exists k', u'; auto). discriminate F.
Qed.


Lemma register_user_success pwd_hash db p k u db' :
  emails_unique (Users.usuarios db) -> Users.register_user pwd_hash db p = inl ((k, u), db') ->
  Users.usuarios db' = <[k := u]> (Users.usuarios db) /\ emails_unique (Users.usuarios db') /\
  Users.usuario_email u = lower (strip (Users.uc_email p)).
Proof.
  intros Hu H. apply register_user_ok in H as (_ & _ & -> & -> & C).
  assert (Hu' : emails_unique (Users.usuarios
                 {| Users.usuarios := Users.usuarios db; Users.next_usuario_id := Users.next_usuario_id db + 1 |}))
    by exact Hu.
  pose proof (commit_unique _ _ _ _ Hu' C) as Hu''.
  rewrite commit_usuario_spec in C. destruct (existsb _ _); [discriminate|].
  injection C as <-. cbn. auto.
Qed.

(** X23: after a successful registration, registering again with an email that normalises to the same address answers 409 "El email ya está registrado". *)
Theorem register_same_email_409 : forall pwd_hash db p k u db' p',
  emails_unique (Users.usuarios db) -> Users.register_user pwd_hash db p = inl ((k, u), db') ->
  lower (strip (Users.uc_email p')) = lower (strip (Users.uc_email p)) ->
  Users.register_endpoint pwd_hash db' p' = Http.HTTPException 409 "El email ya está registrado".
Proof.
  intros pwd_hash db p k u db' p' Hu H He.
  destruct (register_user_success _ _ _ _ _ _ Hu H) as (Ed & Hu' & Hem).
  destruct (email_existe_spec db' (lower (strip (Users.uc_email p'))) None Hu') as (b & Eb & Hb).
  assert (b = true) as ->.
  { apply Hb. exists k, u. rewrite Ed, lookup_insert_eq. split; [reflexivity|split; [congruence|reflexivity]]. }
  unfold Users.register_endpoint, Users.register_user. cbv zeta. rewrite Eb. reflexivity.
Qed.


Lemma emails_unique_insert (U : gmap Z Users.Usuario) k u :
  emails_unique U ->
  (forall k' u', k' <> k -> U !! k' = Some u' -> Users.usuario_email u' <> Users.usuario_email u) ->
  emails_unique (<[k := u]> U).
Proof.
  intros Hu Hf.
  assert (C : Users.commit_usuario {| Users.usuarios := U; Users.next_usuario_id := 0 |} k u =
              inl {| Users.usuarios := <[k := u]> U; Users.next_usuario_id := 0 |})
    by (apply commit_free; exact Hf).
  exact (commit_unique {| Users.usuarios := U; Users.next_usuario_id := 0 |} _ _ _ Hu C).
Qed.

Ltac profile_done Hu Hk Hown :=
  cbn;
  first
    [ rewrite commit_free;
      [ cbn; split; [reflexivity|split; [reflexivity|split; [reflexivity|]]];
        apply emails_unique_insert; [exact Hu|] | ];
      intros ?k' ?u' ?N ?H ?E; cbn in E;
      first [ exact (Hown _ _ N H E) | solve [eauto] ]
    | split; [reflexivity|split; [reflexivity|split; [symmetry; apply insert_id, Hk|exact Hu]]] ].

(** X24: for an existing user and unique emails, [update_user_profile] either writes the user back under the same key with the password unchanged, keeping emails unique, or raises [UsuarioDuplicado] because the new email belongs to another user, which the endpoint answers with 400. *)
Theorem update_user_profile_outcome : forall db uid user p,
  emails_unique (Users.usuarios db) -> Users.usuarios db !! uid = Some user ->
  match Users.update_user_profile db uid p with
  | inl ((k, u), db') =>
      k = uid /\ Users.usuario_password u = Users.usuario_password user /\
      Users.usuarios db' = <[uid := u]> (Users.usuarios db) /\ emails_unique (Users.usuarios db')
  | inr e =>
      e = Users.UsuarioDuplicado /\
      (exists em k' u', Users.up_email p = Some em /\ k' <> uid /\ Users.usuarios db !! k' = Some u' /\
                        Users.usuario_email u' = lower (strip em)) /\
      Users.update_profile_endpoint db uid p =
        Http.HTTPException 400 "El email ya está en uso por otro usuario"
  end.
Proof.
  intros db uid user p Hu Hk.
  assert (Hown : forall k' u', k' <> uid -> Users.usuarios db !! k' = Some u' ->
                 Users.usuario_email u' = Users.usuario_email user -> False)
    by (intros k' u' N H E; apply N; eapply Hu; eauto).
  unfold Users.update_profile_endpoint, Users.update_user_profile. rewrite Hk.
  destruct (Users.up_email p) as [em|] eqn:Hem.
  - destruct (String.eqb_spec em "") as [Ee|Ee].
    2: destruct (String.eqb_spec (lower (strip em)) (Users.usuario_email user)) as [Eu|Eu].
    3: destruct (email_existe_spec db (lower (strip em)) (Some uid) Hu) as (b & Eb & Hb);
       rewrite Eb; destruct b.
    3:{ cbn. split; [reflexivity|]. split; [|reflexivity].
        destruct (proj1 Hb eq_refl) as (k' & u' & Hk' & He & Hx).
        exists em, k', u'. split; [reflexivity|]. split; [|auto].
        intros ->. rewrite Hk in Hk'. injection Hk' as <-. congruence. }
    3: assert (Hno : forall k' u', k' <> uid -> Users.usuarios db !! k' = Some u' ->
                      Users.usuario_email u' = lower (strip em) -> False)
         by (intros k' u' N H E; assert (false = true) as F
               by (apply Hb; exists k', u'; split; [exact H|split; [exact E|]];
                   cbn; destruct (Z.eqb uid 0); [reflexivity|];
                   apply negb_true_iff, Z.eqb_neq; congruence);
             discriminate F).
    all: cbn.
    all: destruct (Users.up_nombre p) as [n|];
         [destruct (String.eqb n ""); [|destruct (String.eqb (strip n) _)]|].
    all: destruct (Users.up_daltonismo p) as [d|];
         [destruct (String.eqb d ""); [|destruct (String.eqb d _)]|].
    all: profile_done Hu Hk Hown.
  - destruct (Users.up_nombre p) as [n|];
      [destruct (String.eqb n ""); [|destruct (String.eqb (strip n) _)]|].
    all: destruct (Users.up_daltonismo p) as [d|];
         [destruct (String.eqb d ""); [|destruct (String.eqb d _)]|].
    all: profile_done Hu Hk Hown.
Qed.


Lemma lower_app s t : lower (s ++ t) = lower s ++ lower t.
Proof.
  induction s as [|c s IH]; [reflexivity|].
  change (String c s ++ t) with (String c (s ++ t)).
  change (lower (String c s)) with (String (lower_ascii c) (lower s)).
  change (String (lower_ascii c) (lower s) ++ lower t) with (String (lower_ascii c) (lower s ++ lower t)).
  cbn [lower]. rewrite IH. reflexivity.
Qed.

Lemma like_special_lower c : like_special (lower_ascii c) = like_special c.
Proof. destruct c as [[] [] [] [] [] [] [] []]; vm_compute; reflexivity. Qed.

Lemma no_like_wildcards_lower s : no_like_wildcards (lower s) = no_like_wildcards s.
Proof. induction s as [|c s IH]; cbn; [reflexivity|]. rewrite like_special_lower, IH. reflexivity. Qed.

Lemma like_match_pct_any s : like_match "%" s = true.
Proof.
  cbn. induction s as [|c s IH]; [reflexivity|]. cbn. exact IH.
Qed.

Lemma like_match_prefix q s :
  no_like_wildcards q = true -> like_match (q ++ "%") s = str_prefix q s.
Proof.
  revert s. induction q as [|c q IH]; intros s Hq.
  - cbn [append str_prefix]. apply like_match_pct_any.
  - cbn in Hq. apply andb_true_iff in Hq as [Hc Hq]. apply negb_true_iff in Hc.
    unfold like_special in Hc. apply orb_false_iff in Hc as [Hc H3].
    apply orb_false_iff in Hc as [H1 H2].
    change (String c q ++ "%") with (String c (q ++ "%")). cbn [like_match]. rewrite H1.
    destruct s as [|d s]; [reflexivity|]. rewrite H2, H3. cbn [str_prefix].
    rewrite IH by exact Hq. reflexivity.
Qed.

(** X25: for a search text without LIKE wildcards, the ILIKE filter of the search endpoints is the case-insensitive substring test. *)
Theorem ilike_pct_substring : forall col q,
  no_like_wildcards q = true -> ilike_pct col q = ilike_contains col q.
Proof.
  intros col q Hq. unfold ilike_pct, ilike_contains.
  rewrite !lower_app. change (lower "%") with "%".
  rewrite <- no_like_wildcards_lower in Hq.
  set (q' := lower q) in *. set (s := lower col). clearbody q' s. clear col q.
  change ("%" ++ q' ++ "%") with (String "%" (q' ++ "%")). cbn [like_match].
  change (Ascii.eqb "%" "%") with true. cbv iota beta.
  induction s as [|c s IH].
  - rewrite like_match_prefix by exact Hq. cbn. destruct (str_prefix q' ""); reflexivity.
  - rewrite like_match_prefix by exact Hq. cbn [str_contains]. rewrite <- IH. reflexivity.
Qed.

(** X26: the search text is not escaped: the search "%" matches every name and "_" every non-empty name. *)
Theorem ilike_pct_wildcards_match_all : forall col,
  ilike_pct col "%" = true /\ (col <> "" -> ilike_pct col "_" = true).
Proof.
  intros col. unfold ilike_pct. split.
  - change (lower ("%" ++ "%" ++ "%")) with "%%%". generalize (lower col) as s. intros s.
    cbn. destruct s as [|c s]; cbn; [reflexivity|]. rewrite like_match_pct_any. reflexivity.
  - intros Hc. change (lower ("%" ++ "_" ++ "%")) with "%_%".
    destruct col as [|c0 col]; [contradiction|]. cbn [lower].
    cbn. rewrite like_match_pct_any. reflexivity.
Qed.


Lemma ensure_ownership_evento_ok db uid v x :
  _ensure_ownership_evento db uid v = Ok x ->
  exists k e m, v = VInt k /\ eventos db !! k = Some e /\ materias db !! evento_materia_id e = Some m /\
                materia_usuario_id m = uid.
Proof.
  unfold _ensure_ownership_evento, get_evento.
  destruct v as [| | k | | |]; cbn -[_ensure_ownership_materia]; try discriminate.
  destruct (eventos db !! k) as [e|] eqn:E; cbn -[_ensure_ownership_materia]; [|discriminate].
  destruct (_ensure_ownership_materia db uid (VInt (evento_materia_id e))) as [z|err] eqn:Hown;
    [|discriminate].
  intros _. apply ensure_ownership_materia_ok in Hown as (k' & m & Hk' & Hm & Hu).
  injection Hk' as <-. eauto 8.
Qed.

Lemma normalize_body_evento_owned db uid name a :
  keeps_actions (evento_action_owned db uid) (normalize_body name a db uid).
Proof.
  unfold normalize_body, norm_create_materia, norm_update_materia, norm_delete_materia,
    norm_create_evento, norm_update_evento, norm_delete_evento, materia_id_or_ref,
    resolve_evento_id, missing_reference.
  repeat ka_step.
  all: unfold evento_action_owned, new_action; cbn [kind args]; split;
       [intros Hk | intros [Hk|Hk]]; try discriminate Hk.
  all: first
       [ match goal with
         | H : _ensure_ownership_evento _ _ ?v = Ok _ |- _ =>
             destruct (ensure_ownership_evento_ok _ _ _ _ H) as (k & e' & m & [= ->] & He & Hm & Hu)
         end; eauto 8
       | match goal with
         | H : _ensure_ownership_materia _ _ ?v = Ok _ |- _ =>
             destruct (ensure_ownership_materia_ok _ _ _ _ H) as (k & m & -> & Hm & Hu)
         end; eauto 8 ].
Qed.

Lemma normalize_all_evento_owned db uid calls :
  Forall (evento_action_owned db uid) (fst (normalize_all db uid calls)).
Proof.
  rewrite normalize_all_concat. cbn [fst]. apply Forall_concat, Forall_forall.
  intros l Hl. apply list_elem_of_In, in_map_iff in Hl as [c [<- _]].
  unfold _normalize_tool_call.
  pose proof (normalize_body_evento_owned db uid (dget c "name" VNone)
                (let a := dget c "args" VNone in if truthy a then a else VDict []) ([], [])
                (List.Forall_nil _)) as H.
  destruct (normalize_body _ _ db uid ([], [])) as [[x|e] [out errs]]; exact H.
Qed.



(** *** Witnesses of the extra properties *)

Lemma names_unique_db0 : names_unique (materias Samples.db0).
Proof.
  intros k1 k2 m1 m2 H1 H2 Hu Hn. cbn in H1, H2.
  apply lookup_insert_Some in H1 as [[<- <-]|[? H1]];
  apply lookup_insert_Some in H2 as [[<- <-]|[? H2]]; try reflexivity;
  repeat (apply lookup_insert_Some in H1 as [[<- <-]|[? H1]]);
  repeat (apply lookup_insert_Some in H2 as [[<- <-]|[? H2]]);
  try reflexivity; try discriminate; try (rewrite lookup_empty in H1; discriminate);
  try (rewrite lookup_empty in H2; discriminate).
Qed.

Lemma create_subject_stores_then_duplicate_witness :
  SubjectService.create_subject Samples.db0 1 Samples.biologia_create =
    Ok ((3%Z, Samples.biologia), Samples.db_biologia) /\
  strip (mc_nombre Samples.biologia_create_padded) = strip (mc_nombre Samples.biologia_create) /\
  (3%Z = next_materia_id Samples.db0 /\ materias Samples.db_biologia !! 3%Z = Some Samples.biologia /\
   materia_usuario_id Samples.biologia = 1%Z /\
   materia_nombre Samples.biologia = strip (mc_nombre Samples.biologia_create) /\
   SubjectService.create_subject Samples.db_biologia 1 Samples.biologia_create_padded = Exc MateriaDuplicada).
Proof.
  assert (H1 : SubjectService.create_subject Samples.db0 1 Samples.biologia_create =
                 Ok ((3%Z, Samples.biologia), Samples.db_biologia)) by (vm_compute; reflexivity).
  assert (H2 : strip (mc_nombre Samples.biologia_create_padded) = strip (mc_nombre Samples.biologia_create))
    by (vm_compute; reflexivity).
  split; [exact H1|]. split; [exact H2|].
  exact (create_subject_stores_then_duplicate _ _ _ _ _ _ _ H1 H2).
Defined.

Lemma subject_names_unique_preserved_witness :
  names_unique (materias Samples.db0) /\
  ((forall p r db', SubjectService.create_subject Samples.db0 1 p = Ok (r, db') -> names_unique (materias db')) /\
   (forall mid p r db', SubjectService.update_subject Samples.db0 1 mid p = Ok (r, db') -> names_unique (materias db')) /\
   (forall mid db', SubjectService.delete_subject Samples.db0 1 mid = Ok db' -> names_unique (materias db')) /\
   (forall acts, names_unique (materias (snd (execute_actions Samples.db0 1 acts))))).
Proof.
  split; [exact names_unique_db0|].
  exact (subject_names_unique_preserved Samples.db0 1 names_unique_db0).
Defined.

Lemma update_subject_idempotent_witness :
  SubjectService.update_subject Samples.db0 1 (VInt 1) Samples.rename_mecanica =
    Ok ((1%Z, Samples.mecanica), Samples.db_mecanica) /\
  SubjectService.update_subject Samples.db_mecanica 1 (VInt 1) Samples.rename_mecanica =
    Ok ((1%Z, Samples.mecanica), Samples.db_mecanica).
Proof.
  assert (H : SubjectService.update_subject Samples.db0 1 (VInt 1) Samples.rename_mecanica =
                Ok ((1%Z, Samples.mecanica), Samples.db_mecanica)) by (vm_compute; reflexivity).
  split; [exact H | exact (update_subject_idempotent _ _ _ _ _ _ H)].
Defined.


Lemma delete_events_by_materia_count_witness :
  EventService.delete_events_by_materia Samples.db0 1 1 = Ok (2%nat, Samples.db_fisica_vacia) /\
  (exists m, materias Samples.db0 !! 1%Z = Some m /\ materia_usuario_id m = 1%Z) /\
  2%nat = length (events_of_materia Samples.db0 1) /\ events_of_materia Samples.db_fisica_vacia 1 = [] /\
  materias Samples.db_fisica_vacia = materias Samples.db0 /\
  (forall j e, evento_materia_id e <> 1%Z ->
     (eventos Samples.db_fisica_vacia !! j = Some e <-> eventos Samples.db0 !! j = Some e)).
Proof.
  assert (H : EventService.delete_events_by_materia Samples.db0 1 1 = Ok (2%nat, Samples.db_fisica_vacia))
    by (vm_compute; reflexivity).
  split; [exact H | exact (delete_events_by_materia_count _ _ _ _ _ H)].
Defined.


Lemma list_subjects_page_witness :
  (forall l : list (Z * Materia), Permutation l l) /\
  let r := SubjectService.list_subjects (fun l => l) Samples.db0 1 (Some "fis") 0 50 in
  (length r <= 50)%nat /\
  (forall k m, In (k, m) r ->
     materias Samples.db0 !! k = Some m /\ materia_usuario_id m = 1%Z /\
     (forall s, Some "fis" = Some s -> s <> "" -> ilike_pct (materia_nombre m) s = true)) /\
  (Some "fis" = None -> 0%nat = 0%nat -> (length (subjects_of Samples.db0 1) <= 50)%nat ->
   forall k m, materias Samples.db0 !! k = Some m -> materia_usuario_id m = 1%Z -> In (k, m) r).
Proof.
  assert (Hp : forall l : list (Z * Materia), Permutation l l) by (intros l; apply Permutation_refl).
  split; [exact Hp|].
  exact (list_subjects_page (fun l => l) Samples.db0 1 (Some "fis") 0 50 Hp).
Defined.

Lemma get_user_events_page_witness :
  (forall l : list (Z * Evento), Permutation l l) /\
  let r := EventService.get_user_events (fun l => l) Samples.db0 1 None 0 50 in
  (length r <= 50)%nat /\
  (forall k e, In (k, e) r ->
     eventos Samples.db0 !! k = Some e /\
     (exists m, materias Samples.db0 !! evento_materia_id e = Some m /\ materia_usuario_id m = 1%Z) /\
     (forall s, (None : option string) = Some s -> s <> "" -> ilike_pct (evento_nombre e) s = true)) /\
  ((None : option string) = None -> 0%nat = 0%nat -> (length (events_of_user Samples.db0 1) <= 50)%nat ->
   forall k e m, eventos Samples.db0 !! k = Some e -> materias Samples.db0 !! evento_materia_id e = Some m ->
   materia_usuario_id m = 1%Z -> In (k, e) r).
Proof.
  assert (Hp : forall l : list (Z * Evento), Permutation l l) by (intros l; apply Permutation_refl).
  split; [exact Hp|].
  exact (get_user_events_page (fun l => l) Samples.db0 1 None 0 50 Hp).
Defined.

Lemma subject_endpoints_not_found_witness :
  materias Samples.db0 !! 5%Z = None /\
  V1Subjects.get_subject_endpoint Samples.db0 1 5 = Http.HTTPException 404 "Materia no encontrada" /\
  V1Subjects.update_subject_endpoint Samples.db0 1 5 Samples.rename_mecanica =
    Http.HTTPException 404 "Materia no encontrada" /\
  V1Subjects.delete_subject_endpoint Samples.db0 1 5 = Http.HTTPException 404 "Materia no encontrada".
Proof.
  assert (H : materias Samples.db0 !! 5%Z = None) by (vm_compute; reflexivity).
  split; [exact H | exact (subject_endpoints_not_found _ _ _ Samples.rename_mecanica H)].
Defined.

Lemma subject_endpoints_foreign_witness :
  materias Samples.db0 !! 2%Z = Some Samples.quimica /\ materia_usuario_id Samples.quimica <> 1%Z /\
  V1Subjects.get_subject_endpoint Samples.db0 1 2 =
    Http.HTTPException 403 "No autorizado para acceder a esta materia" /\
  V1Subjects.update_subject_endpoint Samples.db0 1 2 Samples.rename_mecanica =
    Http.HTTPException 403 "No autorizado para acceder a esta materia" /\
  V1Subjects.delete_subject_endpoint Samples.db0 1 2 =
    Http.HTTPException 403 "No autorizado para acceder a esta materia".
Proof.
  assert (H1 : materias Samples.db0 !! 2%Z = Some Samples.quimica) by (vm_compute; reflexivity).
  assert (H2 : materia_usuario_id Samples.quimica <> 1%Z) by (vm_compute; discriminate).
  split; [exact H1|]. split; [exact H2|].
  exact (subject_endpoints_foreign _ _ _ _ Samples.rename_mecanica H1 H2).
Defined.

Lemma event_endpoints_classify_witness :
  eventos Samples.db0 !! 12%Z = Some Samples.lab /\ evento_owned_by Samples.db0 1 Samples.lab = false /\
  V1Events.get_event_endpoint Samples.db0 1 12 =
    Http.HTTPException 403 "No autorizado para acceder a este evento" /\
  V1Events.update_event_endpoint Samples.db0 1 12 Samples.marcar_completado =
    Http.HTTPException 403 "No autorizado para acceder a este evento" /\
  V1Events.delete_event_endpoint Samples.db0 1 12 =
    Http.HTTPException 403 "No autorizado para acceder a este evento".
Proof.
  assert (H1 : eventos Samples.db0 !! 12%Z = Some Samples.lab) by (vm_compute; reflexivity).
  assert (H2 : evento_owned_by Samples.db0 1 Samples.lab = false) by (vm_compute; reflexivity).
  split; [exact H1|]. split; [exact H2|].
  exact (proj1 (proj2 (event_endpoints_classify Samples.db0 1 12 Samples.marcar_completado)) _ H1 H2).
Defined.

Lemma update_event_null_unhandled_witness :
  eventos Samples.db0 !! 10%Z = Some Samples.parcial /\ evento_owned_by Samples.db0 1 Samples.parcial = true /\
  eu_nombre Samples.borrar_nombre = Some None /\
  V1Events.update_event_endpoint Samples.db0 1 10 Samples.borrar_nombre =
    Http.Unhandled (IntegrityError "null value violates not-null constraint").
Proof.
  assert (H1 : eventos Samples.db0 !! 10%Z = Some Samples.parcial) by (vm_compute; reflexivity).
  assert (H2 : evento_owned_by Samples.db0 1 Samples.parcial = true) by (vm_compute; reflexivity).
  assert (H3 : eu_nombre Samples.borrar_nombre = Some None) by reflexivity.
  split; [exact H1|]. split; [exact H2|]. split; [exact H3|].
  exact (update_event_null_unhandled _ _ _ _ _ H1 H2 (or_introl H3)).
Defined.




Lemma list_events_page_witness :
  (forall l : list (Z * Evento), Permutation l l) /\
  match EventService.list_events (fun l => l) Samples.db0 1 2 None 0 50 with
  | Ok r =>
      (exists m, materias Samples.db0 !! 2%Z = Some m /\ materia_usuario_id m = 1%Z) /\
      (length r <= 50)%nat /\
      (forall j e, In (j, e) r ->
         eventos Samples.db0 !! j = Some e /\ evento_materia_id e = 2%Z /\
         (forall s, (None : option string) = Some s -> s <> "" -> evento_estado e = s)) /\
      ((None : option string) = None -> 0%nat = 0%nat ->
       (length (events_of_materia Samples.db0 2) <= 50)%nat ->
       forall j e, eventos Samples.db0 !! j = Some e -> evento_materia_id e = 2%Z -> In (j, e) r)
  | Exc MateriaNoEncontrada => materias Samples.db0 !! 2%Z = None
  | Exc AccesoNoAutorizado =>
      exists m, materias Samples.db0 !! 2%Z = Some m /\ materia_usuario_id m <> 1%Z
  | Exc _ => False
  end.
Proof.
  assert (Hp : forall l : list (Z * Evento), Permutation l l) by (intros l; apply Permutation_refl).
  split; [exact Hp|].
  exact (list_events_page (fun l => l) Samples.db0 1 2 None 0 50 Hp).
Defined.

Lemma create_event_stores_witness :
  seq_ok Samples.db0 /\
  match EventService.create_event Samples.db0 1 Samples.repaso_create with
  | Ok ((k, e), db') =>
      (exists m, materias Samples.db0 !! ec_materia_id Samples.repaso_create = Some m /\
                 materia_usuario_id m = 1%Z) /\
      k = next_evento_id Samples.db0 /\ eventos Samples.db0 !! k = None /\
      eventos db' = <[k := e]> (eventos Samples.db0) /\
      evento_materia_id e = ec_materia_id Samples.repaso_create /\ materias db' = materias Samples.db0 /\
      seq_ok db'
  | Exc MateriaNoEncontrada => materias Samples.db0 !! ec_materia_id Samples.repaso_create = None
  | Exc AccesoNoAutorizado =>
      exists m, materias Samples.db0 !! ec_materia_id Samples.repaso_create = Some m /\
                materia_usuario_id m <> 1%Z
  | Exc _ => False
  end.
Proof.
  split; [exact seq_ok_db0|].
  exact (create_event_stores Samples.db0 1 Samples.repaso_create seq_ok_db0).
Defined.

Lemma deserialize_actions_first_missing_witness :
  match deserialize_actions [Samples.item_allow_null; Samples.item_no_args] with
  | Ok acts => length acts = length [Samples.item_allow_null; Samples.item_no_args] /\
               Forall2 (fun it a => dict_get it "kind" = Some (kind a) /\
                                    dict_get it "args" = Some (args a))
                       [Samples.item_allow_null; Samples.item_no_args] acts
  | Exc e => exists i item, nth_error [Samples.item_allow_null; Samples.item_no_args] i = Some item /\
               missing_field_error i item e /\
               forall j it, (j < i)%nat -> nth_error [Samples.item_allow_null; Samples.item_no_args] j = Some it ->
                            has_kind_args it
  end.
Proof. exact (deserialize_actions_first_missing [Samples.item_allow_null; Samples.item_no_args]). Defined.

Lemma execute_actions_summary_witness :
  (1 < length Samples.batch)%nat /\
  exists results successful failed skipped errors,
    fst (execute_actions Samples.db0 1 Samples.batch) =
      app results [RSummary (length Samples.batch) successful failed skipped errors] /\
    length results = length Samples.batch /\
    (successful + failed + skipped = length Samples.batch)%nat /\
    match errors with
    | None => (failed + skipped = 0)%nat
    | Some lines => length lines = (failed + skipped)%nat /\ lines <> []
    end.
Proof.
  assert (H : (1 < length Samples.batch)%nat) by (vm_compute; lia).
  split; [exact H | exact (execute_actions_summary Samples.db0 1 Samples.batch H)].
Defined.

Lemma nl_command_malformed_replay_400_witness :
  String.eqb "execute" "plan" = false /\
  In Samples.item_no_args [Samples.item_allow_null; Samples.item_no_args] /\
  ~ has_kind_args Samples.item_no_args /\
  exists i item m, nth_error [Samples.item_allow_null; Samples.item_no_args] i = Some item /\
    missing_field_error i item (ValueError m) /\
    V1NlCommand.nl_command Samples.db0 1 "" Samples.llm_biologia "execute"
      (Some [Samples.item_allow_null; Samples.item_no_args]) = Http.HTTPException 400 m.
Proof.
  assert (H1 : String.eqb "execute" "plan" = false) by reflexivity.
  assert (H2 : In Samples.item_no_args [Samples.item_allow_null; Samples.item_no_args])
    by (right; left; reflexivity).
  assert (H3 : ~ has_kind_args Samples.item_no_args) by (intros [_ H]; apply H; reflexivity).
  split; [exact H1|]. split; [exact H2|]. split; [exact H3|].
  exact (nl_command_malformed_replay_400 _ _ _ _ _ _ _ H1 H2 H3).
Defined.

Lemma nl_command_nothing_allowed_witness :
  String.eqb "execute" "plan" = false /\ [Samples.item_allow_null] <> [] /\
  deserialize_actions [Samples.item_allow_null] = Ok Samples.replay_allow_null /\
  Forall (fun a => allow_of a = false) Samples.replay_allow_null /\
  V1NlCommand.nl_command Samples.db0 1 "" Samples.llm_biologia "execute" (Some [Samples.item_allow_null]) =
    Http.Response 200 (V1NlCommand.ExecOut V1Nl.NoValidActions, Samples.db0).
Proof.
  assert (H1 : String.eqb "execute" "plan" = false) by reflexivity.
  assert (H2 : [Samples.item_allow_null] <> []) by discriminate.
  assert (H3 : deserialize_actions [Samples.item_allow_null] = Ok Samples.replay_allow_null)
    by (vm_compute; reflexivity).
  assert (H4 : Forall (fun a => allow_of a = false) Samples.replay_allow_null)
    by (vm_compute; repeat constructor).
  split; [exact H1|]. split; [exact H2|]. split; [exact H3|]. split; [exact H4|].
  exact (nl_command_nothing_allowed _ _ _ _ _ _ _ H1 H2 H3 H4).
Defined.



Lemma emails_unique_udb0 : emails_unique (Users.usuarios Samples.udb0).
Proof.
  intros k1 k2 u1 u2 H1 H2 _. cbn in H1, H2.
  apply lookup_insert_Some in H1 as [[<- _]|[_ H1]]; [|rewrite lookup_empty in H1; discriminate].
  apply lookup_insert_Some in H2 as [[<- _]|[_ H2]]; [reflexivity|rewrite lookup_empty in H2; discriminate].
Qed.

Lemma register_user_outcome_witness :
  emails_unique (Users.usuarios Samples.udb0) /\
  match Users.register_user Samples.toy_hash Samples.udb0 Samples.bob_create with
  | inl ((k, u), db') =>
      Users.usuario_email u = lower (strip (Users.uc_email Samples.bob_create)) /\
      Users.usuario_nombre u = strip (Users.uc_nombre Samples.bob_create) /\
      Users.usuario_password u = Samples.toy_hash (Users.uc_password Samples.bob_create) /\
      Users.usuarios db' = <[k := u]> (Users.usuarios Samples.udb0) /\
      emails_unique (Users.usuarios db')
  | inr e =>
      (e = Users.UsuarioDuplicado /\
       exists k u, Users.usuarios Samples.udb0 !! k = Some u /\
                   Users.usuario_email u = lower (strip (Users.uc_email Samples.bob_create))) \/
      (e = Users.UValueError "La contraseña no puede estar vacía." /\ Users.uc_password Samples.bob_create = "")
  end.
Proof.
  split; [exact emails_unique_udb0|].
  exact (register_user_outcome Samples.toy_hash Samples.udb0 Samples.bob_create emails_unique_udb0).
Defined.

Lemma register_same_email_409_witness :
  emails_unique (Users.usuarios Samples.udb0) /\
  Users.register_user Samples.toy_hash Samples.udb0 Samples.bob_create = inl ((2%Z, Samples.bob), Samples.udb_bob) /\
  lower (strip (Users.uc_email Samples.bob_create_again)) = lower (strip (Users.uc_email Samples.bob_create)) /\
  Users.register_endpoint Samples.toy_hash Samples.udb_bob Samples.bob_create_again =
    Http.HTTPException 409 "El email ya está registrado".
Proof.
  assert (H1 : Users.register_user Samples.toy_hash Samples.udb0 Samples.bob_create =
                 inl ((2%Z, Samples.bob), Samples.udb_bob)) by (vm_compute; reflexivity).
  assert (H2 : lower (strip (Users.uc_email Samples.bob_create_again)) =
                 lower (strip (Users.uc_email Samples.bob_create))) by (vm_compute; reflexivity).
  split; [exact emails_unique_udb0|]. split; [exact H1|]. split; [exact H2|].
  exact (register_same_email_409 _ _ _ _ _ _ _ emails_unique_udb0 H1 H2).
Defined.

Lemma update_user_profile_outcome_witness :
  emails_unique (Users.usuarios Samples.udb0) /\ Users.usuarios Samples.udb0 !! 1%Z = Some Samples.ana /\
  match Users.update_user_profile Samples.udb0 1 Samples.ana_new_email with
  | inl ((k, u), db') =>
      k = 1%Z /\ Users.usuario_password u = Users.usuario_password Samples.ana /\
      Users.usuarios db' = <[1%Z := u]> (Users.usuarios Samples.udb0) /\ emails_unique (Users.usuarios db')
  | inr e =>
      e = Users.UsuarioDuplicado /\
      (exists em k' u', Users.up_email Samples.ana_new_email = Some em /\ k' <> 1%Z /\
                        Users.usuarios Samples.udb0 !! k' = Some u' /\
                        Users.usuario_email u' = lower (strip em)) /\
      Users.update_profile_endpoint Samples.udb0 1 Samples.ana_new_email =
        Http.HTTPException 400 "El email ya está en uso por otro usuario"
  end.
Proof.
  assert (H : Users.usuarios Samples.udb0 !! 1%Z = Some Samples.ana) by (vm_compute; reflexivity).
  split; [exact emails_unique_udb0|]. split; [exact H|].
  exact (update_user_profile_outcome Samples.udb0 1 Samples.ana Samples.ana_new_email emails_unique_udb0 H).
Defined.

Lemma ilike_pct_substring_witness :
  no_like_wildcards "SIC" = true /\ ilike_pct "Fisica" "SIC" = ilike_contains "Fisica" "SIC".
Proof.
  assert (H : no_like_wildcards "SIC" = true) by reflexivity.
  split; [exact H | exact (ilike_pct_substring "Fisica" "SIC" H)].
Defined.

Lemma ilike_pct_wildcards_match_all_witness :
  "Fisica" <> "" /\ ilike_pct "Fisica" "%" = true /\ ilike_pct "Fisica" "_" = true.
Proof.
  assert (H : "Fisica" <> "") by discriminate.
  destruct (ilike_pct_wildcards_match_all "Fisica") as [H1 H2].
  split; [exact H|]. split; [exact H1 | exact (H2 H)].
Defined.

End Theorems.
